(** * pycroscopy.core.io: the HDF5 writer and its descriptor model

    A shallow embedding of [microdata.py] (the descriptor classes
    [MicroData], [MicroDataGroup], [MicroDataset]) and of [hdf_writer.py]
    (the class [HDFwriter] and the function [clean_string_att]).

    Python objects are modelled by inductive types, exceptions by the
    type [exn], and code that touches the open file by a state monad
    whose state survives a raised exception, as the file does.  The
    interpreter is Python 3, where the modules set [unicode = str];
    text is a string of characters below 256. *)

From Stdlib Require Import ZArith List String Ascii Bool Lia DecimalString.
Import ListNotations.
Open Scope string_scope.
Open Scope Z_scope.

Set Implicit Arguments.
Set Warnings "-register-all".

(* ================================================================== *)
(** * Python runtime *)

(** The exception classes that the two modules raise or let through. *)
Inductive exn : Type :=
| TypeError
| ValueError
| KeyError
| IndexError
| AssertionError
| AttributeError
| UnicodeEncodeError
| OSError.

Inductive result (A : Type) : Type :=
| Ok (a : A)
| Raise (e : exn).

Arguments Ok {A} a.
Arguments Raise {A} e.

Definition is_ok {A} (r : result A) : bool :=
  match r with Ok _ => true | Raise _ => false end.

Definition rbind {A B} (r : result A) (k : A -> result B) : result B :=
  match r with
  | Ok a => k a
  | Raise e => Raise e
  end.

Section ResultMap.
Context {A B : Type} (f : A -> result B).

(** A list comprehension whose body may raise. *)
Fixpoint rmap (l : list A) : result (list B) :=
  match l with
  | [] => Ok []
  | x :: l' =>
      rbind (f x) (fun y => rbind (rmap l') (fun ys => Ok (y :: ys)))
  end.
End ResultMap.

(** ** Strings *)

Module Str.

(** [sub in s] on Python strings. *)
Fixpoint contains (sub s : string) : bool :=
  prefix sub s ||
  match s with
  | EmptyString => false
  | String _ s' => contains sub s'
  end.

(** [s.split(c)]: always at least one piece. *)
Fixpoint split (c : ascii) (s : string) : list string :=
  match s with
  | EmptyString => [EmptyString]
  | String a s' =>
      if Ascii.eqb a c then EmptyString :: split c s'
      else match split c s' with
           | seg :: rest => String a seg :: rest
           | [] => [String a EmptyString]
           end
  end.

(** [s.split(c)[-1]] *)
Definition last_piece (c : ascii) (s : string) : string :=
  List.last (split c s) EmptyString.

(** [s[-1] == c], for a non-empty [s]. *)
Fixpoint ends_with (c : ascii) (s : string) : bool :=
  match s with
  | EmptyString => false
  | String a EmptyString => Ascii.eqb a c
  | String _ s' => ends_with c s'
  end.

(** [a.isspace()] for a character below 256: the blanks of ASCII, the
    separators [\x1c] to [\x1f], [\x85] and [\xa0]. *)
Definition is_space (a : ascii) : bool :=
  let n := nat_of_ascii a in
  (Nat.eqb n 32 || (Nat.leb 9 n && Nat.leb n 13) || (Nat.leb 28 n && Nat.leb n 31)
   || Nat.eqb n 133 || Nat.eqb n 160)%bool.

Fixpoint lstrip (s : string) : string :=
  match s with
  | String a s' => if is_space a then lstrip s' else s
  | EmptyString => EmptyString
  end.

Fixpoint rstrip (s : string) : string :=
  match s with
  | EmptyString => EmptyString
  | String a s' =>
      match rstrip s' with
      | EmptyString => if is_space a then EmptyString else String a EmptyString
      | r => String a r
      end
  end.

Definition strip (s : string) : string := rstrip (lstrip s).

(** The digits of a literal without the underscores that group them:
    an underscore stands between two digits, never first, last or next
    to another. *)
Fixpoint ungroup (after_digit : bool) (s : string) : option string :=
  match s with
  | EmptyString => if after_digit then Some EmptyString else None
  | String a s' =>
      if Ascii.eqb a "_" then (if after_digit then ungroup false s' else None)
      else option_map (String a) (ungroup true s')
  end.

Definition digits_value (d : string) : option Z :=
  match ungroup false d with
  | Some d' => option_map (fun u => Z.of_N (N.of_uint u)) (NilZero.uint_of_string d')
  | None => None
  end.

(** [int(s)] for a decimal literal: white space around it, an optional
    sign, at least one digit, single underscores between digits.
    [None] stands for the [ValueError]. *)
Definition py_int (s : string) : option Z :=
  match strip s with
  | String "+" d => digits_value d
  | String "-" d => option_map Z.opp (digits_value d)
  | d => digits_value d
  end.

(** [str(z)] *)
Definition of_Z (z : Z) : string := NilZero.string_of_int (Z.to_int z).

Fixpoint zeros (n : nat) : string :=
  match n with
  | O => EmptyString
  | S n' => String "0" (zeros n')
  end.

(** ['{:03d}'.format(z)]: the sign counts in the width of three. *)
Definition format_03d (z : Z) : string :=
  if z <? 0 then
    let d := of_Z (- z) in
    String "-" (zeros (2 - String.length d) ++ d)
  else
    let d := of_Z z in
    zeros (3 - String.length d) ++ d.

Fixpoint join (sep : string) (l : list string) : string :=
  match l with
  | [] => EmptyString
  | [x] => x
  | x :: l' => x ++ sep ++ join sep l'
  end.

(** The encoding that [np.array(..., dtype='S')] applies to text:
    ASCII, which fails on any character above 127. *)
Fixpoint is_ascii (s : string) : bool :=
  match s with
  | EmptyString => true
  | String a s' => Nat.ltb (nat_of_ascii a) 128 && is_ascii s'
  end.

Definition encode_ascii (s : string) : result string :=
  if is_ascii s then Ok s else Raise UnicodeEncodeError.

Fixpoint chars (s : string) : list string :=
  match s with
  | EmptyString => []
  | String a s' => String a EmptyString :: chars s'
  end.

Fixpoint codes (s : string) : list Z :=
  match s with
  | EmptyString => []
  | String a s' => Z.of_nat (nat_of_ascii a) :: codes s'
  end.

Fixpoint insert_sorted (x : string) (l : list string) : list string :=
  match l with
  | [] => [x]
  | y :: l' => if String.leb x y then x :: l else y :: insert_sorted x l'
  end.

Definition sort (l : list string) : list string :=
  fold_right insert_sorted [] l.

End Str.

(* ================================================================== *)
(** * Attribute values *)

(** [slice(start, stop, step)] *)
Record slice : Type := Slice {
  start : option Z;
  stop : option Z;
  step : option Z
}.

(** The value of a ['labels'] attribute: region name to one slice per
    axis.  A Python dict keeps the order in which keys were added. *)
Definition labels_dict : Type := list (string * list slice).

(** An n-dimensional array: a 0-d array is an [Item]. *)
Inductive nd (A : Type) : Type :=
| Item (a : A)
| Axis (l : list (nd A)).

Arguments Item {A} a.
Arguments Axis {A} l.

(** The objects that occur as attribute values, by exact Python type. *)
Inductive att_val : Type :=
| PyNone
| PyInt (z : Z)
| PyStr (s : string)            (* str, which is unicode *)
| PyBytes (s : string)          (* bytes *)
| NpStr (s : string)            (* np.str_ *)
| NpBytes (b : string)          (* np.bytes_, an element of an 'S' array *)
| NpInt (z : Z)                 (* an element of an integer array *)
| PyList (l : list att_val)     (* list or tuple *)
| NpArrS (a : nd string)        (* np.ndarray of dtype 'S' *)
| NpArrI (a : nd Z)             (* np.ndarray of an integer dtype *)
| PyDict (d : labels_dict).

(** [repr] of the objects a ['labels'] dict is made of, which is also
    their [str]. *)
Module Repr.

Definition hex_digit (n : nat) : string :=
  String.substring n 1 "0123456789abcdef".

(** A character above 127 that [repr] leaves as it is: the printable
    ones of Latin-1. *)
Definition printable_high (n : nat) : bool :=
  Nat.leb 161 n && negb (Nat.eqb n 173).

Definition escape (quote : ascii) (a : ascii) : string :=
  let n := nat_of_ascii a in
  if Ascii.eqb a quote || Ascii.eqb a "\"%char then String "\" (String a "")
  else if Nat.eqb n 9 then "\t"
  else if Nat.eqb n 10 then "\n"
  else if Nat.eqb n 13 then "\r"
  else if Nat.ltb n 32 || Nat.eqb n 127 || (Nat.leb 128 n && negb (printable_high n))
       then "\x" ++ hex_digit (n / 16) ++ hex_digit (n mod 16)
  else String a "".

Fixpoint escape_all (quote : ascii) (s : string) : string :=
  match s with
  | EmptyString => EmptyString
  | String a s' => escape quote a ++ escape_all quote s'
  end.

(** [repr(s)] for a [str]: in double quotes when [s] has a single
    quote and no double quote, else in single quotes. *)
Definition of_str (s : string) : string :=
  let quote := if Str.contains "'" s && negb (Str.contains (String (ascii_of_nat 34) "") s)
               then ascii_of_nat 34 else "'"%char in
  String quote (escape_all quote s ++ String quote "").

Definition of_option_int (o : option Z) : string :=
  match o with
  | None => "None"
  | Some z => Str.of_Z z
  end.

Definition of_slice (sl : slice) : string :=
  "slice(" ++ of_option_int (start sl) ++ ", " ++ of_option_int (stop sl)
           ++ ", " ++ of_option_int (step sl) ++ ")".

(** [repr] of a tuple of slices *)
Definition of_tuple (sel : list slice) : string :=
  match sel with
  | [sl] => "(" ++ of_slice sl ++ ",)"
  | _ => "(" ++ Str.join ", " (map of_slice sel) ++ ")"
  end.

(** [repr] of a dict from names to tuples of slices *)
Definition of_labels (d : labels_dict) : string :=
  "{" ++ Str.join ", " (map (fun kv => of_str (fst kv) ++ ": " ++ of_tuple (snd kv)) d)
      ++ "}".

End Repr.

Module NumPy.

Fixpoint nd_map {A B} (f : A -> B) (a : nd A) : nd B :=
  match a with
  | Item x => Item (f x)
  | Axis l => Axis (map (nd_map f) l)
  end.

Fixpoint shape {A} (a : nd A) : list nat :=
  match a with
  | Item _ => []
  | Axis l =>
      List.length l ::
      match l with
      | [] => []
      | x :: _ => shape x
      end
  end.

Definition shape_eqb (s1 s2 : list nat) : bool :=
  if list_eq_dec Nat.eq_dec s1 s2 then true else false.

(** The pieces of a nested sequence must agree in shape. *)
Definition homogeneous {A} (l : list (nd A)) : bool :=
  match l with
  | [] => true
  | x :: l' => forallb (fun y => shape_eqb (shape y) (shape x)) l'
  end.

(** [np.array(v, dtype='S')] *)
Fixpoint array_S (v : att_val) : result (nd string) :=
  match v with
  | PyNone => Ok (Item "None")
  | PyInt z | NpInt z => Ok (Item (Str.of_Z z))
  | PyStr s | NpStr s => rbind (Str.encode_ascii s) (fun b => Ok (Item b))
  | PyBytes s => Ok (Item s)
  | NpBytes b => Ok (Item b)
  | PyList l =>
      rbind (rmap array_S l)
            (fun xs => if homogeneous xs then Ok (Axis xs) else Raise ValueError)
  | NpArrS a => Ok a
  | NpArrI a => Ok (nd_map Str.of_Z a)
  | PyDict d => rbind (Str.encode_ascii (Repr.of_labels d)) (fun b => Ok (Item b))
  end.

(** [np.any(tests)] *)
Definition any (tests : list bool) : bool := existsb (fun b => b) tests.

(** [np.where(tests)[0]]: the places of the items that are true, from
    the place [i] of the first item on. *)
Fixpoint where_from (i : nat) (tests : list bool) : list nat :=
  match tests with
  | [] => []
  | b :: tests' => (if b then [i] else []) ++ where_from (S i) tests'
  end.

Definition where_true (tests : list bool) : list nat := where_from 0 tests.

(** [np.all(tests)] *)
Definition all (tests : list bool) : bool := forallb (fun b => b) tests.

End NumPy.

Module Py.

(** [isinstance(v, collections.Iterable)] *)
Definition isinstance_Iterable (v : att_val) : bool :=
  match v with
  | PyNone | PyInt _ | NpInt _ => false
  | _ => true
  end.

(** [[x for x in v]]: what iterating over [v] yields.  A 0-d array
    cannot be iterated over. *)
Definition iterate (v : att_val) : result (list att_val) :=
  match v with
  | PyStr s | NpStr s => Ok (map PyStr (Str.chars s))
  | PyBytes s => Ok (map PyInt (Str.codes s))
  | NpBytes s => Ok (map PyInt (Str.codes s))
  | PyList l => Ok l
  | NpArrS (Axis l) =>
      Ok (map (fun a => match a with Item b => NpBytes b | Axis _ => NpArrS a end) l)
  | NpArrI (Axis l) =>
      Ok (map (fun a => match a with Item z => NpInt z | Axis _ => NpArrI a end) l)
  | PyDict d => Ok (map (fun kv => PyStr (fst kv)) d)
  | _ => Raise TypeError
  end.

(** [v is None] *)
Definition is_None (v : att_val) : bool :=
  match v with PyNone => true | _ => false end.

(** [type(v) in [unicode, str]] *)
Definition type_in_unicode_str (v : att_val) : bool :=
  match v with PyStr _ => true | _ => false end.

(** [type(v) in [str, unicode, bytes]] *)
Definition type_in_str_unicode_bytes (v : att_val) : bool :=
  match v with PyStr _ | PyBytes _ => true | _ => false end.

End Py.

(** [clean_string_att]: the [try] block; its [except TypeError] clause
    raises [TypeError] again, and lets every other exception through. *)
Definition clean_string_att (v : att_val) : result att_val :=
  let rest :=
    match v with
    | NpStr s => Ok (PyStr s)            (* type(att_val) == np.str_ *)
    | _ => Ok v
    end in
  if Py.isinstance_Iterable v then
    if Py.type_in_unicode_str v then Ok v
    else
      rbind (Py.iterate v) (fun xs =>
        if NumPy.any (map Py.type_in_str_unicode_bytes xs)
        then rbind (NumPy.array_S v) (fun a => Ok (NpArrS a))
        else rest)
  else rest.

(* ================================================================== *)
(** * microdata.py: the descriptor model *)

(** A Python dict with string keys, in insertion order. *)
Module Dict.
Section Dict.
Context {V : Type}.

Definition t : Type := list (string * V).

(** [d[k]]; [None] stands for the [KeyError]. *)
Fixpoint get (k : string) (d : t) : option V :=
  match d with
  | [] => None
  | (k', v) :: d' => if String.eqb k k' then Some v else get k d'
  end.

(** [d[k] = v]: an existing key keeps its place. *)
Fixpoint set (k : string) (v : V) (d : t) : t :=
  match d with
  | [] => [(k, v)]
  | (k', v') :: d' =>
      if String.eqb k k' then (k', v) :: d' else (k', v') :: set k v d'
  end.

Definition keys (d : t) : list string := map fst d.
Definition values (d : t) : list V := map snd d.
End Dict.
Arguments t V : clear implicits.
End Dict.

(** The result of [np.array(data)]: shape, dtype and the elements in
    row-major order. *)
Record ndarray : Type := NdArray {
  arr_shape : list Z;
  arr_dtype : string;
  arr_elems : list Z
}.

(** A shape as the descriptors hold it: one entry per axis, [None] for
    an axis without bound. *)
Definition shape_spec : Type := list (option Z).

(** The fields every [MicroData] object has. *)
Record node : Type := Node {
  name : string;
  parent : string;
  attrs : Dict.t att_val;
  indexed : bool
}.

(** The fields [MicroDataset.__init__] adds. *)
Record dataset_fields : Type := DatasetFields {
  data : option ndarray;
  dtype : option string;
  compression : option string;
  chunking : option shape_spec;
  resizable : bool;
  maxshape : option shape_spec
}.

(** An instance of [MicroData] or of one of its two subclasses. *)
Inductive MicroData : Type :=
| Plain (n : node)
| Group (n : node) (children : list MicroData)
| Dataset (n : node) (f : dataset_fields).

(** Any Python object, as far as [isinstance(_, MicroData)] tells. *)
Inductive py_object : Type :=
| Obj (m : MicroData)
| NotMicroData.

Definition node_of (m : MicroData) : node :=
  match m with
  | Plain n | Group n _ | Dataset n _ => n
  end.

Definition with_node (m : MicroData) (n : node) : MicroData :=
  match m with
  | Plain _ => Plain n
  | Group _ cs => Group n cs
  | Dataset _ f => Dataset n f
  end.

Definition set_name (s : string) (n : node) : node :=
  Node s (parent n) (attrs n) (indexed n).

Definition set_parent (s : string) (n : node) : node :=
  Node (name n) s (attrs n) (indexed n).

Definition set_attrs (d : Dict.t att_val) (n : node) : node :=
  Node (name n) (parent n) d (indexed n).

Definition set_indexed (b : bool) (n : node) : node :=
  Node (name n) (parent n) (attrs n) b.

(** The [attrs] argument of the constructors. *)
Inductive attrs_arg : Type :=
| AttrsNone
| AttrsDict (d : Dict.t att_val)
| AttrsOther.

Module MicroData.

(** [MicroData.__init__] *)
Definition __init__ (nm par : string) (ats : attrs_arg)
  : result node :=
  match ats with
  | AttrsOther => Raise TypeError
  | AttrsDict d => Ok (Node nm par d false)
  | AttrsNone => Ok (Node nm par [] false)
  end.

End MicroData.

(** What the constructor of a group asks the host: [socket.getfqdn()]
    and [get_time_stamp()] of [io_utils], which formats the local time
    as text. *)
Record host : Type := Host {
  getfqdn : string;
  get_time_stamp : string
}.

(** The [children] argument: nothing, one object, or a list or tuple. *)
Inductive children_arg : Type :=
| ChildrenNone
| ChildrenOne (o : py_object)
| ChildrenSeq (l : list py_object).

Module MicroDataGroup.

(** The loop of [MicroDataGroup.add_children]; the second component
    collects the warnings. *)
Fixpoint add_each (self_path : string) (l : list py_object)
  : list MicroData * list string :=
  match l with
  | [] => ([], [])
  | Obj child :: l' =>
      let (cs, ws) := add_each self_path l' in
      (with_node child (set_parent self_path (node_of child)) :: cs, ws)
  | NotMicroData :: l' =>
      let (cs, ws) := add_each self_path l' in
      (cs, "Children must be of type MicroData. child ignored" :: ws)
  end.

(** [MicroDataGroup.add_children] *)
Definition add_children (n : node) (own : list MicroData) (children : children_arg)
  : list MicroData * list string :=
  let l := match children with
           | ChildrenNone => [NotMicroData]    (* [None] *)
           | ChildrenOne o => [o]
           | ChildrenSeq l => l
           end in
  let (cs, ws) := add_each (parent n ++ name n) l in
  ((own ++ cs)%list, ws).

(** [MicroDataGroup.__init__] *)
Definition __init__ (h : host) (nm par : string)
    (ats : attrs_arg) (children : children_arg)
  : result (MicroData * list string) :=
  rbind (MicroData.__init__ nm par ats) (fun self =>
    let a := Dict.set "machine_id" (PyStr (getfqdn h)) (attrs self) in
    let a := Dict.set "timestamp" (PyStr (get_time_stamp h)) a in
    let self := set_attrs a self in
    let self := set_indexed false self in
    let self :=
      if String.eqb nm "" then self
      else set_indexed (Str.ends_with "_" nm) self in
    match children with
    | ChildrenNone => Ok (Group self [], [])
    | _ => let (cs, ws) := add_children self [] children in
           Ok (Group self cs, ws)
    end).

End MicroDataGroup.

(** The [maxshape] and [chunking] arguments: nothing, one number, or a
    list or tuple whose items are numbers or [None]. *)
Inductive shape_arg : Type :=
| ShapeNone
| ShapeScalar (item : Z)
| ShapeSeq (l : shape_spec).

Definition is_None {A} (o : option A) : bool :=
  match o with None => true | Some _ => false end.

Module MicroDataset.

(** [_make_iterable] of [MicroDataset.__init__] *)
Definition _make_iterable (param : shape_arg) : option shape_spec :=
  match param with
  | ShapeNone => None
  | ShapeScalar item => Some [Some item]
  | ShapeSeq l => Some l
  end.

(** [_valid_shapes] of [MicroDataset.__init__]; on integers
    [item % 1 == 0] holds. *)
Definition _valid_shapes (param : option shape_spec) (none_ok : bool) : bool :=
  match param with
  | None => true
  | Some l =>
      NumPy.all (map (fun item => match item with
                                  | None => none_ok
                                  | Some z => 0 <? z
                                  end) l)
  end.

(** [compression not in [None, 'gzip', 'lzf']] *)
Definition valid_compression (c : option string) : bool :=
  match c with
  | None => true
  | Some s => String.eqb s "gzip" || String.eqb s "lzf"
  end.

(** The block [if maxshape is not None: ...] *)
Definition check_maxshape (dat : option ndarray) (ms : option shape_spec)
  : result unit :=
  match ms with
  | None => Ok tt
  | Some ms =>
      match dat with
      | Some d =>
          if negb (Nat.eqb (List.length (arr_shape d)) (List.length ms))
          then Raise ValueError
          else if existsb (fun dm => match snd dm with
                                     | Some m_size => m_size <? fst dm
                                     | None => false
                                     end) (combine (arr_shape d) ms)
          then Raise ValueError
          else Ok tt
      | None =>
          if NumPy.any (map is_None ms) then Raise ValueError else Ok tt
      end
  end.

(** The block [if chunking is not None: ...] *)
Definition check_chunking (dat : option ndarray) (ms ch : option shape_spec)
  : result unit :=
  match ch with
  | None => Ok tt
  | Some ch =>
      if existsb is_None ch then Raise ValueError
      else
        rbind (match ms with
               | Some ms => Ok ms
               | None => match dat with
                         | Some d => Ok (map Some (arr_shape d))
                         | None => Raise AttributeError
                         end
               end) (fun data_shape =>
          if negb (Nat.eqb (List.length data_shape) (List.length ch))
          then Raise ValueError
          else if existsb (fun cm => match snd cm, fst cm with
                                     | Some mx, Some c => mx <? c
                                     | _, _ => false
                                     end) (combine ch data_shape)
          then Raise ValueError
          else Ok tt)
  end.

(** [MicroDataset.__init__].  A dtype is held by its name, so
    [np.dtype(dtype)] changes nothing. *)
Definition __init__ (nm : string) (dat : option ndarray)
    (dt : option string) (comp : option string) (chunk : shape_arg)
    (par : option string) (resiz : bool) (maxsh : shape_arg)
    (ats : attrs_arg) : result MicroData :=
  let par := match par with None => "/" | Some p => p end in
  rbind (MicroData.__init__ nm par ats) (fun self =>
    let maxsh := _make_iterable maxsh in
    let chunk := _make_iterable chunk in
    if negb (_valid_shapes maxsh true) then Raise AssertionError
    else if negb (_valid_shapes chunk false) then Raise AssertionError
    else if negb (valid_compression comp) then Raise ValueError
    else if NumPy.all [is_None dat; is_None maxsh] then Raise ValueError
    else
      rbind (check_maxshape dat maxsh) (fun _ =>
      rbind (check_chunking dat maxsh chunk) (fun _ =>
        let dt := match dat, dt with
                  | Some d, None => Some (arr_dtype d)
                  | _, _ => dt
                  end in
        Ok (Dataset self (DatasetFields dat dt comp chunk resiz maxsh))))).

End MicroDataset.

Module EmptyMicroDataset.

(** [EmptyMicroDataset.__init__] *)
Definition __init__ (nm : string) (maxsh : shape_arg)
    (dt : option string) (comp : option string) (chunk : shape_arg)
    (par : option string) (ats : attrs_arg) : result MicroData :=
  MicroDataset.__init__ nm None dt comp chunk par false maxsh ats.

End EmptyMicroDataset.

Module ExpandableMicroDataset.

(** [ExpandableMicroDataset.__init__] *)
Definition __init__ (nm : string) (dat : option ndarray)
    (dt : option string) (comp : option string) (chunk : shape_arg)
    (par : option string) (maxsh : shape_arg) (ats : attrs_arg)
  : result MicroData :=
  MicroDataset.__init__ nm dat dt comp chunk par true maxsh ats.

End ExpandableMicroDataset.

(* ================================================================== *)
(** * The HDF5 file

    h5py is not part of the repository.  The file is modelled as far as
    the writer uses it: groups and datasets by absolute path, their
    attributes, the keys of a group as the view that Python 3 gets
    (iterated over in name order, without a subscript), and a file
    that refuses every operation once it is closed.  A link name is one
    path component; what h5py does with a name that is empty or holds a
    ['/'] is left out, such a name is refused.  No file takes [None]
    for the value of an attribute.  What else a file refuses (a chunk
    shape it cannot honour, another value without an HDF5 type) is a
    parameter of the file, [refuses]. *)

Definition path : Type := list string.

Definition path_eqb (p q : path) : bool :=
  if list_eq_dec string_dec p q then true else false.

(** The components of a path: repeated and trailing slashes vanish. *)
Definition split_path (s : string) : path :=
  filter (fun c => negb (String.eqb c "")) (Str.split "/" s).

(** [h5_obj.name] *)
Definition path_name (p : path) : string :=
  "/" ++ Str.join "/" p.

Definition valid_link (nm : string) : bool :=
  negb (String.eqb nm "") && negb (Str.contains "/" nm).

(** A stored attribute: a normalised value or a region reference. *)
Inductive attr_obj : Type :=
| Val (v : att_val)
| RegionReference (sel : list slice).

(** What a dataset holds: the fill value everywhere, or the array it
    was created from. *)
Inductive content : Type :=
| Fill
| Written (a : ndarray).

Record h5dataset : Type := H5Dataset {
  ds_shape : list Z;
  ds_dtype : string;
  ds_content : content;
  ds_maxshape : shape_spec;          (* [None]: unlimited *)
  ds_chunks : option shape_spec;
  ds_compression : option string
}.

Inductive h5kind : Type :=
| IsGroup
| IsDataset (d : h5dataset).

Record h5object : Type := H5Object {
  kind : h5kind;
  h5attrs : Dict.t attr_obj
}.

(** The arguments of [Group.create_dataset]. *)
Record dataset_args : Type := DatasetArgs {
  a_name : string;
  a_shape : option shape_spec;
  a_dtype : option string;
  a_data : option ndarray;
  a_compression : option string;
  a_chunks : option shape_spec;
  a_maxshape : option shape_spec
}.

Inductive request : Type :=
| CreateGroup (nm : string)
| CreateDataset (a : dataset_args)
| SetAttr (key : string) (v : attr_obj).

Record h5file : Type := H5File {
  objects : list (path * h5object);
  closed : bool;
  refuses : request -> bool
}.

(** A [h5py.Group] or [h5py.Dataset] object: where it is in the file,
    and which of the two classes it is an instance of. *)
Record handle : Type := Handle {
  h_path : path;
  h_is_group : bool
}.

(** The interpreter state the writer acts on: the file and the
    warnings issued so far. *)
Record world : Type := World {
  file : h5file;
  warnings : list string
}.

(** ** Code that acts on the file *)

Definition M (A : Type) : Type := world -> result A * world.

Definition ret {A} (a : A) : M A := fun w => (Ok a, w).

Definition raise {A} (e : exn) : M A := fun w => (Raise e, w).

Definition bind {A B} (m : M A) (k : A -> M B) : M B :=
  fun w => match m w with
           | (Ok a, w') => k a w'
           | (Raise e, w') => (Raise e, w')
           end.

(** [try: m  except: h] *)
Definition try_except {A} (m : M A) (h : exn -> M A) : M A :=
  fun w => match m w with
           | (Ok a, w') => (Ok a, w')
           | (Raise e, w') => h e w'
           end.

Definition lift {A} (r : result A) : M A := fun w => (r, w).

Declare Scope monad_scope.
Delimit Scope monad_scope with monad.
Notation "x <- m ;; k" := (bind m (fun x => k))
  (at level 61, m at next level, right associativity) : monad_scope.
Notation "m ;;; k" := (bind m (fun _ => k))
  (at level 61, right associativity) : monad_scope.
Open Scope monad_scope.

(** [warn(msg)] *)
Definition warn (msg : string) : M unit :=
  fun w => (Ok tt, World (file w) (warnings w ++ [msg])%list).

Section ForEach.
Context {A : Type} (body : A -> M unit).

(** [for x in l: body(x)] *)
Fixpoint for_each (l : list A) : M unit :=
  match l with
  | [] => ret tt
  | x :: l' => body x ;;; for_each l'
  end.
End ForEach.

(** ** h5py *)

Module H5.

Fixpoint lookup (p : path) (l : list (path * h5object)) : option h5object :=
  match l with
  | [] => None
  | (q, o) :: l' => if path_eqb p q then Some o else lookup p l'
  end.

Fixpoint update (p : path) (o : h5object) (l : list (path * h5object))
  : list (path * h5object) :=
  match l with
  | [] => []
  | (q, o') :: l' =>
      if path_eqb p q then (q, o) :: l' else (q, o') :: update p o l'
  end.

(** The link names directly under [g], in the order of the file. *)
Definition child_names (g : path) (l : list (path * h5object)) : list string :=
  flat_map (fun po =>
    match List.removelast (fst po), List.last (fst po) "" with
    | q, nm => if negb (path_eqb (fst po) []) && path_eqb q g then [nm] else []
    end) l.

Definition with_objects (f : h5file) (l : list (path * h5object)) : h5file :=
  H5File l (closed f) (refuses f).

(** Every operation on a closed file fails. *)
Definition opened {A} (k : h5file -> M A) : M A :=
  fun w => if closed (file w) then (Raise ValueError, w) else k (file w) w.

Definition put_file (f : h5file) : M unit :=
  fun w => (Ok tt, World f (warnings w)).

Definition handle_of (p : path) (o : h5object) : handle :=
  Handle p (match kind o with IsGroup => true | IsDataset _ => false end).

(** [h5_file[p]] for an absolute path [p]; the empty string names no
    object. *)
Definition getitem (p : string) : M handle :=
  opened (fun f =>
    if String.eqb p "" then raise ValueError
    else
      match lookup (split_path p) (objects f) with
      | Some o => ret (handle_of (split_path p) o)
      | None => raise KeyError
      end).

(** [g[nm]] for a link name [nm] *)
Definition getitem_in (g : handle) (nm : string) : M handle :=
  opened (fun f =>
    match lookup (h_path g ++ [nm])%list (objects f) with
    | Some o => ret (handle_of (h_path g ++ [nm])%list o)
    | None => raise KeyError
    end).

(** What [g.keys()] returns on Python 3: a view of the link names
    under [g], given here by the names it yields when iterated over, in
    name order.  A view can be iterated over and asked whether it holds
    a name; it has no subscript. *)
Definition keys_view : Type := list string.

(** [view[i]]: ['KeysView' object is not subscriptable]. *)
Definition subscript (view : keys_view) (i : nat) : result string :=
  Raise TypeError.

(** [g.keys()] *)
Definition keys (g : handle) : M keys_view :=
  opened (fun f => ret (Str.sort (child_names (h_path g) (objects f)))).

(** [g.create_group(nm)]: h5py raises [ValueError] when the library
    does not make the group, be it that the name is taken or that the
    file refuses. *)
Definition create_group (g : handle) (nm : string) : M handle :=
  opened (fun f =>
    match lookup (h_path g ++ [nm])%list (objects f) with
    | Some _ => raise ValueError
    | None =>
        if negb (valid_link nm) || refuses f (CreateGroup nm) then raise ValueError
        else
          put_file (with_objects f
            (objects f ++ [((h_path g ++ [nm])%list, H5Object IsGroup [])])%list) ;;;
          ret (Handle (h_path g ++ [nm])%list true)
    end).

Definition all_Some {A} (l : list (option A)) : option (list A) :=
  fold_right (fun o acc => match o, acc with
                           | Some x, Some xs => Some (x :: xs)
                           | _, _ => None
                           end) (Some []) l.

(** The dataset [create_dataset] makes: the shape is the one asked
    for, else the one of the data; the dtype is the one asked for,
    else the one of the data, else single-precision float; a dataset
    made without data holds the fill value. *)
Definition new_dataset (a : dataset_args) : result h5dataset :=
  rbind (match a_shape a, a_data a with
         | Some s, _ => match all_Some s with
                        | Some s => Ok s
                        | None => Raise TypeError
                        end
         | None, Some d => Ok (arr_shape d)
         | None, None => Raise TypeError
         end) (fun shape =>
    Ok (H5Dataset shape
          (match a_dtype a, a_data a with
           | Some t, _ => t
           | None, Some d => arr_dtype d
           | None, None => "float32"
           end)
          (match a_data a with
           | Some d => Written d
           | None => Fill
           end)
          (match a_maxshape a with
           | Some m => m
           | None => map Some shape
           end)
          (a_chunks a)
          (a_compression a))).

(** [g.create_dataset(...)] *)
Definition create_dataset (g : handle) (a : dataset_args) : M handle :=
  opened (fun f =>
    match lookup (h_path g ++ [a_name a])%list (objects f) with
    | Some _ => raise ValueError
    | None =>
        d <- lift (new_dataset a) ;;
        if negb (valid_link (a_name a)) || refuses f (CreateDataset a)
        then raise OSError
        else
          put_file (with_objects f
            (objects f ++ [((h_path g ++ [a_name a])%list,
                            H5Object (IsDataset d) [])])%list) ;;;
          ret (Handle (h_path g ++ [a_name a])%list false)
    end).

(** HDF5 has no type for [None]: no file takes it as the value of an
    attribute. *)
Definition storable (v : attr_obj) : bool :=
  match v with
  | Val PyNone => false
  | _ => true
  end.

(** [h.attrs[key] = v] *)
Definition set_attr (h : handle) (key : string) (v : attr_obj) : M unit :=
  opened (fun f =>
    match lookup (h_path h) (objects f) with
    | None => raise KeyError
    | Some o =>
        if negb (storable v) || refuses f (SetAttr key v) then raise TypeError
        else put_file (with_objects f
               (update (h_path h) (H5Object (kind o) (Dict.set key v (h5attrs o)))
                       (objects f)))
    end).

(** [dataset.shape] *)
Definition shape (h : handle) : M (list Z) :=
  opened (fun f =>
    match lookup (h_path h) (objects f) with
    | Some (H5Object (IsDataset d) _) => ret (ds_shape d)
    | _ => raise AttributeError
    end).

(** [dataset.regionref[sel]] *)
Definition regionref (h : handle) (sel : list slice) : M attr_obj :=
  opened (fun _ => ret (RegionReference sel)).

(** [h5_file.flush()] *)
Definition flush : M unit := ret tt.

(** [h5_file.close()] *)
Definition close : M unit :=
  fun w => (Ok tt, World (H5File (objects (file w)) true (refuses (file w)))
                         (warnings w)).

End H5.

(* ================================================================== *)
(** * hdf_writer.py: the class HDFwriter

    The [print_log] argument only prints, it is left out. *)

Module HDFwriter.

(** [l[i]] with Python's negative indices; [None] stands for the
    [IndexError]. *)
Definition py_index (len : nat) (i : Z) : option nat :=
  if (0 <=? i) && (i <? Z.of_nat len) then Some (Z.to_nat i)
  else if (- Z.of_nat len <=? i) && (i <? 0) then Some (Z.to_nat (Z.of_nat len + i))
  else None.

(** [l[i] = x] for an index in range *)
Fixpoint list_set {A} (i : nat) (x : A) (l : list A) : list A :=
  match l, i with
  | [], _ => []
  | _ :: l', O => x :: l'
  | y :: l', S i' => y :: list_set i' x l'
  end.

(** ** [__write_region_references] *)
Definition __write_region_references (dataset : handle) (slices : labels_dict)
  : M unit :=
  for_each (fun sl =>
    match Dict.get sl slices with
    | None => raise KeyError
    | Some sel =>
        shape <- H5.shape dataset ;;
        if Nat.eqb (List.length sel) (List.length shape) then
          r <- H5.regionref dataset sel ;;
          H5.set_attr dataset sl r
        else
          warn ("Region reference " ++ sl ++
                " could not be written since the object size was not equal to the dimensions of the dataset") ;;;
          raise ValueError
    end) (Dict.keys slices).

(** The loop that looks for the dimension of the slicing: the first
    position of the tuple whose slice has a start. *)
Fixpoint find_dim (dimen : nat) (sel : list slice) : option nat :=
  match sel with
  | [] => None
  | slice_obj :: sel' =>
      match start slice_obj with
      | Some _ => Some dimen
      | None => find_dim (S dimen) sel'
      end
  end.

(** The loop [for col_name in labels.keys(): headers[...] = col_name] *)
Fixpoint fill_headers (labels : labels_dict) (dimen : nat)
    (cols : list string) (headers : list att_val) : result (list att_val) :=
  match cols with
  | [] => Ok headers
  | col_name :: cols' =>
      match Dict.get col_name labels with
      | None => Raise KeyError
      | Some sel =>
          match nth_error sel dimen with
          | None => Raise IndexError
          | Some slice_obj =>
              match start slice_obj with
              | None => Raise TypeError
              | Some i =>
                  match py_index (List.length headers) i with
                  | None => Raise IndexError
                  | Some j =>
                      fill_headers labels dimen cols'
                                   (list_set j (PyStr col_name) headers)
                  end
              end
          end
      end
  end.

(** The body of [if key == 'labels':] in [__write_attributes] *)
Definition write_labels (h5_dset : handle) (key : string) (val : att_val)
  : M unit :=
  match val with
  | PyDict labels =>
      __write_region_references h5_dset labels ;;;
      match Dict.values labels with
      | [] => raise IndexError
      | first :: _ =>
          match find_dim 0 first with
          | Some dimen =>
              headers <- lift (fill_headers labels dimen (Dict.keys labels)
                                 (repeat PyNone (List.length labels))) ;;
              v <- lift (clean_string_att (PyList headers)) ;;
              H5.set_attr h5_dset key (Val v)
          | None =>
              warn ("Unable to write region labels for " ++
                    Str.last_piece "/" (path_name (h_path h5_dset)))
          end
      end
  | _ => raise AttributeError
  end.

(** ** [__write_attributes] *)
Definition __write_attributes (microdset : node) (h5_dset : handle) : M unit :=
  for_each (fun kv =>
    if String.eqb (fst kv) "labels" then write_labels h5_dset (fst kv) (snd kv)
    else
      v <- lift (clean_string_att (snd kv)) ;;
      H5.set_attr h5_dset (fst kv) (Val v))
    (attrs microdset).

(** ** [_create_group] *)

(** The index of an indexed group, from the keys of the parent.  With
    a key that holds the name, the subscript on the view of the keys
    raises, and the number behind the last underscore is never read. *)
Definition next_index (nm : string) (keys : H5.keys_view) : result Z :=
  let previous := NumPy.where_true (map (Str.contains nm) keys) in
  match previous with
  | [] => Ok 0
  | _ :: _ =>
      rbind (H5.subscript keys (List.last previous 0%nat)) (fun last =>
        match Str.py_int (Str.last_piece "_" last) with
        | Some i => Ok (i + 1)
        | None => Raise ValueError
        end)
  end.

(** The name the group gets in the file. *)
Definition final_name (n : node) (keys : H5.keys_view) : result string :=
  if indexed n then
    rbind (next_index (name n) keys) (fun index =>
      Ok (name n ++ Str.format_03d index))
  else Ok (name n).

(** The [try] statement of [_create_group] *)
Definition create_or_reuse (h5_group : handle) (nm : string) : M handle :=
  try_except (H5.create_group h5_group nm)
    (fun e => match e with
              | ValueError => H5.getitem_in h5_group nm
              | _ => H5.flush ;;; H5.close ;;; raise e
              end).

(** The loop over [micro_group.attrs.items()] of [_create_group] *)
Definition write_group_attrs (h5_group : handle) (attrs : Dict.t att_val)
  : M unit :=
  for_each (fun kv =>
    if Py.is_None (snd kv) then ret tt
    else
      v <- lift (clean_string_att (snd kv)) ;;
      H5.set_attr h5_group (fst kv) (Val v)) attrs.

(** [_create_group]; the descriptor comes back with the name the call
    has given it. *)
Definition _create_group (h5_group : handle) (micro_group : MicroData)
  : M (handle * MicroData) :=
  match micro_group with
  | Group n children =>
      if negb (h_is_group h5_group) then raise AssertionError
      else
        nm <- (if indexed n then
                 keys <- H5.keys h5_group ;; lift (final_name n keys)
               else ret (name n)) ;;
        let n := set_name nm n in
        h5_group <- create_or_reuse h5_group nm ;;
        write_group_attrs h5_group (attrs n) ;;;
        ret (h5_group, Group n children)
  | _ => raise AssertionError
  end.

(** ** The three ways to build a dataset *)

Definition _create_simple_dset (h5_group : handle) (n : node) (f : dataset_fields)
  : M handle :=
  match data f with
  | None => raise AttributeError
  | Some d =>
      H5.create_dataset h5_group
        (DatasetArgs (name n) None (Some (arr_dtype d)) (Some d)
                     (compression f) (chunking f) None)
  end.

Definition _create_empty_dset (h5_group : handle) (n : node) (f : dataset_fields)
  : M handle :=
  H5.create_dataset h5_group
    (DatasetArgs (name n) (maxshape f) (dtype f) None
                 (compression f) (chunking f) None).

Definition _create_resizeable_dset (h5_group : handle) (n : node)
    (f : dataset_fields) : M handle :=
  match data f with
  | None => raise AttributeError
  | Some d =>
      let max_shape := map (fun _ => @None Z) (arr_shape d) in
      H5.create_dataset h5_group
        (DatasetArgs (name n) None (Some (arr_dtype d)) (Some d)
                     (compression f) (chunking f) (Some max_shape))
  end.

(** [__create_dset] of [_create_dataset] *)
Definition __create_dset (h5_group : handle) (n : node) (f : dataset_fields)
    (build_func : handle -> node -> dataset_fields -> M handle) : M handle :=
  try_except (build_func h5_group n f)
    (fun e => H5.flush ;;; H5.close ;;; raise e).

(** [bool(maxshape)] *)
Definition truthy (ms : option shape_spec) : bool :=
  match ms with
  | None | Some [] => false
  | Some (_ :: _) => true
  end.

(** The choice among the three in [_create_dataset] *)
Definition build_dataset (h5_group : handle) (n : node) (f : dataset_fields)
  : M handle :=
  if negb (resizable f) then
    if negb (truthy (maxshape f))
    then __create_dset h5_group n f _create_simple_dset
    else __create_dset h5_group n f _create_empty_dset
  else __create_dset h5_group n f _create_resizeable_dset.

(** ** [_create_dataset] *)
Definition _create_dataset (h5_group : handle) (microdset : MicroData)
  : M handle :=
  match microdset with
  | Dataset n f =>
      if negb (h_is_group h5_group) then raise AssertionError
      else
        keys <- H5.keys h5_group ;;
        if existsb (String.eqb (name n)) keys then raise ValueError
        else
          h5_dset <- build_dataset h5_group n f ;;
          __write_attributes n h5_dset ;;;
          ret h5_dset
  | _ => raise AssertionError
  end.

(** ** [write]

    [__populate]: [ref_list] is the list of the enclosing call of
    [write], which every call appends to; the descriptor comes back
    with the [parent] and [name] the call has given it. *)
Fixpoint __populate (child : MicroData) (parent : string)
    (ref_list : list handle) {struct child}
  : M (MicroData * list handle) :=
  h5_parent_group <- H5.getitem parent ;;
  match child with
  | Group n children =>
      r <- _create_group h5_parent_group (Group (set_parent parent n) children) ;;
      let h5_obj := fst r in
      let n' := node_of (snd r) in
      r <- (fix each (chs : list MicroData) (ref_list : list handle)
              : M (list MicroData * list handle) :=
              match chs with
              | [] => ret ([], ref_list)
              | ch :: chs' =>
                  r1 <- __populate ch (parent ++ "/" ++ name n') ref_list ;;
                  r2 <- each chs' (snd r1) ;;
                  ret (fst r1 :: fst r2, snd r2)
              end) children ref_list ;;
      ret (Group n' (fst r), (snd r ++ [h5_obj])%list)
  | Dataset n f =>
      h5_obj <- _create_dataset h5_parent_group (Dataset (set_parent parent n) f) ;;
      ret (Dataset (set_parent parent n) f, (ref_list ++ [h5_obj])%list)
  | Plain n =>
      h5_obj <- _create_dataset h5_parent_group (Plain (set_parent parent n)) ;;
      ret (Plain (set_parent parent n), (ref_list ++ [h5_obj])%list)
  end.

(** The loop [for curr_child in data.children: __populate(curr_child, root)] *)
Fixpoint populate_all (chs : list MicroData) (root : string)
    (ref_list : list handle) : M (list MicroData * list handle) :=
  match chs with
  | [] => ret ([], ref_list)
  | ch :: chs' =>
      r1 <- __populate ch root ref_list ;;
      r2 <- populate_all chs' root (snd r1) ;;
      ret (fst r1 :: fst r2, snd r2)
  end.

Definition root_handle : handle := Handle [] true.

(** [version] is the string of [pycroscopy/__version__.py].  The
    result is [ref_list] and the descriptor as the call leaves it. *)
Definition write (version : string) (data : py_object)
  : M (list handle * MicroData) :=
  H5.set_attr root_handle "Pycroscopy version" (Val (PyStr version)) ;;;
  match data with
  | NotMicroData => raise TypeError
  | Obj (Dataset n f) =>
      h5_parent <- try_except (H5.getitem (parent n))
                     (fun e => match e with
                               | KeyError => raise ValueError
                               | _ => raise e
                               end) ;;
      h5_dset <- _create_dataset h5_parent (Dataset n f) ;;
      ret ([h5_dset], Dataset n f)
  | Obj data =>
      r <- (if String.eqb (name (node_of data)) "" &&
               String.eqb (parent (node_of data)) "/"
            then
              for_each (fun kv =>
                v <- lift (clean_string_att (snd kv)) ;;
                H5.set_attr root_handle (fst kv) (Val v))
                (attrs (node_of data)) ;;;
              ret (path_name [], data)
            else
              h5_parent <- H5.getitem (parent (node_of data)) ;;
              r <- _create_group h5_parent data ;;
              ret (path_name (h_path (fst r)), snd r)) ;;
      let root := fst r in
      match snd r with
      | Group n children =>
          r <- populate_all children root [] ;;
          ret (snd r, Group n (fst r))
      | _ => raise AttributeError
      end
  end.

End HDFwriter.

(* ================================================================== *)
(** * Vocabulary of the properties *)

Unset Implicit Arguments.

(** [w'] is [w] up to attributes and warnings: the file is as open,
    refuses the same, and holds the same groups and datasets. *)
Definition steady (w w' : world) : Prop :=
  closed (file w') = closed (file w) /\
  refuses (file w') = refuses (file w) /\
  forall p, option_map kind (H5.lookup p (objects (file w')))
            = option_map kind (H5.lookup p (objects (file w))).

(** A piece of code that makes no object, removes none and leaves the
    file open. *)
Definition keeps {A} (m : M A) : Prop :=
  forall w r w', m w = (r, w') -> steady w w'.

(** The shape the chunking is checked against, in the words of the
    specification: [max_shape] if given, else the shape of the payload. *)
Definition authoritative_shape (maxsh : option shape_spec) (dat : option ndarray)
  : option shape_spec :=
  match maxsh with
  | Some ms => Some ms
  | None => option_map (fun d => map Some (arr_shape d)) dat
  end.

(** An attribute of a descriptor that can be written to the file [f]:
    it is [None], which is skipped, or it normalises to a value that
    [f] takes. *)
Definition attr_ok (f : h5file) (kv : string * att_val) : Prop :=
  snd kv = PyNone \/
  exists v, clean_string_att (snd kv) = Ok v /\
            refuses f (SetAttr (fst kv) (Val v)) = false.

(** A new file: the root group and nothing else, nothing refused. *)
Definition empty_file : h5file :=
  H5File [([], H5Object IsGroup [])] false (fun _ => false).

Definition fresh_world : world := World empty_file [].

(** A file that already holds the group [/Run_000]. *)
Definition sample_file : h5file :=
  H5File [([], H5Object IsGroup []); (["Run_000"], H5Object IsGroup [])]
         false (fun _ => false).

Definition sample_world : world := World sample_file [].

(** Attribute assignments in a row. *)
Definition set_all {V} (kvs : list (string * V)) (a : Dict.t V) : Dict.t V :=
  fold_left (fun a kv => Dict.set (fst kv) (snd kv) a) kvs a.

(** The attributes that [__write_region_references] sets. *)
Definition region_attrs (slices : labels_dict) : list (string * attr_obj) :=
  map (fun kv => (fst kv, RegionReference (snd kv))) slices.

(** The place of a region in the header list: its start on the axis
    [dimen], as an index into a list of [len] items. *)
Definition header_index (labels : labels_dict) (dimen len : nat) (col : string)
  : option nat :=
  match Dict.get col labels with
  | None => None
  | Some sel =>
      match nth_error sel dimen with
      | None => None
      | Some slice_obj =>
          match start slice_obj with
          | None => None
          | Some i => HDFwriter.py_index len i
          end
      end
  end.

(** The axis of the header in the words of the specification: the
    first axis on which the slice of any region has a start. *)
Definition first_axis_of_any_region (labels : labels_dict) : option nat :=
  find (fun axis =>
          existsb (fun sel => match nth_error sel axis with
                              | Some slice_obj => negb (is_None (start slice_obj))
                              | None => false
                              end) (Dict.values labels))
       (seq 0 (fold_right Nat.max 0%nat (map (@List.length slice) (Dict.values labels)))).

(** A file with a dataset of two rows and three columns under the root. *)
Definition table_file : h5file :=
  H5File [([], H5Object IsGroup []);
          (["Spectroscopic_Indices"],
           H5Object (IsDataset (H5Dataset [2; 3] "int64"
                                  (Written (NdArray [2; 3] "int64" [0; 1; 2; 0; 1; 2]))
                                  [Some 2; Some 3] None None)) [])]
         false (fun _ => false).

Definition table_world : world := World table_file [].

Definition table_handle : handle := Handle ["Spectroscopic_Indices"] false.

(** The labels of the specification's example: a row [A] and a row [B]. *)
Definition rows_A_B : labels_dict :=
  [("A", [Slice (Some 0) (Some 1) None; Slice None None None]);
   ("B", [Slice (Some 1) (Some 2) None; Slice None None None])].

(** Labels whose first region takes everything. *)
Definition all_then_B : labels_dict :=
  [("A", [Slice None None None; Slice None None None]);
   ("B", [Slice (Some 1) (Some 2) None; Slice None None None])].

(** ** The order of the handles *)

(** Where a descriptor ends up in the file: under its [parent], by its
    [name], both as [write] has set them. *)
Definition node_path (m : MicroData) : path :=
  (split_path (parent (node_of m)) ++ [name (node_of m)])%list.

(** Children first, in their order, then the node itself. *)
Fixpoint postorder (m : MicroData) : list path :=
  match m with
  | Group _ children => (flat_map postorder children ++ [node_path m])%list
  | _ => [node_path m]
  end.

(** The order of the specification: the node itself, then its
    children, in their order. *)
Fixpoint preorder (m : MicroData) : list path :=
  match m with
  | Group _ children => node_path m :: flat_map preorder children
  | _ => [node_path m]
  end.

(** [m'] is the descriptor [m] as [write] leaves it: the same tree, the
    children in the same order, the same attributes and dataset fields;
    the [parent] may have changed, and the name of a group may have
    been extended. *)
Fixpoint resolved_from (m m' : MicroData) : Prop :=
  match m, m' with
  | Dataset n f, Dataset n' f' =>
      f' = f /\ name n' = name n /\ attrs n' = attrs n
  | Group n children, Group n' children' =>
      attrs n' = attrs n /\ prefix (name n) (name n') = true /\
      (fix each (l l' : list MicroData) : Prop :=
         match l, l' with
         | [], [] => True
         | c :: l, c' :: l' => resolved_from c c' /\ each l l'
         | _, _ => False
         end) children children'
  | _, _ => False
  end.

(** [resolved_from], child by child. *)
Fixpoint resolved_all (l l' : list MicroData) : Prop :=
  match l, l' with
  | [], [] => True
  | c :: l, c' :: l' => resolved_from c c' /\ resolved_all l l'
  | _, _ => False
  end.

(** A tree of depth two: the group [Measurement] with the dataset
    [Raw_Data] in it, under a descriptor of the file itself. *)
Definition small_tree : MicroData :=
  Group (Node "" "/" [] false)
    [Group (Node "Measurement" "/" [] false)
       [Dataset (Node "Raw_Data" "/Measurement" [] false)
          (DatasetFields (Some (NdArray [2] "int64" [7; 8])) (Some "int64")
                         None None false None)]].

(** ** More vocabulary *)

(** A shape whose sizes are positive; [None] is allowed where
    [none_ok] says so. *)
Definition sized (none_ok : bool) (s : shape_spec) : Prop :=
  Forall (fun item => match item with
                      | Some z => 0 < z
                      | None => none_ok = true
                      end) s.

(** The [MicroData] objects among some objects, in their order. *)
Definition descriptors (l : list py_object) : list MicroData :=
  flat_map (fun o => match o with Obj m => [m] | NotMicroData => [] end) l.

(** The objects a [children] argument stands for. *)
Definition objects_of (children : children_arg) : list py_object :=
  match children with
  | ChildrenNone => [NotMicroData]
  | ChildrenOne o => [o]
  | ChildrenSeq l => l
  end.

(** The attribute [k] of the object at [p], if the file has both. *)
Definition stored_attr (w : world) (p : path) (k : string) : option attr_obj :=
  match H5.lookup p (objects (file w)) with
  | Some o => Dict.get k (h5attrs o)
  | None => None
  end.

(** An attribute that normalises to a value the file [f] takes: one
    that HDF5 has a type for and [f] does not refuse. *)
Definition attr_taken (f : h5file) (kv : string * att_val) : Prop :=
  exists v, clean_string_att (snd kv) = Ok v /\
            H5.storable (Val v) = true /\
            refuses f (SetAttr (fst kv) (Val v)) = false.

(** Every object of [w] is in [w'], as a group or as the dataset it
    was. *)
Definition grown (w w' : world) : Prop :=
  forall p o, H5.lookup p (objects (file w)) = Some o ->
              exists o', H5.lookup p (objects (file w')) = Some o' /\
                         kind o' = kind o.

(** A piece of code that removes no object, however it ends. *)
Definition grows {A} (m : M A) : Prop :=
  forall w r w', m w = (r, w') -> grown w w'.

(** The handle [h] stands for an object of the file of [w], of the kind
    the handle says. *)
Definition refers (w : world) (h : handle) : Prop :=
  exists o, H5.lookup (h_path h) (objects (file w)) = Some o /\
            h = H5.handle_of (h_path h) o.

(** A descriptor with another [parent]. *)
Definition reparent (p : string) (m : MicroData) : MicroData :=
  with_node m (set_parent p (node_of m)).

(* ================================================================== *)
(** * Properties of the descriptor model and of the normaliser *)

Section Normaliser.

Lemma rbind_Ok {A B} (r : result A) (k : A -> result B) (b : B) :
  rbind r k = Ok b -> exists a, r = Ok a /\ k a = Ok b.
Proof.
  destruct r as [a|e]; simpl; intros H; [eauto | discriminate].
Qed.

(** No element of an array of dtype ['S'] has one of the three plain
    string types. *)
Lemma array_elements_not_plain (l : list (nd string)) :
  NumPy.any
    (map Py.type_in_str_unicode_bytes
       (map (fun a => match a with Item b => NpBytes b | Axis _ => NpArrS a end) l))
  = false.
Proof.
  unfold NumPy.any.
  induction l as [|a l IH]; simpl; [reflexivity|].
  destruct a; simpl; exact IH.
Qed.

(** Text goes through unchanged. *)
Lemma clean_string_att_text (s : string) :
  clean_string_att (PyStr s) = Ok (PyStr s).
Proof. reflexivity. Qed.

(** On a list or tuple a second pass changes nothing. *)
Lemma clean_string_att_list_idempotent (l : list att_val) :
  rbind (clean_string_att (PyList l)) clean_string_att
  = clean_string_att (PyList l).
Proof.
  unfold clean_string_att at 1 3; simpl.
  destruct (NumPy.any (map Py.type_in_str_unicode_bytes l)) eqn:Hany.
  - destruct (rmap NumPy.array_S l) as [xs|e]; simpl; [|reflexivity].
    destruct (NumPy.homogeneous xs); simpl; [|reflexivity].
    unfold clean_string_att; simpl.
    now rewrite array_elements_not_plain.
  - simpl. unfold clean_string_att; simpl. now rewrite Hany.
Qed.

End Normaliser.

(** C9, the failing input: a non-empty [np.str_] is iterable, and its
    characters are of type [str], so the collection branch takes it
    before the line that turns an [np.str_] into [str] is reached.  The
    result is a 0-d array of bytes, and a second pass over that array
    raises [TypeError]: the normaliser is not idempotent on a scalar
    wide string. *)
Theorem clean_string_att_wide_string_twice :
  clean_string_att (NpStr "ab") = Ok (NpArrS (Item "ab")) /\
  rbind (clean_string_att (NpStr "ab")) clean_string_att = Raise TypeError.
Proof. split; reflexivity. Qed.

Section Constructors.

Lemma existsb_combine_false {A B} (f : A * B -> bool) :
  forall (l : list A) (l' : list B) i x y,
    existsb f (combine l l') = false ->
    nth_error l i = Some x -> nth_error l' i = Some y ->
    f (x, y) = false.
Proof.
  induction l as [|a l IH]; intros l' i x y Hex Hx Hy.
  - destruct i; discriminate.
  - destruct l' as [|b l']; [destruct i; discriminate|].
    simpl in Hex. apply orb_false_iff in Hex as [Hab Hrest].
    destruct i as [|i]; simpl in Hx, Hy.
    + now inversion Hx; inversion Hy; subst.
    + eapply IH; eauto.
Qed.

(** When [check_chunking] lets a chunk shape through, it has the
    rank of the shape it is checked against and exceeds it nowhere. *)
Lemma check_chunking_Ok dat ms ch auth :
  MicroDataset.check_chunking dat ms (Some ch) = Ok tt ->
  authoritative_shape ms dat = Some auth ->
  List.length ch = List.length auth /\
  forall i c b, nth_error ch i = Some (Some c) ->
                nth_error auth i = Some (Some b) -> c <= b.
Proof.
  unfold MicroDataset.check_chunking, authoritative_shape.
  destruct (existsb is_None ch); [discriminate|].
  intros H Hauth.
  assert (Hshape : (match ms with
                    | Some ms => Ok ms
                    | None => match dat with
                              | Some d => Ok (map Some (arr_shape d))
                              | None => Raise AttributeError
                              end
                    end) = Ok auth).
  { destruct ms; [now inversion Hauth|].
    destruct dat; simpl in Hauth; [now inversion Hauth | discriminate]. }
  rewrite Hshape in H; simpl in H.
  destruct (Nat.eqb (List.length auth) (List.length ch)) eqn:Hlen;
    simpl in H; [|discriminate].
  apply Nat.eqb_eq in Hlen.
  destruct (existsb _ (combine ch auth)) eqn:Hex; [discriminate|].
  split; [now symmetry|].
  intros i c b Hc Hb.
  pose proof (existsb_combine_false _ _ _ _ _ _ Hex Hc Hb) as Hf.
  simpl in Hf. apply Z.ltb_ge in Hf. exact Hf.
Qed.

End Constructors.

(** C8: [MicroDataset.__init__] raises when the compression is not one
    of [None], ['gzip'], ['lzf'], when the chunking has another number
    of dimensions than the shape it is checked against ([maxshape] if
    given, else the shape of the data), or when a chunk dimension
    exceeds that shape's bound.  The constructor is a function of its
    arguments alone: no file is in reach of it, so nothing has been
    written when it raises. *)
Theorem MicroDataset_init_rejects :
  forall nm dat dt comp chunk par resiz maxsh ats,
    (MicroDataset.valid_compression comp = false \/
     exists ch auth,
       MicroDataset._make_iterable chunk = Some ch /\
       authoritative_shape (MicroDataset._make_iterable maxsh) dat = Some auth /\
       (List.length ch <> List.length auth \/
        exists i c b, nth_error ch i = Some (Some c) /\
                      nth_error auth i = Some (Some b) /\ b < c)) ->
    exists e,
      MicroDataset.__init__ nm dat dt comp chunk par resiz maxsh ats = Raise e /\
      (e = ValueError \/ e = AssertionError \/ e = TypeError).
Proof.
  intros nm dat dt comp chunk par resiz maxsh ats Hbad.
  unfold MicroDataset.__init__.
  destruct (MicroData.__init__ nm _ ats) as [self|e] eqn:Hinit; simpl.
  2:{ destruct ats; simpl in Hinit; try discriminate.
      inversion Hinit; subst. eauto. }
  destruct (MicroDataset._valid_shapes (MicroDataset._make_iterable maxsh) true); simpl; [|eauto].
  destruct (MicroDataset._valid_shapes (MicroDataset._make_iterable chunk) false); simpl; [|eauto].
  destruct (MicroDataset.valid_compression comp) eqn:Hcomp; simpl; [|eauto].
  destruct (is_None dat && (is_None (MicroDataset._make_iterable maxsh) && true)); [eauto|].
  destruct (MicroDataset.check_maxshape dat (MicroDataset._make_iterable maxsh)) as [[]|e] eqn:Hms; simpl.
  2:{ unfold MicroDataset.check_maxshape in Hms.
      repeat match type of Hms with
             | context [match ?x with _ => _ end] => destruct x
             end; inversion Hms; eauto. }
  destruct Hbad as [Hbad | (ch & auth & Hch & Hauth & Hbad)]; [discriminate|].
  rewrite Hch.
  destruct (MicroDataset.check_chunking dat (MicroDataset._make_iterable maxsh) (Some ch)) as [[]|e] eqn:Hck;
    simpl.
  - exfalso.
    destruct (check_chunking_Ok _ _ _ _ Hck Hauth) as [Hlen Hle].
    destruct Hbad as [Hne | (i & c & b & Hc & Hb & Hlt)]; [contradiction|].
    specialize (Hle _ _ _ Hc Hb). lia.
  - exists e. split; [reflexivity|].
    unfold MicroDataset.check_chunking in Hck.
    destruct (existsb is_None ch); [inversion Hck; auto|].
    destruct (MicroDataset._make_iterable maxsh) as [ms|]; simpl in Hck.
    + repeat match type of Hck with
             | context [if ?x then _ else _] => destruct x
             end; inversion Hck; auto.
    + destruct dat as [d|]; simpl in Hck; [|discriminate Hauth].
      repeat match type of Hck with
             | context [if ?x then _ else _] => destruct x
             end; inversion Hck; auto.
Qed.

(** A chunk of 2000 rows against a [maxshape] of 1024 rows. *)
Lemma MicroDataset_init_rejects_witness :
  exists e,
    MicroDataset.__init__ "Raw_Data" None (Some "float16") (Some "gzip")
      (ShapeSeq [Some 2000; Some 16384]) None false
      (ShapeSeq [Some 1024; Some 16384]) AttrsNone = Raise e /\
    (e = ValueError \/ e = AssertionError \/ e = TypeError).
Proof.
  apply MicroDataset_init_rejects.
  right. exists [Some 2000; Some 16384], [Some 1024; Some 16384].
  split; [reflexivity|]. split; [reflexivity|].
  right. exists 0%nat, 2000, 1024.
  split; [reflexivity|]. split; [reflexivity|]. lia.
Defined.

Section AutoIndex.

Lemma where_from_none i tests :
  (forall b, In b tests -> b = false) -> NumPy.where_from i tests = [].
Proof.
  revert i. induction tests as [|b tests IH]; intros i H; [reflexivity|].
  simpl. rewrite (H b (or_introl eq_refl)). apply IH. intros b' Hb'. apply H. now right.
Qed.

Lemma where_from_some i tests :
  In true tests -> NumPy.where_from i tests <> [].
Proof.
  revert i. induction tests as [|b tests IH]; intros i []; simpl.
  - subst. discriminate.
  - destruct b; [discriminate|]. now apply IH.
Qed.

Lemma next_index_no_match nm keys :
  (forall k, In k keys -> Str.contains nm k = false) ->
  HDFwriter.next_index nm keys = Ok 0.
Proof.
  intros H. unfold HDFwriter.next_index, NumPy.where_true.
  rewrite where_from_none; [reflexivity|].
  intros b Hb. apply in_map_iff in Hb as (k & <- & Hk). now apply H.
Qed.

(** Next to a key that holds the name, the subscript on the view of
    the keys raises. *)
Lemma next_index_match nm keys k :
  In k keys -> Str.contains nm k = true ->
  HDFwriter.next_index nm keys = Raise TypeError.
Proof.
  intros Hin Hk. unfold HDFwriter.next_index, NumPy.where_true.
  destruct (NumPy.where_from 0 (map (Str.contains nm) keys)) eqn:E; [|reflexivity].
  exfalso. revert E. apply where_from_some.
  rewrite <- Hk. now apply in_map.
Qed.

End AutoIndex.

(* ================================================================== *)
(** * Properties of the file *)

Section File.

Lemma path_eqb_refl (p : path) : path_eqb p p = true.
Proof. unfold path_eqb. now destruct (list_eq_dec string_dec p p). Qed.

Lemma path_eqb_eq (p q : path) : path_eqb p q = true <-> p = q.
Proof. unfold path_eqb. destruct (list_eq_dec string_dec p q); split; congruence. Qed.

Lemma path_eqb_neq (p q : path) : path_eqb p q = false <-> p <> q.
Proof. unfold path_eqb. destruct (list_eq_dec string_dec p q); split; congruence. Qed.

Lemma lookup_In p l o : H5.lookup p l = Some o -> In (p, o) l.
Proof.
  induction l as [|[q o'] l IH]; simpl; [discriminate|].
  destruct (path_eqb p q) eqn:E.
  - apply path_eqb_eq in E. intros H; inversion H; subst. now left.
  - intros H. right. now apply IH.
Qed.

Lemma lookup_None p l : H5.lookup p l = None <-> forall o, ~ In (p, o) l.
Proof.
  induction l as [|[q o'] l IH]; simpl.
  - split; [intros _ o []|reflexivity].
  - destruct (path_eqb p q) eqn:E.
    + apply path_eqb_eq in E; subst. split; [discriminate|].
      intros H. exfalso. apply (H o'). now left.
    + apply path_eqb_neq in E. rewrite IH. split.
      * intros H o [Heq|Hin]; [inversion Heq; congruence | now apply (H o)].
      * intros H o Hin. apply (H o). now right.
Qed.

Lemma lookup_app_new p o l :
  H5.lookup p l = None -> H5.lookup p (l ++ [(p, o)])%list = Some o.
Proof.
  induction l as [|[q o'] l IH]; simpl; intros H.
  - now rewrite path_eqb_refl.
  - destruct (path_eqb p q); [discriminate | now apply IH].
Qed.

Lemma lookup_app_old p q o l :
  q <> p -> H5.lookup q (l ++ [(p, o)])%list = H5.lookup q l.
Proof.
  intros Hne. induction l as [|[q' o'] l IH]; simpl.
  - apply path_eqb_neq in Hne. now rewrite Hne.
  - now destruct (path_eqb q q').
Qed.

Lemma lookup_update_same p o o' l :
  H5.lookup p l = Some o -> H5.lookup p (H5.update p o' l) = Some o'.
Proof.
  induction l as [|[q o''] l IH]; simpl; [discriminate|].
  destruct (path_eqb p q) eqn:E; simpl; rewrite E; [reflexivity | exact IH].
Qed.

Lemma lookup_update_other p q o' l :
  q <> p -> H5.lookup q (H5.update p o' l) = H5.lookup q l.
Proof.
  intros Hne. induction l as [|[q' o''] l IH]; simpl; [reflexivity|].
  destruct (path_eqb p q') eqn:E; simpl.
  - apply path_eqb_eq in E; subst q'.
    apply path_eqb_neq in Hne. now rewrite Hne.
  - now destruct (path_eqb q q').
Qed.

Lemma update_paths p o l : map fst (H5.update p o l) = map fst l.
Proof.
  induction l as [|[q o'] l IH]; simpl; [reflexivity|].
  destruct (path_eqb p q); simpl; [reflexivity | now rewrite IH].
Qed.

(** ** The keys of a group *)

Lemma In_insert_sorted x y l : In x (Str.insert_sorted y l) <-> x = y \/ In x l.
Proof.
  induction l as [|z l IH]; simpl.
  - split; [intros [H|[]]; auto | intros [H|[]]; auto].
  - destruct (String.leb y z); simpl; [split; intros [H|H]; auto|].
    rewrite IH. split; intros H; intuition.
Qed.

Lemma In_sort x l : In x (Str.sort l) <-> In x l.
Proof.
  unfold Str.sort. induction l as [|y l IH]; simpl; [reflexivity|].
  rewrite In_insert_sorted, IH. split; intros [H|H]; auto.
Qed.

Lemma In_child_names nm g l :
  In nm (H5.child_names g l) <-> exists o, In ((g ++ [nm])%list, o) l.
Proof.
  unfold H5.child_names. rewrite in_flat_map. split.
  - intros ([p o] & Hin & Hnm). simpl in Hnm.
    destruct (path_eqb p []) eqn:Hroot; simpl in Hnm; [contradiction|].
    destruct (path_eqb (removelast p) g) eqn:Hg; simpl in Hnm; [|contradiction].
    destruct Hnm as [Hnm|[]].
    apply path_eqb_neq in Hroot. apply path_eqb_eq in Hg.
    exists o. rewrite <- Hg, <- Hnm.
    now rewrite <- (app_removelast_last "" Hroot).
  - intros (o & Hin). exists ((g ++ [nm])%list, o). split; [exact Hin|]. simpl.
    assert (Hroot : path_eqb (g ++ [nm])%list [] = false).
    { apply path_eqb_neq. now destruct g. }
    rewrite Hroot, removelast_last, path_eqb_refl, last_last. simpl. now left.
Qed.

(** [nm in g.keys()] holds exactly when the file has an object of
    that name in the group. *)
Lemma key_exists nm g l :
  existsb (String.eqb nm) (Str.sort (H5.child_names g l)) = true
  <-> exists o, H5.lookup (g ++ [nm])%list l = Some o.
Proof.
  rewrite existsb_exists. split.
  - intros (k & Hin & Heq). apply String.eqb_eq in Heq; subst k.
    apply In_sort, In_child_names in Hin. destruct Hin as (o & Hin).
    destruct (H5.lookup (g ++ [nm])%list l) as [o'|] eqn:E; [eauto|].
    exfalso. rewrite lookup_None in E. exact (E o Hin).
  - intros (o & Hl). exists nm. split; [|apply String.eqb_refl].
    apply In_sort, In_child_names. exists o. now apply lookup_In.
Qed.

Lemma key_absent nm g l :
  H5.lookup (g ++ [nm])%list l = None ->
  existsb (String.eqb nm) (Str.sort (H5.child_names g l)) = false.
Proof.
  intros Hl.
  destruct (existsb _ _) eqn:E; [|reflexivity].
  apply key_exists in E. destruct E as (o & E). congruence.
Qed.

End File.

(** ** Code that leaves the objects of the file in place *)

Section Steady.

Lemma steady_refl w : steady w w.
Proof. repeat split. Qed.

Lemma steady_trans w1 w2 w3 : steady w1 w2 -> steady w2 w3 -> steady w1 w3.
Proof.
  intros (Hc & Hr & Hk) (Hc' & Hr' & Hk').
  split; [congruence|]. split; [congruence|].
  intros p. now rewrite Hk', Hk.
Qed.

Lemma keeps_ret {A} (a : A) : keeps (ret a).
Proof. intros w r w' H; inversion H; apply steady_refl. Qed.

Lemma keeps_raise {A} (e : exn) : keeps (@raise A e).
Proof. intros w r w' H; inversion H; apply steady_refl. Qed.

Lemma keeps_lift {A} (x : result A) : keeps (lift x).
Proof. intros w r w' H; inversion H; apply steady_refl. Qed.

Lemma keeps_warn msg : keeps (warn msg).
Proof. intros w r w' H; inversion H; repeat split. Qed.

Lemma keeps_bind {A B} (m : M A) (k : A -> M B) :
  keeps m -> (forall a, keeps (k a)) -> keeps (bind m k).
Proof.
  intros Hm Hk w r w' H. unfold bind in H.
  destruct (m w) as [[a|e] w1] eqn:E.
  - eapply steady_trans; [eapply Hm; eauto | eapply Hk; eauto].
  - inversion H; subst. eapply Hm; eauto.
Qed.

Lemma keeps_opened {A} (k : h5file -> M A) :
  (forall f, keeps (k f)) -> keeps (H5.opened k).
Proof.
  intros Hk w r w' H. unfold H5.opened in H.
  destruct (closed (file w)); [inversion H; apply steady_refl|].
  eapply Hk; eauto.
Qed.

Lemma keeps_for_each {A} (body : A -> M unit) (l : list A) :
  (forall x, keeps (body x)) -> keeps (for_each body l).
Proof.
  intros Hb. induction l as [|x l IH]; simpl.
  - apply keeps_ret.
  - apply keeps_bind; auto.
Qed.

Lemma keeps_set_attr h key v : keeps (H5.set_attr h key v).
Proof.
  intros w r w' H. unfold H5.set_attr, H5.opened in H.
  destruct (closed (file w)) eqn:Hc; [inversion H; apply steady_refl|].
  destruct (H5.lookup (h_path h) (objects (file w))) as [o|] eqn:Hl;
    [|inversion H; apply steady_refl].
  destruct (negb (H5.storable v) || refuses (file w) (SetAttr key v));
    [inversion H; apply steady_refl|].
  inversion H; subst; clear H. repeat split; simpl; auto.
  intros p. destruct (list_eq_dec string_dec p (h_path h)) as [->|Hne].
  - erewrite lookup_update_same; [|exact Hl]. now rewrite Hl.
  - now rewrite lookup_update_other.
Qed.

Lemma keeps_shape h : keeps (H5.shape h).
Proof.
  apply keeps_opened. intros f.
  destruct (H5.lookup (h_path h) (objects f)) as [[[|d] a]|];
    auto using keeps_ret, keeps_raise.
Qed.

Lemma keeps_regionref h sel : keeps (H5.regionref h sel).
Proof. apply keeps_opened. intros f. apply keeps_ret. Qed.

Lemma keeps_keys h : keeps (H5.keys h).
Proof. apply keeps_opened. intros f. apply keeps_ret. Qed.

Lemma keeps_getitem_in h nm : keeps (H5.getitem_in h nm).
Proof.
  apply keeps_opened. intros f.
  destruct (H5.lookup _ _); auto using keeps_ret, keeps_raise.
Qed.

Lemma keeps_write_region_references h slices :
  keeps (HDFwriter.__write_region_references h slices).
Proof.
  apply keeps_for_each. intros sl.
  destruct (Dict.get sl slices); [|apply keeps_raise].
  apply keeps_bind; [apply keeps_shape|]. intros shape.
  destruct (Nat.eqb _ _).
  - apply keeps_bind; [apply keeps_regionref|]. intros r. apply keeps_set_attr.
  - apply keeps_bind; [apply keeps_warn|]. intros _. apply keeps_raise.
Qed.

Lemma keeps_write_labels h key val : keeps (HDFwriter.write_labels h key val).
Proof.
  destruct val; try apply keeps_raise. simpl.
  apply keeps_bind; [apply keeps_write_region_references|]. intros _.
  destruct (Dict.values d); [apply keeps_raise|].
  destruct (HDFwriter.find_dim 0 l); [|apply keeps_warn].
  apply keeps_bind; [apply keeps_lift|]. intros headers.
  apply keeps_bind; [apply keeps_lift|]. intros v. apply keeps_set_attr.
Qed.

(** Writing attributes neither makes nor removes an object. *)
Lemma keeps_write_attributes n h : keeps (HDFwriter.__write_attributes n h).
Proof.
  apply keeps_for_each. intros [k v]. simpl.
  destruct (String.eqb k "labels"); [apply keeps_write_labels|].
  apply keeps_bind; [apply keeps_lift|]. intros v'. apply keeps_set_attr.
Qed.

End Steady.

(* ================================================================== *)
(** * Properties of the dataset materialiser *)

Section Materialiser.

(** What [create_dataset] of the file does with a fresh name. *)
Lemma H5_create_dataset_new w g a d :
  closed (file w) = false ->
  H5.lookup (h_path g ++ [a_name a])%list (objects (file w)) = None ->
  H5.new_dataset a = Ok d ->
  valid_link (a_name a) = true ->
  refuses (file w) (CreateDataset a) = false ->
  exists w1,
    H5.create_dataset g a w = (Ok (Handle (h_path g ++ [a_name a])%list false), w1) /\
    H5.lookup (h_path g ++ [a_name a])%list (objects (file w1))
    = Some (H5Object (IsDataset d) []).
Proof.
  intros Hopen Hfresh Hnew Hlink Hacc.
  unfold H5.create_dataset, H5.opened. rewrite Hopen, Hfresh.
  unfold bind, lift. rewrite Hnew, Hlink, Hacc. simpl.
  eexists. split; [reflexivity|]. simpl.
  now apply lookup_app_new.
Qed.

Lemma try_except_Ok {A} (m : M A) (h : exn -> M A) w a w1 :
  m w = (Ok a, w1) -> try_except m h w = (Ok a, w1).
Proof. intros H. unfold try_except. now rewrite H. Qed.

(** [_create_dataset] returns the handle that the chosen way of
    building has made, and the dataset behind it is the one built:
    writing the attributes does not touch it. *)
Lemma create_dataset_after_build w g n f h w1 d :
  closed (file w) = false ->
  h_is_group g = true ->
  H5.lookup (h_path g ++ [name n])%list (objects (file w)) = None ->
  HDFwriter.build_dataset g n f w = (Ok h, w1) ->
  H5.lookup (h_path h) (objects (file w1)) = Some (H5Object (IsDataset d) []) ->
  forall h' w',
    HDFwriter._create_dataset g (Dataset n f) w = (Ok h', w') ->
    h' = h /\
    exists a, H5.lookup (h_path h') (objects (file w')) = Some (H5Object (IsDataset d) a).
Proof.
  intros Hopen Hgrp Hfresh Hbuild Hl h' w' Hrun.
  unfold HDFwriter._create_dataset in Hrun. rewrite Hgrp in Hrun. simpl in Hrun.
  unfold bind at 1 in Hrun. unfold H5.keys, H5.opened in Hrun.
  rewrite Hopen in Hrun. unfold ret at 1 in Hrun.
  rewrite (key_absent _ _ _ Hfresh) in Hrun.
  unfold bind at 1 in Hrun. rewrite Hbuild in Hrun.
  unfold bind in Hrun.
  destruct (HDFwriter.__write_attributes n h w1) as [[[]|e] w2] eqn:Hattrs;
    [|discriminate].
  unfold ret in Hrun. inversion Hrun; subst h' w'. split; [reflexivity|].
  destruct (keeps_write_attributes _ _ _ _ _ Hattrs) as (_ & _ & Hk).
  specialize (Hk (h_path h)). rewrite Hl in Hk. simpl in Hk.
  destruct (H5.lookup (h_path h) (objects (file w2))) as [[k a]|]; [|discriminate].
  simpl in Hk. inversion Hk; subst. eauto.
Qed.

End Materialiser.

(** C2: a dataset that is not resizable and has a non-empty [maxshape]
    is made by [_create_empty_dset]: of the shape [maxshape] and the
    dtype of the descriptor (the file's own default when it has none),
    holding the fill value.  The data of the descriptor play no part:
    the dataset is the same whatever [data f] is. *)
Theorem empty_dataset_ignores_payload :
  forall w h5_group n f ms s,
    closed (file w) = false ->
    h_is_group h5_group = true ->
    resizable f = false ->
    maxshape f = Some ms ->
    ms <> [] ->
    H5.all_Some ms = Some s ->
    H5.lookup (h_path h5_group ++ [name n])%list (objects (file w)) = None ->
    valid_link (name n) = true ->
    refuses (file w)
      (CreateDataset (DatasetArgs (name n) (Some ms) (dtype f) None
                                  (compression f) (chunking f) None)) = false ->
    let d := H5Dataset s (match dtype f with Some t => t | None => "float32" end)
                       Fill (map Some s) (chunking f) (compression f) in
    exists h w1,
      HDFwriter.build_dataset h5_group n f w = (Ok h, w1) /\
      H5.lookup (h_path h) (objects (file w1)) = Some (H5Object (IsDataset d) []) /\
      forall h' w',
        HDFwriter._create_dataset h5_group (Dataset n f) w = (Ok h', w') ->
        h' = h /\
        exists a, H5.lookup (h_path h') (objects (file w'))
                  = Some (H5Object (IsDataset d) a).
Proof.
  intros w g n f ms s Hopen Hgrp Hres Hms Hne Hs Hfresh Hlink Hacc d.
  set (a := DatasetArgs (name n) (Some ms) (dtype f) None
                        (compression f) (chunking f) None) in *.
  assert (Hnew : H5.new_dataset a = Ok d).
  { unfold H5.new_dataset, a; simpl. rewrite Hs. simpl.
    unfold d. now destruct (dtype f). }
  destruct (H5_create_dataset_new w g a d Hopen Hfresh Hnew Hlink Hacc)
    as (w1 & Hrun & Hl).
  assert (Hbuild : HDFwriter.build_dataset g n f w
                   = (Ok (Handle (h_path g ++ [name n])%list false), w1)).
  { unfold HDFwriter.build_dataset. rewrite Hres, Hms. simpl.
    destruct ms as [|m ms']; [contradiction|]. simpl.
    unfold HDFwriter.__create_dset. apply try_except_Ok.
    unfold HDFwriter._create_empty_dset. rewrite Hms. exact Hrun. }
  exists (Handle (h_path g ++ [name n])%list false), w1.
  split; [exact Hbuild|]. split; [exact Hl|].
  eapply create_dataset_after_build; eauto.
Qed.

(** A dataset that comes with data and with a [maxshape] of four rows. *)
Lemma empty_dataset_ignores_payload_witness :
  exists h w1,
    HDFwriter.build_dataset HDFwriter.root_handle
      (Node "Raw_Data" "/" [] false)
      (DatasetFields (Some (NdArray [1; 2] "int64" [7; 8])) (Some "int64")
                     None None false (Some [Some 4; Some 2])) fresh_world
    = (Ok h, w1) /\
    H5.lookup (h_path h) (objects (file w1))
    = Some (H5Object (IsDataset (H5Dataset [4; 2] "int64" Fill [Some 4; Some 2]
                                   None None)) []).
Proof.
  destruct (empty_dataset_ignores_payload fresh_world HDFwriter.root_handle
              (Node "Raw_Data" "/" [] false)
              (DatasetFields (Some (NdArray [1; 2] "int64" [7; 8])) (Some "int64")
                             None None false (Some [Some 4; Some 2]))
              [Some 4; Some 2] [4; 2])
    as (h & w1 & Hbuild & Hl & _); try reflexivity.
  - discriminate.
  - exists h, w1. split; [exact Hbuild | exact Hl].
Defined.

(** C3: a resizable dataset is made from the data, with a maximal
    shape that is unlimited ([None]) on every axis; the [maxshape] of
    the descriptor plays no part. *)
Theorem resizable_dataset_unlimited_on_every_axis :
  forall w h5_group n f dat,
    closed (file w) = false ->
    h_is_group h5_group = true ->
    resizable f = true ->
    data f = Some dat ->
    H5.lookup (h_path h5_group ++ [name n])%list (objects (file w)) = None ->
    valid_link (name n) = true ->
    refuses (file w)
      (CreateDataset (DatasetArgs (name n) None (Some (arr_dtype dat)) (Some dat)
                        (compression f) (chunking f)
                        (Some (map (fun _ => None) (arr_shape dat))))) = false ->
    exists h w1 d,
      HDFwriter.build_dataset h5_group n f w = (Ok h, w1) /\
      H5.lookup (h_path h) (objects (file w1)) = Some (H5Object (IsDataset d) []) /\
      ds_shape d = arr_shape dat /\
      ds_content d = Written dat /\
      ds_maxshape d = repeat None (List.length (arr_shape dat)) /\
      forall h' w',
        HDFwriter._create_dataset h5_group (Dataset n f) w = (Ok h', w') ->
        h' = h /\
        exists a, H5.lookup (h_path h') (objects (file w'))
                  = Some (H5Object (IsDataset d) a).
Proof.
  intros w g n f dat Hopen Hgrp Hres Hdat Hfresh Hlink Hacc.
  set (a := DatasetArgs (name n) None (Some (arr_dtype dat)) (Some dat)
              (compression f) (chunking f)
              (Some (map (fun _ => None) (arr_shape dat)))) in *.
  set (d := H5Dataset (arr_shape dat) (arr_dtype dat) (Written dat)
              (map (fun _ => @None Z) (arr_shape dat)) (chunking f) (compression f)).
  assert (Hnew : H5.new_dataset a = Ok d) by reflexivity.
  destruct (H5_create_dataset_new w g a d Hopen Hfresh Hnew Hlink Hacc)
    as (w1 & Hrun & Hl).
  assert (Hbuild : HDFwriter.build_dataset g n f w
                   = (Ok (Handle (h_path g ++ [name n])%list false), w1)).
  { unfold HDFwriter.build_dataset. rewrite Hres. simpl.
    unfold HDFwriter.__create_dset. apply try_except_Ok.
    unfold HDFwriter._create_resizeable_dset. rewrite Hdat. exact Hrun. }
  exists (Handle (h_path g ++ [name n])%list false), w1, d.
  split; [exact Hbuild|]. split; [exact Hl|].
  split; [reflexivity|]. split; [reflexivity|].
  split.
  { simpl. clear. induction (arr_shape dat); simpl; [reflexivity | now f_equal]. }
  eapply create_dataset_after_build; eauto.
Qed.

(** A resizable dataset of one row, whose descriptor names a
    [maxshape] that fixes the columns. *)
Lemma resizable_dataset_unlimited_on_every_axis_witness :
  exists h w1 d,
    HDFwriter.build_dataset HDFwriter.root_handle
      (Node "Raw_Data" "/" [] false)
      (DatasetFields (Some (NdArray [1; 2] "int64" [7; 8])) (Some "int64")
                     None None true (Some [None; Some 2])) fresh_world
    = (Ok h, w1) /\
    H5.lookup (h_path h) (objects (file w1)) = Some (H5Object (IsDataset d) []) /\
    ds_shape d = [1; 2] /\
    ds_maxshape d = [None; None].
Proof.
  destruct (resizable_dataset_unlimited_on_every_axis fresh_world
              HDFwriter.root_handle (Node "Raw_Data" "/" [] false)
              (DatasetFields (Some (NdArray [1; 2] "int64" [7; 8])) (Some "int64")
                             None None true (Some [None; Some 2]))
              (NdArray [1; 2] "int64" [7; 8]))
    as (h & w1 & d & Hbuild & Hl & Hshape & _ & Hmax & _); try reflexivity.
  exists h, w1, d. auto.
Defined.

(* ================================================================== *)
(** * Properties of attribute writing *)

Section Attributes.

Lemma Dict_get_set_same {V} k (v : V) d : Dict.get k (Dict.set k v d) = Some v.
Proof.
  induction d as [|[k' v'] d IH]; simpl.
  - now rewrite String.eqb_refl.
  - destruct (String.eqb k k') eqn:E; simpl; rewrite E; [reflexivity | exact IH].
Qed.

Lemma Dict_get_set_other {V} k k' (v : V) d :
  k <> k' -> Dict.get k (Dict.set k' v d) = Dict.get k d.
Proof.
  intros Hne. induction d as [|[k'' v''] d IH]; simpl.
  - apply String.eqb_neq in Hne. now rewrite Hne.
  - destruct (String.eqb k' k'') eqn:E; simpl.
    + apply String.eqb_eq in E; subst k''.
      apply String.eqb_neq in Hne. now rewrite Hne.
    + now destruct (String.eqb k k'').
Qed.

Lemma Dict_get_In {V} k (v : V) d :
  NoDup (Dict.keys d) -> In (k, v) d -> Dict.get k d = Some v.
Proof.
  induction d as [|[k' v'] d IH]; simpl; intros Hnd Hin; [contradiction|].
  inversion Hnd as [|? ? Hnotin Hnd']; subst.
  destruct Hin as [Heq|Hin].
  - inversion Heq; subst. now rewrite String.eqb_refl.
  - destruct (String.eqb k k') eqn:E; [|now apply IH].
    apply String.eqb_eq in E; subst k'. exfalso. apply Hnotin.
    change k with (fst (k, v)). now apply in_map.
Qed.

Lemma Dict_get_Some_In {V} k (v : V) d : Dict.get k d = Some v -> In (k, v) d.
Proof.
  induction d as [|[k' v'] d IH]; simpl; [discriminate|].
  destruct (String.eqb k k') eqn:E.
  - apply String.eqb_eq in E; subst. intros H; inversion H. now left.
  - intros H. right. now apply IH.
Qed.

Lemma Dict_keys_set {V} k (v : V) d :
  Dict.keys (Dict.set k v d)
  = if existsb (String.eqb k) (Dict.keys d) then Dict.keys d
    else (Dict.keys d ++ [k])%list.
Proof.
  induction d as [|[k' v'] d IH]; simpl; [reflexivity|].
  destruct (String.eqb k k') eqn:E; simpl; [reflexivity|].
  rewrite IH. now destruct (existsb (String.eqb k) (Dict.keys d)).
Qed.

Lemma Dict_set_NoDup {V} k (v : V) d :
  NoDup (Dict.keys d) -> NoDup (Dict.keys (Dict.set k v d)).
Proof.
  intros Hnd. rewrite Dict_keys_set.
  destruct (existsb (String.eqb k) (Dict.keys d)) eqn:E; [exact Hnd|].
  apply NoDup_app; [exact Hnd | repeat constructor; intros [] |].
  intros x Hx [Hk|[]]. subst x.
  assert (existsb (String.eqb k) (Dict.keys d) = true); [|congruence].
  apply existsb_exists. exists k. split; [exact Hx | apply String.eqb_refl].
Qed.

(** What [h.attrs[key] = v] does on an open file that takes [v]. *)
Lemma set_attr_ok w h key v o :
  closed (file w) = false ->
  H5.lookup (h_path h) (objects (file w)) = Some o ->
  H5.storable v = true ->
  refuses (file w) (SetAttr key v) = false ->
  exists w',
    H5.set_attr h key v w = (Ok tt, w') /\
    warnings w' = warnings w /\
    H5.lookup (h_path h) (objects (file w'))
    = Some (H5Object (kind o) (Dict.set key v (h5attrs o))) /\
    (forall q, q <> h_path h ->
               H5.lookup q (objects (file w')) = H5.lookup q (objects (file w))).
Proof.
  intros Hopen Hl Hstor Hacc. unfold H5.set_attr, H5.opened.
  rewrite Hopen, Hl, Hstor, Hacc. eexists. split; [reflexivity|]. simpl.
  split; [reflexivity|]. split.
  - eapply lookup_update_same; eauto.
  - intros q Hq. now apply lookup_update_other.
Qed.

(** On success [h.attrs[key] = v] has stored [v] under [key]. *)
Lemma set_attr_stored w w' h key v o :
  H5.set_attr h key v w = (Ok tt, w') ->
  H5.lookup (h_path h) (objects (file w)) = Some o ->
  H5.lookup (h_path h) (objects (file w'))
  = Some (H5Object (kind o) (Dict.set key v (h5attrs o))).
Proof.
  intros Hrun Hl. unfold H5.set_attr, H5.opened in Hrun.
  destruct (closed (file w)); [discriminate|]. rewrite Hl in Hrun.
  destruct (negb (H5.storable v) || refuses (file w) (SetAttr key v));
    [discriminate|].
  inversion Hrun; subst; simpl. eapply lookup_update_same; eauto.
Qed.

(** What has been stored is a value that HDF5 has a type for. *)
Lemma set_attr_storable w w' h key v :
  H5.set_attr h key v w = (Ok tt, w') -> H5.storable v = true.
Proof.
  unfold H5.set_attr, H5.opened. destruct (closed (file w)); [discriminate|].
  destruct (H5.lookup (h_path h) (objects (file w))); [|discriminate].
  destruct (H5.storable v); [reflexivity | discriminate].
Qed.

(** [clean_string_att] returns [None] for [None] alone. *)
Lemma clean_string_att_None v : clean_string_att v = Ok PyNone -> v = PyNone.
Proof.
  unfold clean_string_att.
  destruct v; simpl; try discriminate; try reflexivity.
  all: repeat match goal with
       | |- context [match ?x with _ => _ end] => destruct x; simpl
       | |- context [if ?x then _ else _] => destruct x; simpl
       end; try discriminate.
  all: match goal with
       | |- rbind ?r _ = _ -> _ => destruct r; simpl; discriminate
       end.
Qed.

Lemma clean_string_att_storable v v' :
  v <> PyNone -> clean_string_att v = Ok v' -> H5.storable (Val v') = true.
Proof.
  intros Hv Hc. destruct v'; try reflexivity.
  exfalso. apply Hv. now apply clean_string_att_None.
Qed.

Lemma keeps_write_group_attrs h l : keeps (HDFwriter.write_group_attrs h l).
Proof.
  apply keeps_for_each. intros [k v]. simpl.
  destruct (Py.is_None v); [apply keeps_ret|].
  apply keeps_bind; [apply keeps_lift | intros v'; apply keeps_set_attr].
Qed.

(** The loop over the attributes of a group goes through when each
    of them can be written. *)
Lemma write_group_attrs_ok h l :
  forall w o,
    closed (file w) = false ->
    H5.lookup (h_path h) (objects (file w)) = Some o ->
    Forall (attr_ok (file w)) l ->
    exists w', HDFwriter.write_group_attrs h l w = (Ok tt, w').
Proof.
  induction l as [|[k v] l IH]; intros w o Hopen Hl Hok.
  - eexists; reflexivity.
  - inversion Hok as [|? ? Hkv Hrest]; subst.
    unfold HDFwriter.write_group_attrs. simpl.
    assert (Hstep : exists w1,
               (if Py.is_None v then ret tt
                else bind (lift (clean_string_att v))
                          (fun v' => H5.set_attr h k (Val v'))) w = (Ok tt, w1) /\
               steady w w1 /\
               exists o1, H5.lookup (h_path h) (objects (file w1)) = Some o1).
    { destruct (Py.is_None v) eqn:Hnone.
      - exists w. split; [reflexivity|]. split; [apply steady_refl | eauto].
      - destruct Hkv as [Hv | (v' & Hclean & Hacc)]; simpl in *.
        + subst v. discriminate.
        + assert (Hstor : H5.storable (Val v') = true).
          { eapply clean_string_att_storable; [|exact Hclean].
            intros ->. discriminate. }
          destruct (set_attr_ok w h k (Val v') o Hopen Hl Hstor Hacc)
            as (w1 & Hrun & _ & Hl1 & _).
          exists w1. split.
          * unfold bind, lift. now rewrite Hclean.
          * split; [eapply keeps_set_attr; eauto | eauto]. }
    destruct Hstep as (w1 & Hrun & (Hc & Hr & Hk) & o1 & Hl1).
    destruct (IH w1 o1) as (w' & Hrest'); [congruence | exact Hl1 | |].
    { eapply Forall_impl; [|exact Hrest]. intros kv [H|(v' & H1 & H2)];
        [now left | right; exists v'; split; [exact H1|]].
      now rewrite Hr. }
    exists w'. unfold bind at 1. rewrite Hrun. exact Hrest'.
Qed.

End Attributes.

(* ================================================================== *)
(** * Properties of name collisions *)

Section Collisions.

(** The [try] statement of [_create_group] on a name that is taken:
    [create_group] raises [ValueError], and the handler looks the
    object up. *)
Lemma create_or_reuse_existing w g nm o :
  closed (file w) = false ->
  H5.lookup (h_path g ++ [nm])%list (objects (file w)) = Some o ->
  HDFwriter.create_or_reuse g nm w
  = (Ok (H5.handle_of (h_path g ++ [nm])%list o), w).
Proof.
  intros Hopen Hl.
  unfold HDFwriter.create_or_reuse, try_except, H5.create_group, H5.opened.
  rewrite Hopen, Hl. unfold raise.
  unfold H5.getitem_in, H5.opened. now rewrite Hopen, Hl.
Qed.

(** The name that [_create_group] settles on. *)
Lemma create_group_unfold w g n children :
  h_is_group g = true ->
  closed (file w) = false ->
  HDFwriter._create_group g (Group n children) w
  = match HDFwriter.final_name n
            (Str.sort (H5.child_names (h_path g) (objects (file w)))) with
    | Raise e => (Raise e, w)
    | Ok nm =>
        bind (HDFwriter.create_or_reuse g nm) (fun h =>
          bind (HDFwriter.write_group_attrs h (attrs (set_name nm n))) (fun _ =>
            ret (h, Group (set_name nm n) children))) w
    end.
Proof.
  intros Hgrp Hopen. unfold HDFwriter._create_group, HDFwriter.final_name.
  rewrite Hgrp. simpl. unfold bind at 1.
  destruct (indexed n).
  - unfold bind at 1. unfold H5.keys, H5.opened. rewrite Hopen.
    unfold ret at 1. unfold lift.
    destruct (HDFwriter.next_index _ _); reflexivity.
  - reflexivity.
Qed.

End Collisions.

(** C4: when the parent already has a child of the name, a dataset is
    not created: [_create_dataset] raises [ValueError] and leaves the
    file as it was.  A group of that name is no error: the [try]
    statement of [_create_group] hands back the object that is there,
    and [_create_group], whose attributes can be written, returns that
    handle without making an object. *)
Theorem duplicate_name_dataset_raises_group_reuses :
  forall w h5_group nm o,
    closed (file w) = false ->
    h_is_group h5_group = true ->
    H5.lookup (h_path h5_group ++ [nm])%list (objects (file w)) = Some o ->
    (forall n f,
        name n = nm ->
        HDFwriter._create_dataset h5_group (Dataset n f) w = (Raise ValueError, w)) /\
    HDFwriter.create_or_reuse h5_group nm w
    = (Ok (H5.handle_of (h_path h5_group ++ [nm])%list o), w) /\
    (forall n children,
        HDFwriter.final_name n
          (Str.sort (H5.child_names (h_path h5_group) (objects (file w)))) = Ok nm ->
        Forall (attr_ok (file w)) (attrs n) ->
        exists w',
          HDFwriter._create_group h5_group (Group n children) w
          = (Ok (H5.handle_of (h_path h5_group ++ [nm])%list o,
                 Group (set_name nm n) children), w') /\
          steady w w').
Proof.
  intros w g nm o Hopen Hgrp Hl. split; [|split].
  - intros n f Hnm. subst nm.
    unfold HDFwriter._create_dataset. rewrite Hgrp. simpl.
    unfold bind, H5.keys, H5.opened. rewrite Hopen. unfold ret.
    assert (Hin : existsb (String.eqb (name n))
                    (Str.sort (H5.child_names (h_path g) (objects (file w)))) = true).
    { apply key_exists. eauto. }
    now rewrite Hin.
  - now apply create_or_reuse_existing.
  - intros n children Hname Hattrs.
    rewrite (create_group_unfold w g n children Hgrp Hopen), Hname.
    unfold bind at 1. rewrite (create_or_reuse_existing w g nm o Hopen Hl).
    destruct (write_group_attrs_ok (H5.handle_of (h_path g ++ [nm])%list o)
                (attrs (set_name nm n)) w o Hopen Hl Hattrs) as (w' & Hrun).
    exists w'. unfold bind, ret. rewrite Hrun. split; [reflexivity|].
    eapply keeps_write_group_attrs; eauto.
Qed.

Lemma duplicate_name_dataset_raises_group_reuses_witness :
  HDFwriter.create_or_reuse HDFwriter.root_handle "Run_000" sample_world
  = (Ok (Handle ["Run_000"] true), sample_world).
Proof.
  exact (proj1 (proj2 (duplicate_name_dataset_raises_group_reuses
                         sample_world HDFwriter.root_handle "Run_000"
                         (H5Object IsGroup []) eq_refl eq_refl eq_refl))).
Defined.

(* ================================================================== *)
(** * Properties of auto-indexing *)

Section IndexedGroups.

(** The handle that the [try] statement of [_create_group] yields is
    the one of the child of that name. *)
Lemma create_or_reuse_path w g nm h w1 :
  HDFwriter.create_or_reuse g nm w = (Ok h, w1) ->
  h_path h = (h_path g ++ [nm])%list.
Proof.
  unfold HDFwriter.create_or_reuse, try_except, H5.create_group, H5.opened.
  destruct (closed (file w)) eqn:Hopen.
  - unfold H5.getitem_in, H5.opened. rewrite Hopen. discriminate.
  - destruct (H5.lookup (h_path g ++ [nm])%list (objects (file w))) as [o|] eqn:Hl.
    + unfold raise, H5.getitem_in, H5.opened. rewrite Hopen, Hl.
      unfold ret. intros H; inversion H; reflexivity.
    + destruct (negb (valid_link nm) || refuses (file w) (CreateGroup nm)).
      * unfold raise, H5.getitem_in, H5.opened. rewrite Hopen, Hl. discriminate.
      * unfold bind, H5.put_file, ret. intros H; inversion H; reflexivity.
Qed.

End IndexedGroups.

(** C6, as the code runs: the name of an indexed group.  When no key
    of the parent holds the base name, the name is the base name
    followed by [000].  When some key does, the code asks the view of
    the keys for the key at a place, and a view has no subscript:
    [_create_group] raises [TypeError] before it touches the file, and
    no number is read or incremented. *)
Theorem indexed_group_beside_match_raises_TypeError :
  forall n keys,
    indexed n = true ->
    ((forall k, In k keys -> Str.contains (name n) k = false) ->
     HDFwriter.final_name n keys = Ok (name n ++ "000")) /\
    (forall k,
        In k keys ->
        Str.contains (name n) k = true ->
        HDFwriter.final_name n keys = Raise TypeError /\
        forall w h5_group children,
          closed (file w) = false ->
          h_is_group h5_group = true ->
          keys = Str.sort (H5.child_names (h_path h5_group) (objects (file w))) ->
          HDFwriter._create_group h5_group (Group n children) w
          = (Raise TypeError, w)).
Proof.
  intros n keys Hidx. split.
  - intros Hnone. unfold HDFwriter.final_name. rewrite Hidx.
    now rewrite (next_index_no_match _ _ Hnone).
  - intros k Hin Hk.
    assert (Hname : HDFwriter.final_name n keys = Raise TypeError).
    { unfold HDFwriter.final_name. rewrite Hidx.
      now rewrite (next_index_match _ _ _ Hin Hk). }
    split; [exact Hname|].
    intros w g children Hopen Hgrp ->.
    rewrite (create_group_unfold w g n children Hgrp Hopen). now rewrite Hname.
Qed.

(** Base name [Run_]: alone it becomes [Run_000]; next to the group
    [Run_000] of the sample file the call raises and leaves the file
    as it is. *)
Lemma indexed_group_beside_match_raises_TypeError_witness :
  HDFwriter.final_name (Node "Run_" "/" [] true) [] = Ok "Run_000" /\
  HDFwriter._create_group HDFwriter.root_handle
    (Group (Node "Run_" "/" [] true) []) sample_world
  = (Raise TypeError, sample_world).
Proof.
  split.
  - apply (proj1 (indexed_group_beside_match_raises_TypeError
                    (Node "Run_" "/" [] true) [] eq_refl)).
    intros k [].
  - apply (proj2 (proj2 (indexed_group_beside_match_raises_TypeError
                           (Node "Run_" "/" [] true) ["Run_000"] eq_refl)
                   "Run_000" (or_introl eq_refl) eq_refl));
      reflexivity.
Defined.

(* ================================================================== *)
(** * Properties of [write] *)

(** C7 as stated fails: [write] stamps the version on the file before
    it looks at its argument, so the file is not as it was when the
    [TypeError] is raised. *)
Lemma write_stamps_before_rejecting :
  exists w',
    HDFwriter.write "0.59.8" NotMicroData fresh_world = (Raise TypeError, w') /\
    objects (file w')
    = [([], H5Object IsGroup [("Pycroscopy version", Val (PyStr "0.59.8"))])] /\
    objects (file w') <> objects (file fresh_world).
Proof.
  eexists. split; [reflexivity|]. split; [reflexivity|]. discriminate.
Qed.

(** C7, amended: on an open file that takes the version attribute,
    [write] of an object that is not a [MicroData] raises [TypeError]
    without making a group or a dataset; the one change to the file is
    the attribute ['Pycroscopy version'] of the root. *)
Theorem write_rejects_non_descriptor :
  forall version w o,
    closed (file w) = false ->
    H5.lookup [] (objects (file w)) = Some o ->
    refuses (file w) (SetAttr "Pycroscopy version" (Val (PyStr version))) = false ->
    exists w',
      HDFwriter.write version NotMicroData w = (Raise TypeError, w') /\
      steady w w' /\
      warnings w' = warnings w /\
      H5.lookup [] (objects (file w'))
      = Some (H5Object (kind o)
                (Dict.set "Pycroscopy version" (Val (PyStr version)) (h5attrs o))) /\
      (forall q, q <> [] ->
                 H5.lookup q (objects (file w')) = H5.lookup q (objects (file w))).
Proof.
  intros version w o Hopen Hl Hacc.
  destruct (set_attr_ok w HDFwriter.root_handle "Pycroscopy version"
              (Val (PyStr version)) o Hopen Hl eq_refl Hacc)
    as (w' & Hrun & Hw & Hl' & Hq).
  exists w'. unfold HDFwriter.write, bind. rewrite Hrun. unfold raise.
  split; [reflexivity|]. split; [eapply keeps_set_attr; eauto|].
  split; [exact Hw|]. split; [exact Hl' | exact Hq].
Qed.

Lemma write_rejects_non_descriptor_witness :
  exists w',
    HDFwriter.write "0.59.8" NotMicroData sample_world = (Raise TypeError, w') /\
    H5.lookup ["Run_000"] (objects (file w'))
    = H5.lookup ["Run_000"] (objects (file sample_world)).
Proof.
  destruct (write_rejects_non_descriptor "0.59.8" sample_world
              (H5Object IsGroup []) eq_refl eq_refl eq_refl)
    as (w' & Hrun & _ & _ & _ & Hq).
  exists w'. split; [exact Hrun|]. apply Hq. discriminate.
Defined.

(* ================================================================== *)
(** * Properties of region references and of the header *)

Section Labels.

Lemma set_all_notin {V} (kvs : list (string * V)) :
  forall a k, ~ In k (map fst kvs) -> Dict.get k (set_all kvs a) = Dict.get k a.
Proof.
  induction kvs as [|[k0 v0] kvs IH]; intros a k Hk; [reflexivity|].
  simpl in *. unfold set_all in *. simpl. rewrite IH by tauto.
  apply Dict_get_set_other. intros ->. apply Hk. now left.
Qed.

Lemma set_all_in {V} (kvs : list (string * V)) :
  forall a k v,
    NoDup (map fst kvs) -> In (k, v) kvs -> Dict.get k (set_all kvs a) = Some v.
Proof.
  induction kvs as [|[k0 v0] kvs IH]; intros a k v Hnd Hin; [contradiction|].
  inversion Hnd as [|? ? Hnotin Hnd']; subst.
  destruct Hin as [Heq|Hin].
  - inversion Heq; subst. unfold set_all. simpl.
    change (fold_left _ kvs ?x) with (set_all kvs x).
    rewrite set_all_notin by exact Hnotin. apply Dict_get_set_same.
  - unfold set_all. simpl. now apply IH.
Qed.

(** ** The header list *)

Lemma list_set_length {A} (x : A) l : forall j, List.length (HDFwriter.list_set j x l) = List.length l.
Proof. induction l as [|y l IH]; intros [|j]; simpl; auto. Qed.

Lemma list_set_same {A} (x : A) l :
  forall j, (j < List.length l)%nat -> nth_error (HDFwriter.list_set j x l) j = Some x.
Proof.
  induction l as [|y l IH]; intros [|j] Hj; simpl in *; try lia; [reflexivity|].
  apply IH. lia.
Qed.

Lemma list_set_other {A} (x : A) l :
  forall j j', j <> j' -> nth_error (HDFwriter.list_set j x l) j' = nth_error l j'.
Proof.
  induction l as [|y l IH]; intros [|j] [|j'] Hne; simpl; auto; try congruence.
Qed.

Lemma py_index_lt len i j : HDFwriter.py_index len i = Some j -> (j < len)%nat.
Proof.
  unfold HDFwriter.py_index.
  destruct ((0 <=? i) && (i <? Z.of_nat len))%bool eqn:E1.
  - apply andb_true_iff in E1 as [H1 H2].
    apply Z.leb_le in H1. apply Z.ltb_lt in H2. intros H; inversion H. lia.
  - destruct ((- Z.of_nat len <=? i) && (i <? 0))%bool eqn:E2; [|discriminate].
    apply andb_true_iff in E2 as [H1 H2].
    apply Z.leb_le in H1. apply Z.ltb_lt in H2. intros H; inversion H. lia.
Qed.

(** One round of the loop that fills the header. *)
Lemma fill_headers_step labels dimen col cols headers :
  HDFwriter.fill_headers labels dimen (col :: cols) headers
  = match header_index labels dimen (List.length headers) col with
    | Some j => HDFwriter.fill_headers labels dimen cols
                  (HDFwriter.list_set j (PyStr col) headers)
    | None => Raise (match Dict.get col labels with
                     | None => KeyError
                     | Some sel =>
                         match nth_error sel dimen with
                         | None => IndexError
                         | Some slice_obj =>
                             match start slice_obj with
                             | None => TypeError
                             | Some _ => IndexError
                             end
                         end
                     end)
    end.
Proof.
  unfold header_index. simpl.
  destruct (Dict.get col labels) as [sel|]; [|reflexivity].
  destruct (nth_error sel dimen) as [s|]; [|reflexivity].
  destruct (start s) as [i|]; [|reflexivity].
  now destruct (HDFwriter.py_index (List.length headers) i).
Qed.

(** The loop goes through when every region has a place, and then
    each place holds the name of the last region that claimed it. *)
Lemma fill_headers_ok labels dimen cols :
  forall headers,
    (forall c, In c cols ->
               header_index labels dimen (List.length headers) c <> None) ->
    exists hs,
      HDFwriter.fill_headers labels dimen cols headers = Ok hs /\
      List.length hs = List.length headers /\
      (forall pre c post j,
          cols = (pre ++ c :: post)%list ->
          header_index labels dimen (List.length headers) c = Some j ->
          (forall c', In c' post ->
                      header_index labels dimen (List.length headers) c' <> Some j) ->
          nth_error hs j = Some (PyStr c)) /\
      (forall j,
          (forall c, In c cols ->
                     header_index labels dimen (List.length headers) c <> Some j) ->
          nth_error hs j = nth_error headers j).
Proof.
  induction cols as [|col cols IH]; intros headers Hall.
  - exists headers. split; [reflexivity|]. split; [reflexivity|]. split.
    + intros pre c post j Heq. now destruct pre.
    + reflexivity.
  - rewrite fill_headers_step.
    destruct (header_index labels dimen (List.length headers) col) as [j0|] eqn:Hcol.
    2:{ exfalso. apply (Hall col); [now left | exact Hcol]. }
    set (headers1 := HDFwriter.list_set j0 (PyStr col) headers).
    assert (Hlen1 : List.length headers1 = List.length headers)
      by apply list_set_length.
    destruct (IH headers1) as (hs & Hrun & Hlen & Hplace & Hkeep).
    { intros c Hc. rewrite Hlen1. apply Hall. now right. }
    rewrite Hlen1 in *.
    exists hs. split; [exact Hrun|]. split; [exact Hlen|]. split.
    + intros pre c post j Heq Hc Hpost.
      destruct pre as [|c0 pre]; simpl in Heq; inversion Heq; subst.
      * rewrite Hkeep by exact Hpost.
        assert (j = j0) by congruence. subst j.
        apply list_set_same.
        unfold header_index in Hcol.
        destruct (Dict.get c labels) as [sel|]; [|discriminate].
        destruct (nth_error sel dimen) as [s|]; [|discriminate].
        destruct (start s) as [i|]; [|discriminate].
        eapply py_index_lt; eauto.
      * eapply Hplace; eauto.
    + intros j Hj. rewrite Hkeep.
      * apply list_set_other. intros ->. apply (Hj col); [now left | exact Hcol].
      * intros c Hc. apply Hj. now right.
Qed.

(** The scan of the first region's slices stops at the first one
    that has a start. *)
Lemma find_dim_first sel :
  forall base dimen,
    HDFwriter.find_dim base sel = Some dimen ->
    (base <= dimen)%nat /\
    (exists s i, nth_error sel (dimen - base) = Some s /\ start s = Some i) /\
    (forall j s, (j < dimen - base)%nat -> nth_error sel j = Some s -> start s = None).
Proof.
  induction sel as [|s sel IH]; intros base dimen H; simpl in H; [discriminate|].
  destruct (start s) as [i|] eqn:Hs.
  - inversion H; subst. split; [lia|]. rewrite Nat.sub_diag. split.
    + exists s, i. now split.
    + intros j s' Hj. lia.
  - destruct (IH _ _ H) as (Hle & (s' & i & Hn & Hi) & Hbefore).
    split; [lia|].
    replace (dimen - base)%nat with (S (dimen - S base)) by lia. split.
    + exists s', i. now split.
    + intros [|j] s'' Hj Hn'; simpl in Hn'.
      * now inversion Hn'; subst.
      * eapply Hbefore; eauto. lia.
Qed.

End Labels.

Section RegionReferences.

(** The loop of [__write_region_references] over some of the keys. *)
Lemma region_loop_ok h d slices :
  forall (entries : labels_dict) w a,
    closed (file w) = false ->
    H5.lookup (h_path h) (objects (file w)) = Some (H5Object (IsDataset d) a) ->
    (forall nm sel, In (nm, sel) entries ->
       Dict.get nm slices = Some sel /\
       List.length sel = List.length (ds_shape d) /\
       refuses (file w) (SetAttr nm (RegionReference sel)) = false) ->
    exists w',
      for_each (fun sl =>
        match Dict.get sl slices with
        | None => raise KeyError
        | Some sel =>
            bind (H5.shape h) (fun shape =>
              if Nat.eqb (List.length sel) (List.length shape) then
                bind (H5.regionref h sel) (fun r => H5.set_attr h sl r)
              else
                bind (warn ("Region reference " ++ sl ++
                  " could not be written since the object size was not equal to the dimensions of the dataset"))
                  (fun _ => raise ValueError))
        end) (Dict.keys entries) w = (Ok tt, w') /\
      closed (file w') = false /\
      refuses (file w') = refuses (file w) /\
      warnings w' = warnings w /\
      H5.lookup (h_path h) (objects (file w'))
      = Some (H5Object (IsDataset d) (set_all (region_attrs entries) a)) /\
      (forall q, q <> h_path h ->
                 H5.lookup q (objects (file w')) = H5.lookup q (objects (file w))).
Proof.
  induction entries as [|[nm sel] entries IH]; intros w a Hopen Hl Hall.
  - exists w. simpl. repeat split; auto.
  - destruct (Hall nm sel (or_introl eq_refl)) as (Hget & Hlen & Hacc).
    destruct (set_attr_ok w h nm (RegionReference sel) _ Hopen Hl eq_refl Hacc)
      as (w1 & Hrun & Hw1 & Hl1 & Hq1).
    destruct (keeps_set_attr _ _ _ _ _ _ Hrun) as (Hc1 & Hr1 & _).
    simpl in Hl1.
    destruct (IH w1 (Dict.set nm (RegionReference sel) a)) as
      (w' & Hrest & Hc' & Hr' & Hw' & Hl' & Hq').
    { congruence. }
    { exact Hl1. }
    { intros nm' sel' Hin. rewrite Hr1. apply Hall. now right. }
    exists w'. split.
    + simpl. unfold bind at 1. rewrite Hget.
      unfold bind at 1. unfold H5.shape at 1, H5.opened. rewrite Hopen, Hl.
      unfold ret at 1. rewrite Hlen, Nat.eqb_refl.
      unfold bind at 1. unfold H5.regionref at 1, H5.opened. rewrite Hopen.
      unfold ret at 1. rewrite Hrun. exact Hrest.
    + split; [exact Hc'|]. split; [congruence|]. split; [congruence|].
      split; [exact Hl'|]. intros q Hq. rewrite Hq', Hq1; auto.
Qed.

(** [__write_region_references] stores one region reference under
    the name of each region. *)
Lemma write_region_references_ok h d slices w a :
  closed (file w) = false ->
  H5.lookup (h_path h) (objects (file w)) = Some (H5Object (IsDataset d) a) ->
  NoDup (Dict.keys slices) ->
  (forall nm sel, In (nm, sel) slices ->
     List.length sel = List.length (ds_shape d) /\
     refuses (file w) (SetAttr nm (RegionReference sel)) = false) ->
  exists w',
    HDFwriter.__write_region_references h slices w = (Ok tt, w') /\
    closed (file w') = false /\
    refuses (file w') = refuses (file w) /\
    warnings w' = warnings w /\
    H5.lookup (h_path h) (objects (file w'))
    = Some (H5Object (IsDataset d) (set_all (region_attrs slices) a)) /\
    (forall q, q <> h_path h ->
               H5.lookup q (objects (file w')) = H5.lookup q (objects (file w))).
Proof.
  intros Hopen Hl Hnd Hall.
  apply (region_loop_ok h d slices slices w a Hopen Hl).
  intros nm sel Hin. destruct (Hall nm sel Hin) as [Hlen Hacc].
  split; [now apply Dict_get_In | now split].
Qed.

Lemma region_attrs_keys slices : map fst (region_attrs slices) = Dict.keys slices.
Proof. unfold region_attrs, Dict.keys. rewrite map_map. reflexivity. Qed.

End RegionReferences.

(** C5 as stated fails: the second region has a start on the first
    axis, so an axis on which some region has a start exists, but the
    scan looks at the slices of the first region only, which have none:
    the header is not written, a warning is. *)
Lemma header_axis_taken_from_first_region_only :
  first_axis_of_any_region all_then_B = Some 0%nat /\
  exists w' a,
    HDFwriter.write_labels table_handle "labels" (PyDict all_then_B) table_world
    = (Ok tt, w') /\
    H5.lookup (h_path table_handle) (objects (file w'))
    = Some (H5Object (IsDataset (H5Dataset [2; 3] "int64"
                        (Written (NdArray [2; 3] "int64" [0; 1; 2; 0; 1; 2]))
                        [Some 2; Some 3] None None)) a) /\
    Dict.get "labels" a = None /\
    warnings w' = ["Unable to write region labels for Spectroscopic_Indices"].
Proof.
  split; [reflexivity|].
  eexists. eexists. split; [reflexivity|].
  split; [reflexivity|]. split; reflexivity.
Qed.

(** C5, amended: the axis of the header is the first axis on which the
    slice of the FIRST region has a start.  With such an axis, and
    every region's start on it an index into a list as long as the
    number of regions, the header list has that length, holds the name
    of a region at the index of its start (the last such region where
    two share a start), and is stored, normalised, as the attribute
    ['labels'].  Without such an axis no header is written and one
    warning is issued.  In both cases every region has its region
    reference stored under its name. *)
Theorem labels_header_from_first_region :
  forall w h5_dset d a labels nm0 first rest,
    closed (file w) = false ->
    H5.lookup (h_path h5_dset) (objects (file w)) = Some (H5Object (IsDataset d) a) ->
    labels = (nm0, first) :: rest ->
    NoDup (Dict.keys labels) ->
    (forall nm sel, In (nm, sel) labels ->
       List.length sel = List.length (ds_shape d) /\
       refuses (file w) (SetAttr nm (RegionReference sel)) = false) ->
    (HDFwriter.find_dim 0 first = None ->
     exists w' a' msg,
       HDFwriter.write_labels h5_dset "labels" (PyDict labels) w = (Ok tt, w') /\
       warnings w' = (warnings w ++ [msg])%list /\
       H5.lookup (h_path h5_dset) (objects (file w'))
       = Some (H5Object (IsDataset d) a') /\
       (forall nm sel, In (nm, sel) labels ->
                       Dict.get nm a' = Some (RegionReference sel)) /\
       (~ In "labels" (Dict.keys labels) -> Dict.get "labels" a' = Dict.get "labels" a)) /\
    (forall dimen,
        HDFwriter.find_dim 0 first = Some dimen ->
        ((exists s i, nth_error first dimen = Some s /\ start s = Some i) /\
         (forall j s, (j < dimen)%nat -> nth_error first j = Some s -> start s = None)) /\
        ((forall nm, In nm (Dict.keys labels) ->
                     header_index labels dimen (List.length labels) nm <> None) ->
         exists headers,
           HDFwriter.fill_headers labels dimen (Dict.keys labels)
             (repeat PyNone (List.length labels)) = Ok headers /\
           List.length headers = List.length labels /\
           (forall pre nm post j,
               Dict.keys labels = (pre ++ nm :: post)%list ->
               header_index labels dimen (List.length labels) nm = Some j ->
               (forall nm', In nm' post ->
                  header_index labels dimen (List.length labels) nm' <> Some j) ->
               nth_error headers j = Some (PyStr nm)) /\
           forall v,
             clean_string_att (PyList headers) = Ok v ->
             refuses (file w) (SetAttr "labels" (Val v)) = false ->
             exists w' a',
               HDFwriter.write_labels h5_dset "labels" (PyDict labels) w = (Ok tt, w') /\
               warnings w' = warnings w /\
               H5.lookup (h_path h5_dset) (objects (file w'))
               = Some (H5Object (IsDataset d) a') /\
               Dict.get "labels" a' = Some (Val v) /\
               (forall nm sel, In (nm, sel) labels -> nm <> "labels" ->
                               Dict.get nm a' = Some (RegionReference sel)))).
Proof.
  intros w h d a labels nm0 first rest Hopen Hl Hlabels Hnd Hall.
  destruct (write_region_references_ok h d labels w a Hopen Hl Hnd Hall)
    as (w1 & Hrefs & Hc1 & Hr1 & Hw1 & Hl1 & Hq1).
  assert (Hstored : forall nm sel, In (nm, sel) labels ->
            Dict.get nm (set_all (region_attrs labels) a) = Some (RegionReference sel)).
  { intros nm sel Hin. apply set_all_in.
    - now rewrite region_attrs_keys.
    - unfold region_attrs.
      change (nm, RegionReference sel)
        with ((fun kv : string * list slice => (fst kv, RegionReference (snd kv)))
                (nm, sel)).
      now apply in_map. }
  assert (Hvalues : Dict.values labels = first :: Dict.values rest)
    by now subst labels.
  split.
  - intros Hnone.
    eexists. exists (set_all (region_attrs labels) a). eexists.
    split; [|split; [|split; [|split]]].
    + unfold HDFwriter.write_labels. unfold bind at 1. rewrite Hrefs.
      rewrite Hvalues, Hnone. unfold warn. reflexivity.
    + simpl. now rewrite Hw1.
    + exact Hl1.
    + exact Hstored.
    + intros Hnot. apply set_all_notin. now rewrite region_attrs_keys.
  - intros dimen Hdim. split.
    { destruct (find_dim_first first 0 dimen Hdim) as (_ & Hex & Hbefore).
      rewrite Nat.sub_0_r in *. split; [exact Hex | exact Hbefore]. }
    intros Hplaces.
    destruct (fill_headers_ok labels dimen (Dict.keys labels)
                (repeat PyNone (List.length labels))) as (hs & Hfill & Hlen & Hplace & _).
    { intros c Hc. rewrite repeat_length. now apply Hplaces. }
    rewrite repeat_length in *.
    exists hs. split; [exact Hfill|]. split; [exact Hlen|]. split; [exact Hplace|].
    intros v Hclean Hacc.
    rewrite <- Hr1 in Hacc.
    assert (Hstor : H5.storable (Val v) = true).
    { eapply clean_string_att_storable; [|exact Hclean]. discriminate. }
    destruct (set_attr_ok w1 h "labels" (Val v) _ Hc1 Hl1 Hstor Hacc)
      as (w' & Hset & Hw' & Hl' & _).
    simpl in Hl'.
    exists w'. eexists. split; [|split; [|split; [exact Hl'|split]]].
    + unfold HDFwriter.write_labels. unfold bind at 1. rewrite Hrefs.
      rewrite Hvalues, Hdim. unfold bind at 1, lift at 1. rewrite Hfill.
      unfold bind, lift. rewrite Hclean. exact Hset.
    + congruence.
    + apply Dict_get_set_same.
    + intros nm sel Hin Hne. rewrite Dict_get_set_other by exact Hne.
      now apply Hstored.
Qed.

(** The example of the specification: rows [A] and [B] of a table give
    the header [A, B], stored as an array of bytes, next to the two
    region references. *)
Lemma labels_header_from_first_region_witness :
  exists w' a',
    HDFwriter.write_labels table_handle "labels" (PyDict rows_A_B) table_world
    = (Ok tt, w') /\
    warnings w' = [] /\
    H5.lookup (h_path table_handle) (objects (file w'))
    = Some (H5Object (IsDataset (H5Dataset [2; 3] "int64"
                        (Written (NdArray [2; 3] "int64" [0; 1; 2; 0; 1; 2]))
                        [Some 2; Some 3] None None)) a') /\
    Dict.get "labels" a'
    = Some (Val (NpArrS (Axis [Item "A"; Item "B"]))) /\
    Dict.get "A" a'
    = Some (RegionReference [Slice (Some 0) (Some 1) None; Slice None None None]) /\
    Dict.get "B" a'
    = Some (RegionReference [Slice (Some 1) (Some 2) None; Slice None None None]).
Proof.
  assert (Hnd : NoDup (Dict.keys rows_A_B)).
  { repeat constructor; simpl; intuition discriminate. }
  destruct (labels_header_from_first_region table_world table_handle _ []
              rows_A_B _ _ _ eq_refl eq_refl eq_refl Hnd) as [_ Hsome].
  { intros nm sel [H|[H|[]]]; inversion H; subst; split; reflexivity. }
  destruct (Hsome 0%nat eq_refl) as [_ Hheader].
  destruct Hheader as (headers & Hfill & _ & _ & Hwrite).
  { intros nm [H|[H|[]]]; subst; discriminate. }
  inversion Hfill; subst headers.
  destruct (Hwrite (NpArrS (Axis [Item "A"; Item "B"]))
              eq_refl eq_refl) as (w' & a' & Hrun & Hw & Hl & Hlab & Hrefs).
  exists w', a'. split; [exact Hrun|]. split; [exact Hw|]. split; [exact Hl|].
  split; [exact Hlab|]. split.
  - apply Hrefs; [now left | discriminate].
  - apply Hrefs; [right; now left | discriminate].
Defined.

(* ================================================================== *)
(** * The order of the handles that [write] returns *)

(** C1 as stated fails: [__populate] appends the handle of a group
    after it has gone through the children, so the dataset
    [/Measurement/Raw_Data] comes before the group [/Measurement] that
    holds it. *)
Lemma write_lists_children_before_parent :
  exists refs data' w',
    HDFwriter.write "0.59.8" (Obj small_tree) fresh_world = (Ok (refs, data'), w') /\
    map h_path refs = [["Measurement"; "Raw_Data"]; ["Measurement"]] /\
    match data' with
    | Group _ children' => map h_path refs <> flat_map preorder children'
    | _ => False
    end.
Proof.
  remember (HDFwriter.write "0.59.8" (Obj small_tree) fresh_world) as r eqn:E.
  vm_compute in E. subst r.
  eexists. eexists. eexists. split; [reflexivity|].
  split; [reflexivity|]. vm_compute. discriminate.
Qed.

Section Traversal.

(** Induction over a descriptor and, in a group, over its children. *)
Lemma MicroData_rect' (P : MicroData -> Prop) :
  (forall n, P (Plain n)) ->
  (forall n children, Forall P children -> P (Group n children)) ->
  (forall n f, P (Dataset n f)) ->
  forall m, P m.
Proof.
  intros HP HG HD.
  fix IH 1. intros [n|n children|n f]; [apply HP | | apply HD].
  apply HG. induction children as [|c cs IHcs]; constructor; [apply IH | exact IHcs].
Qed.

Lemma getitem_path p w h w' :
  H5.getitem p w = (Ok h, w') -> h_path h = split_path p.
Proof.
  unfold H5.getitem, H5.opened.
  destruct (closed (file w)); [discriminate|].
  destruct (String.eqb p ""); [discriminate|].
  destruct (H5.lookup (split_path p) (objects (file w))); [|discriminate].
  unfold ret. intros H; inversion H; reflexivity.
Qed.

Lemma prefix_app s t : prefix s (s ++ t) = true.
Proof.
  induction s as [|a s IH]; simpl; [now destruct t|].
  destruct (ascii_dec a a); [exact IH | contradiction].
Qed.

Lemma prefix_refl s : prefix s s = true.
Proof.
  induction s as [|a s IH]; simpl; [reflexivity|].
  destruct (ascii_dec a a); [exact IH | contradiction].
Qed.

Lemma final_name_prefix n keys nm :
  HDFwriter.final_name n keys = Ok nm -> prefix (name n) nm = true.
Proof.
  unfold HDFwriter.final_name. destruct (indexed n).
  - destruct (HDFwriter.next_index (name n) keys); simpl; [|discriminate].
    intros H; inversion H. apply prefix_app.
  - intros H; inversion H. apply prefix_refl.
Qed.

(** What [_create_group] returns when it returns. *)
Lemma create_group_result w g n children h g' w' :
  HDFwriter._create_group g (Group n children) w = (Ok (h, g'), w') ->
  exists nm,
    HDFwriter.final_name n
      (Str.sort (H5.child_names (h_path g) (objects (file w)))) = Ok nm /\
    h_path h = (h_path g ++ [nm])%list /\
    g' = Group (set_name nm n) children.
Proof.
  intros Hrun.
  destruct (h_is_group g) eqn:Hgrp.
  2:{ unfold HDFwriter._create_group in Hrun. rewrite Hgrp in Hrun. discriminate. }
  destruct (closed (file w)) eqn:Hopen.
  { unfold HDFwriter._create_group in Hrun. rewrite Hgrp in Hrun. simpl in Hrun.
    unfold bind at 1 in Hrun. destruct (indexed n).
    - unfold bind, H5.keys, H5.opened in Hrun. rewrite Hopen in Hrun. discriminate.
    - unfold ret at 1 in Hrun. unfold bind at 1 in Hrun.
      unfold HDFwriter.create_or_reuse, try_except, H5.create_group, H5.opened
        in Hrun.
      rewrite Hopen in Hrun. unfold H5.getitem_in, H5.opened in Hrun.
      rewrite Hopen in Hrun. discriminate. }
  rewrite (create_group_unfold w g n children Hgrp Hopen) in Hrun.
  destruct (HDFwriter.final_name n _) as [nm|e]; [|discriminate].
  exists nm. split; [reflexivity|].
  unfold bind at 1 in Hrun.
  destruct (HDFwriter.create_or_reuse g nm w) as [[h1|e] w1] eqn:Hcr;
    [|discriminate].
  unfold bind, ret in Hrun.
  destruct (HDFwriter.write_group_attrs h1 _ w1) as [[[]|e] w2]; [|discriminate].
  inversion Hrun; subst. split; [|reflexivity].
  eapply create_or_reuse_path; eauto.
Qed.

Lemma H5_create_dataset_path g a w h w' :
  H5.create_dataset g a w = (Ok h, w') -> h_path h = (h_path g ++ [a_name a])%list.
Proof.
  unfold H5.create_dataset, H5.opened.
  destruct (closed (file w)); [discriminate|].
  destruct (H5.lookup _ _); [discriminate|].
  unfold bind, lift. destruct (H5.new_dataset a); [|discriminate].
  destruct (negb (valid_link (a_name a)) || refuses (file w) (CreateDataset a));
    [discriminate|].
  unfold H5.put_file, ret. intros H; inversion H; reflexivity.
Qed.

Lemma create_dset_path g n f build w h w' :
  (forall w h w', build g n f w = (Ok h, w') -> h_path h = (h_path g ++ [name n])%list) ->
  HDFwriter.__create_dset g n f build w = (Ok h, w') ->
  h_path h = (h_path g ++ [name n])%list.
Proof.
  intros Hbuild. unfold HDFwriter.__create_dset, try_except.
  destruct (build g n f w) as [[h1|e] w1] eqn:E.
  - intros H; inversion H; subst. eapply Hbuild; eauto.
  - unfold bind, H5.flush, H5.close, ret, raise. discriminate.
Qed.

Lemma build_dataset_path g n f w h w' :
  HDFwriter.build_dataset g n f w = (Ok h, w') ->
  h_path h = (h_path g ++ [name n])%list.
Proof.
  unfold HDFwriter.build_dataset.
  destruct (negb (resizable f)); [destruct (negb (HDFwriter.truthy (maxshape f)))|];
    apply create_dset_path; clear; intros w h w'.
  - unfold HDFwriter._create_simple_dset. destruct (data f); [|discriminate].
    apply H5_create_dataset_path.
  - unfold HDFwriter._create_empty_dset. apply H5_create_dataset_path.
  - unfold HDFwriter._create_resizeable_dset. destruct (data f); [|discriminate].
    apply H5_create_dataset_path.
Qed.

(** What [_create_dataset] returns when it returns. *)
Lemma create_dataset_path g n f w h w' :
  HDFwriter._create_dataset g (Dataset n f) w = (Ok h, w') ->
  h_path h = (h_path g ++ [name n])%list.
Proof.
  unfold HDFwriter._create_dataset.
  destruct (negb (h_is_group g)); [discriminate|].
  unfold bind at 1. destruct (H5.keys g w) as [[keys|e] w0]; [|discriminate].
  destruct (existsb _ keys); [discriminate|].
  unfold bind at 1.
  destruct (HDFwriter.build_dataset g n f w0) as [[h1|e] w1] eqn:Hb; [|discriminate].
  unfold bind, ret.
  destruct (HDFwriter.__write_attributes n h1 w1) as [[[]|e] w2]; [|discriminate].
  intros H; inversion H; subst. eapply build_dataset_path; eauto.
Qed.

Lemma bind_ext_k {A B} (m : M A) (k1 k2 : A -> M B) w :
  (forall a w, k1 a w = k2 a w) -> bind m k1 w = bind m k2 w.
Proof. intros H. unfold bind. destruct (m w) as [[a|e] w0]; auto. Qed.

Lemma bind_ext_m {A B} (m1 m2 : M A) (k : A -> M B) w :
  (forall w, m1 w = m2 w) -> bind m1 k w = bind m2 k w.
Proof. intros H. unfold bind. now rewrite H. Qed.

(** The loop over the children in [__populate] is the loop of [write]. *)
Lemma populate_group n children parent ref_list w :
  HDFwriter.__populate (Group n children) parent ref_list w
  = bind (H5.getitem parent) (fun h5_parent_group =>
      bind (HDFwriter._create_group h5_parent_group
              (Group (set_parent parent n) children)) (fun r =>
        bind (HDFwriter.populate_all children
                (parent ++ "/" ++ name (node_of (snd r))) ref_list) (fun r' =>
          ret (Group (node_of (snd r)) (fst r'), (snd r' ++ [fst r])%list)))) w.
Proof.
  cbn [HDFwriter.__populate].
  apply bind_ext_k. intros hp w0.
  apply bind_ext_k. intros r w1.
  apply bind_ext_m.
  generalize ref_list. clear.
  induction children as [|c cs IH]; intros rl w; [reflexivity|].
  cbn [HDFwriter.populate_all].
  apply bind_ext_k. intros r1 w2.
  apply bind_ext_m. intros w3. apply IH.
Qed.

(** Each call of [__populate] appends to [ref_list] the handles of
    the node's subtree in post-order, and leaves the descriptor the
    same tree with the names it has in the file. *)
Lemma populate_postorder :
  forall child parent ref_list w child' ref_list' w',
    HDFwriter.__populate child parent ref_list w = (Ok (child', ref_list'), w') ->
    exists hs,
      ref_list' = (ref_list ++ hs)%list /\
      map h_path hs = postorder child' /\
      resolved_from child child'.
Proof.
  induction child as [n|n children IHc|n f] using MicroData_rect';
    intros parent rl w child' rl' w' Hrun.
  - simpl in Hrun. unfold bind in Hrun.
    destruct (H5.getitem parent w) as [[hp|e] w0]; [|discriminate].
    unfold HDFwriter._create_dataset, raise in Hrun. discriminate.
  - rewrite populate_group in Hrun. unfold bind at 1 in Hrun.
    destruct (H5.getitem parent w) as [[hp|e] w0] eqn:Hget; [|discriminate].
    unfold bind at 1 in Hrun.
    destruct (HDFwriter._create_group hp _ w0) as [[[h g']|e] w1] eqn:Hcg;
      [|discriminate].
    destruct (create_group_result _ _ _ _ _ _ _ Hcg) as (nm & Hname & Hpath & ->).
    simpl in Hrun.
    assert (Hall : forall cs, Forall
              (fun c => forall parent rl w c' rl' w',
                   HDFwriter.__populate c parent rl w = (Ok (c', rl'), w') ->
                   exists hs, rl' = (rl ++ hs)%list /\
                              map h_path hs = postorder c' /\ resolved_from c c') cs ->
            forall root rl w cs' rl' w',
              HDFwriter.populate_all cs root rl w = (Ok (cs', rl'), w') ->
              exists hs, rl' = (rl ++ hs)%list /\
                         map h_path hs = flat_map postorder cs' /\
                         (fix each (l l' : list MicroData) : Prop :=
                            match l, l' with
                            | [], [] => True
                            | c :: l, c' :: l' => resolved_from c c' /\ each l l'
                            | _, _ => False
                            end) cs cs').
    { clear. induction cs as [|c cs IH]; intros HF root rl w cs' rl' w' Hrun.
      - inversion Hrun; subst. exists []. now rewrite app_nil_r.
      - inversion HF as [|? ? Hc Hcs]; subst. simpl in Hrun.
        unfold bind at 1 in Hrun.
        destruct (HDFwriter.__populate c root rl w) as [[[c1 rl1]|e] w1] eqn:Hp;
          [|discriminate].
        unfold bind at 1 in Hrun. simpl in Hrun.
        destruct (HDFwriter.populate_all cs root rl1 w1) as [[[cs1 rl2]|e] w2] eqn:Hpa;
          [|discriminate].
        unfold ret in Hrun. simpl in Hrun. inversion Hrun; subst.
        destruct (Hc _ _ _ _ _ _ Hp) as (hs1 & -> & Hm1 & Hr1).
        destruct (IH Hcs _ _ _ _ _ _ Hpa) as (hs2 & -> & Hm2 & Hr2).
        exists (hs1 ++ hs2)%list. split; [now rewrite app_assoc|].
        split; [|now split].
        simpl. now rewrite map_app, Hm1, Hm2. }
    unfold bind at 1 in Hrun.
    destruct (HDFwriter.populate_all children _ rl w1) as [[[cs' rl1]|e] w2] eqn:Hpa;
      [|discriminate].
    unfold ret in Hrun. simpl in Hrun. inversion Hrun; subst.
    destruct (Hall _ IHc _ _ _ _ _ _ Hpa) as (hs & -> & Hm & Hr).
    exists (hs ++ [h])%list. split; [now rewrite app_assoc|]. split.
    + simpl. rewrite map_app, Hm. simpl. f_equal. f_equal.
      unfold node_path. simpl. rewrite Hpath.
      now rewrite (getitem_path _ _ _ _ Hget).
    + simpl. split; [reflexivity|]. split; [|exact Hr].
      exact (final_name_prefix _ _ _ Hname).
  - cbn [HDFwriter.__populate] in Hrun. unfold bind at 1 in Hrun.
    destruct (H5.getitem parent w) as [[hp|e] w0] eqn:Hget; [|discriminate].
    unfold bind in Hrun.
    destruct (HDFwriter._create_dataset hp (Dataset (set_parent parent n) f) w0)
      as [[h|e] w1] eqn:Hcd; [|discriminate].
    unfold ret in Hrun. inversion Hrun; subst.
    exists [h]. split; [reflexivity|]. split.
    + simpl. unfold node_path. simpl.
      rewrite (create_dataset_path _ _ _ _ _ _ Hcd). simpl.
      now rewrite (getitem_path _ _ _ _ Hget).
    + simpl. auto.
Qed.

End Traversal.

Section WriteOrder.

Lemma resolved_from_group n children n' children' :
  resolved_from (Group n children) (Group n' children')
  <-> attrs n' = attrs n /\ prefix (name n) (name n') = true /\
      resolved_all children children'.
Proof.
  simpl.
  assert (H : forall l l',
             (fix each (l l' : list MicroData) : Prop :=
                match l, l' with
                | [], [] => True
                | c :: l, c' :: l' => resolved_from c c' /\ each l l'
                | _, _ => False
                end) l l' <-> resolved_all l l').
  { induction l as [|c l IH]; intros [|c' l']; simpl; try tauto.
    all: try (now rewrite IH). }
  now rewrite H.
Qed.

(** The loop of [write] over the children of the root. *)
Lemma populate_all_postorder :
  forall children root ref_list w children' ref_list' w',
    HDFwriter.populate_all children root ref_list w = (Ok (children', ref_list'), w') ->
    exists hs,
      ref_list' = (ref_list ++ hs)%list /\
      map h_path hs = flat_map postorder children' /\
      resolved_all children children'.
Proof.
  induction children as [|c cs IH]; intros root rl w cs' rl' w' Hrun.
  - inversion Hrun; subst. exists []. now rewrite app_nil_r.
  - cbn [HDFwriter.populate_all] in Hrun. unfold bind at 1 in Hrun.
    destruct (HDFwriter.__populate c root rl w) as [[[c1 rl1]|e] w1] eqn:Hp;
      [|discriminate].
    unfold bind at 1 in Hrun. simpl in Hrun.
    destruct (HDFwriter.populate_all cs root rl1 w1) as [[[cs1 rl2]|e] w2] eqn:Hpa;
      [|discriminate].
    unfold ret in Hrun. simpl in Hrun. inversion Hrun; subst.
    destruct (populate_postorder _ _ _ _ _ _ _ Hp) as (hs1 & -> & Hm1 & Hr1).
    destruct (IH _ _ _ _ _ _ Hpa) as (hs2 & -> & Hm2 & Hr2).
    exists (hs1 ++ hs2)%list. split; [now rewrite app_assoc|].
    split; [|now split].
    simpl. now rewrite map_app, Hm1, Hm2.
Qed.

End WriteOrder.

(** C1, amended: the list that [write] returns is in post-order.  For
    a group at the root it holds, for each child in the order of the
    children, the handles of the child's subtree: those of its own
    children first, the handle of the child itself last.  The group at
    the root has no handle in the list.  For a dataset at the root it
    holds the handle of that dataset.  The descriptor that [write]
    leaves is the tree it was given, child by child. *)
Theorem write_returns_handles_in_postorder :
  forall version data w refs data' w',
    HDFwriter.write version (Obj data) w = (Ok (refs, data'), w') ->
    map h_path refs
    = match data' with
      | Group _ children' => flat_map postorder children'
      | _ => postorder data'
      end /\
    resolved_from data data'.
Proof.
  intros version data w refs data' w' Hrun.
  unfold HDFwriter.write in Hrun. unfold bind at 1 in Hrun.
  destruct (H5.set_attr _ _ _ w) as [[[]|e] w0]; [|discriminate].
  destruct data as [n|n children|n f].
  - (* a plain MicroData has no children *)
    unfold bind at 1 in Hrun. simpl in Hrun.
    destruct (String.eqb (name n) "" && String.eqb (parent n) "/").
    + unfold bind at 1 in Hrun.
      destruct (for_each _ (attrs n) w0) as [[[]|e] w1]; [|discriminate].
      unfold ret at 1 in Hrun. simpl in Hrun. discriminate.
    + unfold bind at 1 in Hrun.
      destruct (H5.getitem (parent n) w0) as [[hp|e] w1]; [|discriminate].
      unfold bind at 1 in Hrun. simpl in Hrun. discriminate.
  - unfold bind at 1 in Hrun. cbn [node_of] in Hrun.
    destruct (String.eqb (name n) "" && String.eqb (parent n) "/").
    + unfold bind at 1 in Hrun.
      destruct (for_each _ (attrs n) w0) as [[[]|e] w1]; [|discriminate].
      unfold ret at 1 in Hrun. cbn [fst snd] in Hrun.
      unfold bind at 1 in Hrun.
      destruct (HDFwriter.populate_all children _ [] w1) as [[[cs' rl]|e] w2] eqn:Hpa;
        [|discriminate].
      destruct (populate_all_postorder _ _ _ _ _ _ _ Hpa) as (hs & Hrl & Hm & Hr).
      simpl in Hrl. subst rl.
      unfold ret in Hrun. simpl in Hrun. inversion Hrun; subst.
      split; [exact Hm|].
      apply resolved_from_group. split; [reflexivity|].
      split; [apply prefix_refl | exact Hr].
    + unfold bind at 1 in Hrun.
      destruct (H5.getitem (parent n) w0) as [[hp|e] w1]; [|discriminate].
      unfold bind at 1 in Hrun.
      destruct (HDFwriter._create_group hp (Group n children) w1)
        as [[[h g']|e] w2] eqn:Hcg; [|discriminate].
      destruct (create_group_result _ _ _ _ _ _ _ Hcg) as (nm & Hname & _ & ->).
      unfold ret at 1 in Hrun. cbn [fst snd] in Hrun.
      unfold bind at 1 in Hrun.
      destruct (HDFwriter.populate_all children _ [] w2) as [[[cs' rl]|e] w3] eqn:Hpa;
        [|discriminate].
      destruct (populate_all_postorder _ _ _ _ _ _ _ Hpa) as (hs & Hrl & Hm & Hr).
      simpl in Hrl. subst rl.
      unfold ret in Hrun. simpl in Hrun. inversion Hrun; subst.
      split; [exact Hm|].
      apply resolved_from_group. split; [reflexivity|].
      split; [exact (final_name_prefix _ _ _ Hname) | exact Hr].
  - unfold bind at 1 in Hrun. unfold try_except in Hrun.
    destruct (H5.getitem (parent n) w0) as [[hp|e] w1] eqn:Hget.
    2:{ destruct e; discriminate. }
    unfold bind in Hrun.
    destruct (HDFwriter._create_dataset hp (Dataset n f) w1) as [[h|e] w2] eqn:Hcd;
      [|discriminate].
    unfold ret in Hrun. inversion Hrun; subst. split.
    + simpl. unfold node_path. simpl.
      rewrite (create_dataset_path _ _ _ _ _ _ Hcd).
      now rewrite (getitem_path _ _ _ _ Hget).
    + simpl. auto.
Qed.

(** The tree with the group [Measurement] and its dataset [Raw_Data]:
    the dataset first, then the group. *)
Lemma write_returns_handles_in_postorder_witness :
  exists refs data' w',
    HDFwriter.write "0.59.8" (Obj small_tree) fresh_world = (Ok (refs, data'), w') /\
    map h_path refs = [["Measurement"; "Raw_Data"]; ["Measurement"]] /\
    resolved_from small_tree data'.
Proof.
  destruct (HDFwriter.write "0.59.8" (Obj small_tree) fresh_world)
    as [[[refs data']|e] w'] eqn:Hrun.
  - destruct (write_returns_handles_in_postorder _ _ _ _ _ _ Hrun) as [Horder Hres].
    exists refs, data', w'. split; [reflexivity|]. split; [|exact Hres].
    vm_compute in Hrun. inversion Hrun; subst. reflexivity.
  - vm_compute in Hrun. discriminate.
Defined.

(* ================================================================== *)
(** * The attributes every group carries *)

Section GroupAttributes.

(** After the loop over the attributes of a group, each attribute
    that is not [None] is stored, normalised, under its key. *)
Lemma write_group_attrs_stored h l :
  forall w w' o,
    HDFwriter.write_group_attrs h l w = (Ok tt, w') ->
    H5.lookup (h_path h) (objects (file w)) = Some o ->
    exists o',
      H5.lookup (h_path h) (objects (file w')) = Some o' /\
      (forall k, ~ In k (Dict.keys l) ->
                 Dict.get k (h5attrs o') = Dict.get k (h5attrs o)) /\
      (NoDup (Dict.keys l) ->
       forall k v, In (k, v) l -> v <> PyNone ->
                   exists v', clean_string_att v = Ok v' /\
                              Dict.get k (h5attrs o') = Some (Val v')).
Proof.
  induction l as [|[k0 v0] l IH]; intros w w' o Hrun Hl.
  - inversion Hrun; subst. exists o. split; [exact Hl|]. split; [reflexivity|].
    intros _ k v [].
  - unfold HDFwriter.write_group_attrs in Hrun. cbn [for_each] in Hrun.
    unfold bind at 1 in Hrun. cbn [fst snd] in Hrun.
    assert (Hstep : exists w1 o1,
               for_each (fun kv : string * att_val =>
                 if Py.is_None (snd kv) then ret tt
                 else bind (lift (clean_string_att (snd kv)))
                        (fun v => H5.set_attr h (fst kv) (Val v))) l w1 = (Ok tt, w') /\
               H5.lookup (h_path h) (objects (file w1)) = Some o1 /\
               (forall k, k <> k0 -> Dict.get k (h5attrs o1) = Dict.get k (h5attrs o)) /\
               (v0 <> PyNone ->
                exists v', clean_string_att v0 = Ok v' /\
                           Dict.get k0 (h5attrs o1) = Some (Val v'))).
    { destruct (Py.is_None v0) eqn:Hnone.
      - unfold ret at 1 in Hrun. exists w, o. split; [exact Hrun|].
        split; [exact Hl|]. split; [reflexivity|].
        intros Hne. destruct v0; try discriminate. contradiction.
      - unfold bind at 1, lift at 1 in Hrun.
        destruct (clean_string_att v0) as [v'|e]; [|discriminate].
        destruct (H5.set_attr h k0 (Val v') w) as [[[]|e] w1] eqn:Hset;
          [|discriminate].
        exists w1. eexists. split; [exact Hrun|].
        split; [eapply set_attr_stored; eauto|]. simpl. split.
        + intros k Hk. now apply Dict_get_set_other.
        + intros _. exists v'. split; [reflexivity | apply Dict_get_set_same]. }
    destruct Hstep as (w1 & o1 & Hrest & Hl1 & Hother & Hhead).
    destruct (IH w1 w' o1 Hrest Hl1) as (o' & Hl' & Hnotin & Hin).
    exists o'. split; [exact Hl'|]. split.
    + intros k Hk. simpl in Hk. rewrite Hnotin by tauto. apply Hother.
      intros ->. apply Hk. now left.
    + intros Hnd k v [Heq|Hkv] Hv.
      * inversion Heq; subst. inversion Hnd as [|? ? Hk0 Hnd']; subst.
        destruct (Hhead Hv) as (v' & Hclean & Hget).
        exists v'. split; [exact Hclean|]. now rewrite Hnotin.
      * inversion Hnd as [|? ? Hk0 Hnd']; subst. now apply Hin.
Qed.

Lemma create_or_reuse_lookup w g nm h w1 :
  HDFwriter.create_or_reuse g nm w = (Ok h, w1) ->
  exists o, H5.lookup (h_path h) (objects (file w1)) = Some o.
Proof.
  unfold HDFwriter.create_or_reuse, try_except, H5.create_group, H5.opened.
  destruct (closed (file w)) eqn:Hopen.
  - unfold H5.getitem_in, H5.opened. rewrite Hopen. discriminate.
  - destruct (H5.lookup (h_path g ++ [nm])%list (objects (file w))) as [o|] eqn:Hl.
    + unfold raise, H5.getitem_in, H5.opened. rewrite Hopen, Hl.
      unfold ret. intros H; inversion H; subst. simpl. eauto.
    + destruct (negb (valid_link nm) || refuses (file w) (CreateGroup nm)).
      * unfold raise, H5.getitem_in, H5.opened. rewrite Hopen, Hl. discriminate.
      * unfold bind, H5.put_file, ret. intros H; inversion H; subst. simpl.
        eexists. now apply lookup_app_new.
Qed.

(** The steps of a call of [_create_group] that returns. *)
Lemma create_group_steps w g n children h g' w' :
  HDFwriter._create_group g (Group n children) w = (Ok (h, g'), w') ->
  exists nm w1,
    HDFwriter.create_or_reuse g nm w = (Ok h, w1) /\
    HDFwriter.write_group_attrs h (attrs n) w1 = (Ok tt, w') /\
    g' = Group (set_name nm n) children.
Proof.
  intros Hrun.
  destruct (h_is_group g) eqn:Hgrp.
  2:{ unfold HDFwriter._create_group in Hrun. rewrite Hgrp in Hrun. discriminate. }
  destruct (closed (file w)) eqn:Hopen.
  { unfold HDFwriter._create_group in Hrun. rewrite Hgrp in Hrun. simpl in Hrun.
    unfold bind at 1 in Hrun. destruct (indexed n).
    - unfold bind, H5.keys, H5.opened in Hrun. rewrite Hopen in Hrun. discriminate.
    - unfold ret at 1 in Hrun. unfold bind at 1 in Hrun.
      unfold HDFwriter.create_or_reuse, try_except, H5.create_group, H5.opened
        in Hrun.
      rewrite Hopen in Hrun. unfold H5.getitem_in, H5.opened in Hrun.
      rewrite Hopen in Hrun. discriminate. }
  rewrite (create_group_unfold w g n children Hgrp Hopen) in Hrun.
  destruct (HDFwriter.final_name n _) as [nm|e]; [|discriminate].
  unfold bind at 1 in Hrun.
  destruct (HDFwriter.create_or_reuse g nm w) as [[h1|e] w1] eqn:Hcr;
    [|discriminate].
  unfold bind, ret in Hrun. simpl in Hrun.
  destruct (HDFwriter.write_group_attrs h1 (attrs n) w1) as [[[]|e] w2] eqn:Hattrs;
    [|discriminate].
  inversion Hrun; subst. exists nm, w1. auto.
Qed.

End GroupAttributes.

(** C10: [MicroDataGroup.__init__] sets the attributes ['machine_id']
    (the name of the host) and ['timestamp'], whether the caller has
    given attributes or not, and over the caller's values for the two
    keys.  When [_create_group] has written the group, the object in
    the file has the two attributes. *)
Theorem group_carries_machine_id_and_timestamp :
  forall h nm par ats children,
    ats <> AttrsOther ->
    exists g ws,
      MicroDataGroup.__init__ h nm par ats children = Ok (g, ws) /\
      Dict.get "machine_id" (attrs (node_of g)) = Some (PyStr (getfqdn h)) /\
      Dict.get "timestamp" (attrs (node_of g)) = Some (PyStr (get_time_stamp h)) /\
      ((forall d, ats = AttrsDict d -> NoDup (Dict.keys d)) ->
       forall h5_group w h5 g' w',
         HDFwriter._create_group h5_group g w = (Ok (h5, g'), w') ->
         exists o,
           H5.lookup (h_path h5) (objects (file w')) = Some o /\
           Dict.get "machine_id" (h5attrs o) = Some (Val (PyStr (getfqdn h))) /\
           Dict.get "timestamp" (h5attrs o) = Some (Val (PyStr (get_time_stamp h)))).
Proof.
  intros h nm par ats children Hats.
  set (d0 := match ats with AttrsDict d => d | _ => [] end).
  set (a := Dict.set "timestamp" (PyStr (get_time_stamp h))
              (Dict.set "machine_id" (PyStr (getfqdn h)) d0)).
  assert (Hinit : exists n cs ws,
             MicroDataGroup.__init__ h nm par ats children = Ok (Group n cs, ws) /\
             attrs n = a).
  { unfold MicroDataGroup.__init__.
    destruct ats as [|d|]; [| |contradiction]; simpl;
      destruct (String.eqb nm ""); destruct children;
      try destruct (MicroDataGroup.add_children _ _ _) as [cs ws];
      do 3 eexists; split; reflexivity. }
  destruct Hinit as (n & cs & ws & Hinit & Hattrs).
  assert (Hts : Dict.get "timestamp" a = Some (PyStr (get_time_stamp h)))
    by apply Dict_get_set_same.
  assert (Hid : Dict.get "machine_id" a = Some (PyStr (getfqdn h))).
  { unfold a. rewrite Dict_get_set_other by discriminate. apply Dict_get_set_same. }
  exists (Group n cs), ws. cbn [node_of]. rewrite Hattrs.
  split; [exact Hinit|]. split; [exact Hid|]. split; [exact Hts|].
  intros Hdict g w h5 g' w' Hrun.
  assert (Hnd : NoDup (Dict.keys a)).
  { unfold a. apply Dict_set_NoDup, Dict_set_NoDup. unfold d0.
    destruct ats as [|d|]; [constructor | now apply Hdict | constructor]. }
  destruct (create_group_steps _ _ _ _ _ _ _ Hrun) as (nm' & w1 & Hcr & Hwrite & _).
  destruct (create_or_reuse_lookup _ _ _ _ _ Hcr) as (o1 & Hl1).
  rewrite Hattrs in Hwrite.
  destruct (write_group_attrs_stored _ _ _ _ _ Hwrite Hl1) as (o' & Hl' & _ & Hin).
  exists o'. split; [exact Hl'|]. split.
  - destruct (Hin Hnd "machine_id" (PyStr (getfqdn h))) as (v' & Hclean & Hget);
      [now apply Dict_get_Some_In | discriminate |].
    rewrite clean_string_att_text in Hclean. now inversion Hclean; subst.
  - destruct (Hin Hnd "timestamp" (PyStr (get_time_stamp h))) as (v' & Hclean & Hget);
      [now apply Dict_get_Some_In | discriminate |].
    rewrite clean_string_att_text in Hclean. now inversion Hclean; subst.
Qed.

(** A caller's own ['machine_id'] gives way to the name of the host. *)
Lemma group_carries_machine_id_and_timestamp_witness :
  exists g ws,
    MicroDataGroup.__init__ (Host "node7.lab.example.org" "2017_11_02-10_15_30")
      "Measurement_" "/" (AttrsDict [("machine_id", PyInt 3)]) ChildrenNone
    = Ok (g, ws) /\
    Dict.get "machine_id" (attrs (node_of g)) = Some (PyStr "node7.lab.example.org") /\
    Dict.get "timestamp" (attrs (node_of g)) = Some (PyStr "2017_11_02-10_15_30").
Proof.
  destruct (group_carries_machine_id_and_timestamp
              (Host "node7.lab.example.org" "2017_11_02-10_15_30")
              "Measurement_" "/" (AttrsDict [("machine_id", PyInt 3)]) ChildrenNone)
    as (g & ws & Hinit & Hid & Hts & _).
  - discriminate.
  - exists g, ws. auto.
Defined.

(* ================================================================== *)
(** * More on the normaliser *)

Section NormaliserCases.

(** Induction over an attribute value and, in a list, over its items. *)
Lemma att_val_rect' (P : att_val -> Prop) :
  P PyNone ->
  (forall z, P (PyInt z)) ->
  (forall s, P (PyStr s)) ->
  (forall s, P (PyBytes s)) ->
  (forall s, P (NpStr s)) ->
  (forall b, P (NpBytes b)) ->
  (forall z, P (NpInt z)) ->
  (forall l, Forall P l -> P (PyList l)) ->
  (forall a, P (NpArrS a)) ->
  (forall a, P (NpArrI a)) ->
  (forall d, P (PyDict d)) ->
  forall v, P v.
Proof.
  intros H1 H2 H3 H4 H5 H6 H7 HL H8 H9 H10.
  fix IH 1.
  intros [ |z|s|s|s|b|z|l|a|a|d];
    [exact H1 | apply H2 | apply H3 | apply H4 | apply H5 | apply H6 | apply H7
    | | apply H8 | apply H9 | apply H10].
  apply HL. induction l as [|x l IHl]; constructor; [apply IH | exact IHl].
Qed.

Lemma encode_ascii_not_TypeError s : Str.encode_ascii s <> Raise TypeError.
Proof. unfold Str.encode_ascii. destruct (Str.is_ascii s); discriminate. Qed.

Lemma rmap_raises {A B} (f : A -> result B) (l : list A) e :
  rmap f l = Raise e -> exists x, In x l /\ f x = Raise e.
Proof.
  induction l as [|x l IH]; simpl; [discriminate|].
  destruct (f x) as [y|e'] eqn:Hx; simpl.
  - destruct (rmap f l) as [ys|e'']; simpl; [discriminate|].
    intros H; inversion H; subst. destruct (IH eq_refl) as (x' & Hin & Hx').
    exists x'. split; [now right | exact Hx'].
  - intros H; inversion H; subst. exists x. split; [now left | exact Hx].
Qed.

Lemma rmap_length {A B} (f : A -> result B) (l : list A) ys :
  rmap f l = Ok ys -> List.length ys = List.length l.
Proof.
  revert ys. induction l as [|x l IH]; simpl; intros ys H.
  - now inversion H.
  - destruct (f x) as [y|e]; simpl in H; [|discriminate].
    destruct (rmap f l) as [ys'|e]; simpl in H; [|discriminate].
    inversion H; subst. simpl. f_equal. now apply IH.
Qed.

Lemma rmap_Forall2 {A B} (f : A -> result B) (l : list A) ys :
  rmap f l = Ok ys -> Forall2 (fun x y => f x = Ok y) l ys.
Proof.
  revert ys. induction l as [|x l IH]; simpl; intros ys H.
  - inversion H. constructor.
  - destruct (f x) as [y|e] eqn:Hx; simpl in H; [|discriminate].
    destruct (rmap f l) as [ys'|e]; simpl in H; [|discriminate].
    inversion H; subst. constructor; [exact Hx | now apply IH].
Qed.

Lemma Forall2_nth_error_both {A B} (R : A -> B -> Prop) l l' :
  Forall2 R l l' ->
  forall i x y, nth_error l i = Some x -> nth_error l' i = Some y -> R x y.
Proof.
  induction 1 as [|a b l l' Hab _ IH]; intros [|i] x y Hx Hy; simpl in *;
    try discriminate.
  - inversion Hx; inversion Hy; subst. exact Hab.
  - eapply IH; eauto.
Qed.

(** An array without a dimension is an item. *)
Lemma shape_nil_item {A} (a : nd A) : NumPy.shape a = [] -> exists x, a = Item x.
Proof. destruct a as [x|l]; [eauto | discriminate]. Qed.

(** Pieces that agree in shape, one of them an item, are all items:
    the array made of them has one dimension. *)
Lemma homogeneous_with_item {A} (xs : list (nd A)) b :
  NumPy.homogeneous xs = true -> In (Item b) xs -> exists bs, xs = map Item bs.
Proof.
  destruct xs as [|x xs]; [intros _ []|]. simpl. intros Hhom Hin.
  assert (Hall : forall y, In y xs -> NumPy.shape y = NumPy.shape x).
  { intros y Hy. rewrite forallb_forall in Hhom. specialize (Hhom y Hy).
    unfold NumPy.shape_eqb in Hhom.
    now destruct (list_eq_dec Nat.eq_dec (NumPy.shape y) (NumPy.shape x)). }
  assert (Hx : NumPy.shape x = []).
  { destruct Hin as [->|Hin]; [reflexivity|]. now rewrite <- (Hall _ Hin). }
  assert (Hitems : forall l : list (nd A),
             (forall y, In y l -> NumPy.shape y = []) -> exists bs, l = map Item bs).
  { clear. induction l as [|y l IH]; intros H; [now exists []|].
    destruct (shape_nil_item y (H y (or_introl eq_refl))) as (b & ->).
    destruct IH as (bs & ->); [intros z Hz; apply H; now right|].
    now exists (b :: bs). }
  apply (Hitems (x :: xs)). intros y [<-|Hy]; [exact Hx|].
  now rewrite (Hall _ Hy).
Qed.

(** [np.array(v, dtype='S')] fails on text that is not ASCII and on
    ragged lists, never with a [TypeError]. *)
Lemma array_S_not_TypeError v : NumPy.array_S v <> Raise TypeError.
Proof.
  induction v as [ |z|s|s|s|b|z|l IHl|a|a|d] using att_val_rect'; simpl;
    try discriminate.
  - destruct (Str.encode_ascii s) eqn:E; simpl; [discriminate|].
    intros H; inversion H; subst. now apply (encode_ascii_not_TypeError s).
  - destruct (Str.encode_ascii s) eqn:E; simpl; [discriminate|].
    intros H; inversion H; subst. now apply (encode_ascii_not_TypeError s).
  - destruct (rmap NumPy.array_S l) as [xs|e] eqn:E; simpl.
    + destruct (NumPy.homogeneous xs); discriminate.
    + intros H; inversion H; subst.
      destruct (rmap_raises _ _ _ E) as (x & Hin & Hx).
      rewrite Forall_forall in IHl. exact (IHl x Hin Hx).
  - destruct (Str.encode_ascii (Repr.of_labels d)) eqn:E; simpl; [discriminate|].
    intros H; inversion H; subst. now apply (encode_ascii_not_TypeError _ E).
Qed.

Lemma ints_not_plain (l : list Z) :
  NumPy.any (map Py.type_in_str_unicode_bytes (map PyInt l)) = false.
Proof. unfold NumPy.any. induction l; simpl; auto. Qed.

Lemma int_array_elements_not_plain (l : list (nd Z)) :
  NumPy.any
    (map Py.type_in_str_unicode_bytes
       (map (fun a => match a with Item z => NpInt z | Axis _ => NpArrI a end) l))
  = false.
Proof.
  unfold NumPy.any. induction l as [|a l IH]; simpl; [reflexivity|].
  destruct a; simpl; exact IH.
Qed.

Lemma chars_plain (s : string) :
  NumPy.any (map Py.type_in_str_unicode_bytes (map PyStr (Str.chars s)))
  = negb (String.eqb s "").
Proof. destruct s; reflexivity. Qed.

Lemma keys_plain (d : labels_dict) :
  NumPy.any (map Py.type_in_str_unicode_bytes (map (fun kv => PyStr (fst kv)) d))
  = negb (Nat.eqb (List.length d) 0).
Proof. destruct d; reflexivity. Qed.

End NormaliserCases.

(** X1: [clean_string_att] raises [TypeError] on a 0-d array, which
    cannot be iterated over, and on nothing else: every other failure
    is the [UnicodeEncodeError] or [ValueError] of the conversion to
    bytes, which the [except TypeError] clause lets through. *)
Theorem clean_string_att_TypeError_iff_0d :
  forall v,
    clean_string_att v = Raise TypeError <->
    (exists b, v = NpArrS (Item b)) \/ (exists z, v = NpArrI (Item z)).
Proof.
  intros v. split.
  - unfold clean_string_att.
    destruct v as [ |z|s|s|s|b|z|l|a|a|d]; simpl; try discriminate.
    + rewrite ints_not_plain. discriminate.
    + rewrite chars_plain. destruct (negb (String.eqb s "")); [|discriminate].
      destruct (Str.encode_ascii s) eqn:E; simpl; [discriminate|].
      intros H; inversion H; subst. now destruct (encode_ascii_not_TypeError s).
    + rewrite ints_not_plain. discriminate.
    + destruct (NumPy.any _); [|discriminate].
      destruct (rmap NumPy.array_S l) as [xs|e] eqn:E; simpl.
      * destruct (NumPy.homogeneous xs); discriminate.
      * intros H; inversion H; subst.
        exfalso. apply (array_S_not_TypeError (PyList l)). simpl. now rewrite E.
    + destruct a as [b|l]; [eauto|].
      simpl. rewrite array_elements_not_plain. discriminate.
    + destruct a as [z|l]; [eauto|].
      simpl. rewrite int_array_elements_not_plain. discriminate.
    + rewrite keys_plain. destruct (negb _); [|discriminate].
      destruct (Str.encode_ascii (Repr.of_labels d)) eqn:E; simpl; [discriminate|].
      intros H; inversion H; subst. now destruct (encode_ascii_not_TypeError _ E).
  - intros [[b ->]|[z ->]]; reflexivity.
Qed.

(** X2: a second pass of [clean_string_att] returns what the first
    has returned, unless that is a 0-d array of bytes (which comes
    from a non-empty [np.str_] or dict and is refused by the second
    pass). *)
Theorem clean_string_att_idempotent_unless_0d :
  forall v v',
    clean_string_att v = Ok v' ->
    (forall b, v' <> NpArrS (Item b)) ->
    clean_string_att v' = Ok v'.
Proof.
  intros v v' Hfirst Hnot.
  destruct v as [ |z|s|s|s|b|z|l|a|a|d].
  - now inversion Hfirst.
  - now inversion Hfirst.
  - now inversion Hfirst.
  - unfold clean_string_att in Hfirst. simpl in Hfirst.
    rewrite ints_not_plain in Hfirst. inversion Hfirst; subst.
    unfold clean_string_att. simpl. now rewrite ints_not_plain.
  - unfold clean_string_att in Hfirst. simpl in Hfirst.
    rewrite chars_plain in Hfirst.
    destruct (negb (String.eqb s "")).
    + destruct (Str.encode_ascii s); simpl in Hfirst; [|discriminate].
      inversion Hfirst; subst. now destruct (Hnot a).
    + now inversion Hfirst.
  - unfold clean_string_att in Hfirst. simpl in Hfirst.
    rewrite ints_not_plain in Hfirst. inversion Hfirst; subst.
    unfold clean_string_att. simpl. now rewrite ints_not_plain.
  - now inversion Hfirst.
  - pose proof (clean_string_att_list_idempotent l) as Hl.
    rewrite Hfirst in Hl. simpl in Hl. congruence.
  - destruct a as [b|l]; [discriminate|].
    unfold clean_string_att in Hfirst. simpl in Hfirst.
    rewrite array_elements_not_plain in Hfirst. inversion Hfirst; subst.
    unfold clean_string_att. simpl. now rewrite array_elements_not_plain.
  - destruct a as [z|l]; [discriminate|].
    unfold clean_string_att in Hfirst. simpl in Hfirst.
    rewrite int_array_elements_not_plain in Hfirst. inversion Hfirst; subst.
    unfold clean_string_att. simpl. now rewrite int_array_elements_not_plain.
  - unfold clean_string_att in Hfirst. simpl in Hfirst.
    rewrite keys_plain in Hfirst.
    destruct d as [|kv d]; simpl in Hfirst.
    + now inversion Hfirst.
    + destruct (Str.encode_ascii _); simpl in Hfirst; [|discriminate].
      inversion Hfirst; subst. now destruct (Hnot a).
Qed.

Lemma clean_string_att_idempotent_unless_0d_witness :
  clean_string_att (NpArrS (Axis [Item "A"; Item "7"]))
  = Ok (NpArrS (Axis [Item "A"; Item "7"])).
Proof.
  apply (clean_string_att_idempotent_unless_0d (PyList [PyStr "A"; PyInt 7])).
  - reflexivity.
  - discriminate.
Defined.

(** X3: on a list or tuple [clean_string_att] goes by the exact types
    of the items.  With no item of type [str] or [bytes] the list comes
    back as it is.  With one, whatever comes back is an array of bytes
    of one dimension, with one entry for each item of the list: the
    entry at a place is what [np.array(_, dtype='S')] makes of the item
    at that place. *)
Theorem clean_string_att_on_lists :
  forall l,
    (NumPy.any (map Py.type_in_str_unicode_bytes l) = false ->
     clean_string_att (PyList l) = Ok (PyList l)) /\
    (NumPy.any (map Py.type_in_str_unicode_bytes l) = true ->
     forall v, clean_string_att (PyList l) = Ok v ->
               exists bs,
                 v = NpArrS (Axis (map Item bs)) /\
                 List.length bs = List.length l /\
                 forall i x b,
                   nth_error l i = Some x -> nth_error bs i = Some b ->
                   NumPy.array_S x = Ok (Item b)).
Proof.
  intros l. unfold clean_string_att. simpl. split; intros Hany; rewrite Hany.
  - reflexivity.
  - intros v Hv.
    destruct (rmap NumPy.array_S l) as [xs|e] eqn:E; simpl in Hv; [|discriminate].
    destruct (NumPy.homogeneous xs) eqn:Hhom; [|discriminate].
    inversion Hv; subst v. clear Hv.
    pose proof (rmap_Forall2 _ _ _ E) as Hall.
    (* the item of type [str] or [bytes] gives an array without a dimension *)
    assert (Hitem : exists b, In (Item b) xs).
    { unfold NumPy.any in Hany. apply existsb_exists in Hany as (t & Ht & ->).
      apply in_map_iff in Ht as (x & Hx & Hin).
      apply In_nth_error in Hin as (i & Hi).
      destruct (nth_error xs i) as [y|] eqn:Hy.
      - pose proof (Forall2_nth_error_both _ _ _ Hall i x y Hi Hy) as Hxy.
        destruct x; try discriminate; simpl in Hxy.
        + destruct (Str.encode_ascii s); simpl in Hxy; [|discriminate].
          inversion Hxy; subst. eexists. eapply nth_error_In; eauto.
        + inversion Hxy; subst. eexists. eapply nth_error_In; eauto.
      - apply nth_error_None in Hy.
        assert (Hlt : (i < List.length l)%nat)
          by (apply nth_error_Some; congruence).
        rewrite (rmap_length _ _ _ E) in Hy. lia. }
    destruct Hitem as (b0 & Hb0).
    destruct (homogeneous_with_item xs b0 Hhom Hb0) as (bs & ->).
    exists bs. split; [reflexivity|]. split.
    + rewrite <- (rmap_length _ _ _ E). now rewrite length_map.
    + intros i x b Hx Hb.
      apply (Forall2_nth_error_both _ _ _ Hall i x (Item b) Hx).
      rewrite nth_error_map, Hb. reflexivity.
Qed.

(** A list of numbers; a name and a number. *)
Lemma clean_string_att_on_lists_witness :
  clean_string_att (PyList [PyInt 1; PyInt 2]) = Ok (PyList [PyInt 1; PyInt 2]) /\
  exists bs, NpArrS (Axis [Item "a"; Item "2"]) = NpArrS (Axis (map Item bs)) /\
             List.length bs = 2%nat /\
             forall i x b,
               nth_error [PyStr "a"; PyInt 2] i = Some x -> nth_error bs i = Some b ->
               NumPy.array_S x = Ok (Item b).
Proof.
  split.
  - apply (proj1 (clean_string_att_on_lists [PyInt 1; PyInt 2])). reflexivity.
  - apply (proj2 (clean_string_att_on_lists [PyStr "a"; PyInt 2]) eq_refl).
    reflexivity.
Defined.

(* ================================================================== *)
(** * More on the descriptors *)

Section DescriptorFacts.

Lemma valid_shapes_sized ms none_ok :
  MicroDataset._valid_shapes (Some ms) none_ok = true -> sized none_ok ms.
Proof.
  unfold MicroDataset._valid_shapes, NumPy.all, sized.
  induction ms as [|item ms IH]; simpl; intros H; constructor.
  - apply andb_true_iff in H as [H _].
    destruct item as [z|]; [now apply Z.ltb_lt | exact H].
  - apply andb_true_iff in H as [_ H]. now apply IH.
Qed.

Lemma any_is_None_false (ms : shape_spec) :
  NumPy.any (map is_None ms) = false -> forall item, In item ms -> item <> None.
Proof.
  unfold NumPy.any. induction ms as [|x ms IH]; simpl; intros H item [].
  - subst. apply orb_false_iff in H as [H _]. now destruct item.
  - apply orb_false_iff in H as [_ H]. now apply IH.
Qed.

Lemma check_maxshape_Ok d ms :
  MicroDataset.check_maxshape (Some d) (Some ms) = Ok tt ->
  List.length ms = List.length (arr_shape d) /\
  forall i m s, nth_error ms i = Some (Some m) ->
                nth_error (arr_shape d) i = Some s -> s <= m.
Proof.
  unfold MicroDataset.check_maxshape.
  destruct (Nat.eqb (List.length (arr_shape d)) (List.length ms)) eqn:Hlen;
    simpl; [|discriminate].
  apply Nat.eqb_eq in Hlen.
  destruct (existsb _ (combine (arr_shape d) ms)) eqn:Hex; [discriminate|].
  intros _. split; [now symmetry|].
  intros i m s Hm Hs.
  pose proof (existsb_combine_false _ _ _ _ _ _ Hex Hs Hm) as Hf.
  simpl in Hf. now apply Z.ltb_ge in Hf.
Qed.

Lemma ends_with_app c s :
  Str.ends_with c s = true <-> exists s', s = s' ++ String c "".
Proof.
  induction s as [|a s IH]; simpl.
  - split; [discriminate|]. intros ([|b s'] & H); discriminate.
  - destruct s as [|b s].
    + split.
      * intros H. apply Ascii.eqb_eq in H. subst. now exists "".
      * intros (s' & H). destruct s' as [|x [|y s']]; simpl in H; inversion H.
        apply Ascii.eqb_refl.
    + rewrite IH. split.
      * intros (s' & H). exists (String a s'). simpl. now rewrite <- H.
      * intros (s' & H). destruct s' as [|x s']; simpl in H; inversion H.
        now exists s'.
Qed.

Lemma add_each_spec p l :
  MicroDataGroup.add_each p l
  = (map (reparent p) (descriptors l),
     repeat "Children must be of type MicroData. child ignored"
            (List.length l - List.length (descriptors l))).
Proof.
  induction l as [|o l IH]; [reflexivity|].
  assert (Hle : (List.length (descriptors l) <= List.length l)%nat).
  { clear. induction l as [|o l IH]; simpl; [lia|].
    destruct o; simpl; lia. }
  destruct o as [m|]; cbn [MicroDataGroup.add_each]; rewrite IH.
  - reflexivity.
  - change (descriptors (NotMicroData :: l)) with (descriptors l).
    change (List.length (NotMicroData :: l)) with (S (List.length l)).
    now rewrite (Nat.sub_succ_l _ _ Hle).
Qed.

End DescriptorFacts.

(** X4: a [MicroDataset] that has been constructed is consistent.  Its
    compression is one of the three; the sizes of [maxshape] and
    [chunking] are positive, and [chunking] has no [None]; without
    data, [maxshape] is there and has no [None]; with data and
    [maxshape], the two have the same number of dimensions and the data
    fit; [chunking] has the number of dimensions of the shape it is
    checked against and fits in it; the dtype is the one given, else
    the one of the data. *)
Theorem MicroDataset_init_invariants :
  forall nm dat dt comp chunk par resiz maxsh ats m,
    MicroDataset.__init__ nm dat dt comp chunk par resiz maxsh ats = Ok m ->
    exists n f,
      m = Dataset n f /\
      name n = nm /\
      parent n = match par with None => "/" | Some p => p end /\
      indexed n = false /\
      data f = dat /\ resizable f = resiz /\ compression f = comp /\
      dtype f = match dat, dt with
                | Some d, None => Some (arr_dtype d)
                | _, _ => dt
                end /\
      MicroDataset.valid_compression comp = true /\
      (forall ms, maxshape f = Some ms -> sized true ms) /\
      (forall ch, chunking f = Some ch -> sized false ch) /\
      (dat = None -> exists ms, maxshape f = Some ms /\ sized false ms) /\
      (forall ms d, maxshape f = Some ms -> dat = Some d ->
         List.length ms = List.length (arr_shape d) /\
         forall i mx s, nth_error ms i = Some (Some mx) ->
                        nth_error (arr_shape d) i = Some s -> s <= mx) /\
      (forall ch, chunking f = Some ch ->
         exists auth,
           authoritative_shape (maxshape f) dat = Some auth /\
           List.length ch = List.length auth /\
           forall i c b, nth_error ch i = Some (Some c) ->
                         nth_error auth i = Some (Some b) -> c <= b).
Proof.
  intros nm dat dt comp chunk par resiz maxsh ats m.
  unfold MicroDataset.__init__.
  destruct (MicroData.__init__ nm _ ats) as [self|e] eqn:Hself; simpl; [|discriminate].
  assert (Hn : name self = nm /\
               parent self = match par with None => "/" | Some p => p end /\
               indexed self = false).
  { destruct ats; inversion Hself; subst; auto. }
  set (ms := MicroDataset._make_iterable maxsh).
  set (ch := MicroDataset._make_iterable chunk).
  destruct (MicroDataset._valid_shapes ms true) eqn:Hvms; simpl; [|discriminate].
  destruct (MicroDataset._valid_shapes ch false) eqn:Hvch; simpl; [|discriminate].
  destruct (MicroDataset.valid_compression comp) eqn:Hcomp; simpl; [|discriminate].
  destruct (is_None dat && (is_None ms && true)) eqn:Hboth; [discriminate|].
  destruct (MicroDataset.check_maxshape dat ms) as [[]|e] eqn:Hcm; simpl; [|discriminate].
  destruct (MicroDataset.check_chunking dat ms ch) as [[]|e] eqn:Hcc; simpl;
    [|discriminate].
  intros H; inversion H; subst m; clear H.
  destruct Hn as (Hname & Hparent & Hidx).
  eexists. eexists. split; [reflexivity|]. simpl.
  repeat (split; [assumption || reflexivity|]).
  split; [|split; [|split; [|split]]].
  - intros ms' Hms. rewrite Hms in Hvms. now apply valid_shapes_sized.
  - intros ch' Hch. rewrite Hch in Hvch. now apply valid_shapes_sized.
  - intros ->. destruct ms as [ms'|] eqn:Hms; [|discriminate].
    exists ms'. split; [reflexivity|].
    apply valid_shapes_sized in Hvms.
    simpl in Hcm. destruct (NumPy.any (map is_None ms')) eqn:Hany; [discriminate|].
    pose proof (any_is_None_false _ Hany) as Hnone.
    unfold sized in *. rewrite Forall_forall in *. intros item Hin.
    specialize (Hvms item Hin). specialize (Hnone item Hin).
    destruct item; [exact Hvms | contradiction].
  - intros ms' d Hms ->. rewrite Hms in Hcm. now apply check_maxshape_Ok.
  - intros ch' Hch. rewrite Hch in Hcc.
    destruct (authoritative_shape ms dat) as [auth|] eqn:Hauth.
    + exists auth. split; [reflexivity|].
      exact (check_chunking_Ok _ _ _ _ Hcc Hauth).
    + unfold authoritative_shape in Hauth.
      destruct ms; [discriminate|]. destruct dat; discriminate.
Qed.

(** The second example of the docstring: space for 1024 by 16384
    numbers, in chunks of one row. *)
Lemma MicroDataset_init_invariants_witness :
  exists n f,
    MicroDataset.__init__ "Raw_Data" None (Some "float16") (Some "gzip")
      (ShapeSeq [Some 1; Some 16384]) None false
      (ShapeSeq [Some 1024; Some 16384]) AttrsNone = Ok (Dataset n f) /\
    maxshape f = Some [Some 1024; Some 16384] /\
    sized false [Some 1024; Some 16384].
Proof.
  destruct (MicroDataset_init_invariants "Raw_Data" None (Some "float16")
              (Some "gzip") (ShapeSeq [Some 1; Some 16384]) None false
              (ShapeSeq [Some 1024; Some 16384]) AttrsNone _ eq_refl)
    as (n & f & Hm & _ & _ & _ & _ & _ & _ & _ & _ & _ & _ & Hfull & _).
  destruct (Hfull eq_refl) as (ms & Hms & Hsized).
  inversion Hm; subst. simpl in Hms. inversion Hms; subst.
  eexists. eexists. split; [reflexivity|]. split; [reflexivity | exact Hsized].
Defined.

(** X5: [add_children] appends, in their order, the [MicroData]
    objects among the ones it is given, each with its [parent] set to
    the [parent] of the group followed by the group's [name] (no
    slash in between) and nothing else changed; the children the group
    has stay in front; each other object is dropped with a warning. *)
Theorem add_children_appends_in_order :
  forall n own children,
    MicroDataGroup.add_children n own children
    = ((own ++ map (reparent (parent n ++ name n))
                   (descriptors (objects_of children)))%list,
       repeat "Children must be of type MicroData. child ignored"
              (List.length (objects_of children)
               - List.length (descriptors (objects_of children)))).
Proof.
  intros n own children. unfold MicroDataGroup.add_children.
  fold (objects_of children). now rewrite add_each_spec.
Qed.

(** X6: what [MicroDataGroup.__init__] makes of its arguments: the
    [name] and [parent] are the ones given; the group is indexed
    exactly when the name ends with an underscore; the children are
    the [MicroData] objects given, in their order, with the [parent]
    of each set to the group's [parent] followed by its [name]. *)
Theorem MicroDataGroup_init_fields :
  forall h nm par ats children g ws,
    MicroDataGroup.__init__ h nm par ats children = Ok (g, ws) ->
    exists n cs,
      g = Group n cs /\
      name n = nm /\ parent n = par /\
      (indexed n = true <-> exists s, nm = s ++ "_") /\
      cs = match children with
           | ChildrenNone => []
           | _ => map (reparent (par ++ nm)) (descriptors (objects_of children))
           end.
Proof.
  intros h nm par ats children g ws. unfold MicroDataGroup.__init__.
  destruct (MicroData.__init__ nm par ats) as [self|e] eqn:Hself; simpl; [|discriminate].
  assert (Hn : name self = nm /\ parent self = par).
  { destruct ats; inversion Hself; subst; auto. }
  destruct Hn as [Hname Hparent].
  match goal with
  | |- context [Group ?x []] => set (self' := x)
  end.
  assert (Hname' : name self' = nm) by (unfold self'; now destruct (String.eqb nm "")).
  assert (Hparent' : parent self' = par)
    by (unfold self'; now destruct (String.eqb nm "")).
  assert (Hidx : indexed self' = true <-> exists s, nm = s ++ "_").
  { unfold self'. destruct (String.eqb nm "") eqn:Hnm; simpl.
    - apply String.eqb_eq in Hnm. split; [discriminate|].
      intros (s & H). rewrite Hnm in H. destruct s; simpl in H; discriminate.
    - apply ends_with_app. }
  assert (Hadd : forall l,
            MicroDataGroup.add_each (parent self' ++ name self') l
            = (map (reparent (par ++ nm)) (descriptors l),
               repeat "Children must be of type MicroData. child ignored"
                      (List.length l - List.length (descriptors l)))).
  { intros l. rewrite add_each_spec. now rewrite Hname', Hparent'. }
  destruct children as [|o|l].
  - intros H; inversion H; subst. exists self', []. auto.
  - unfold MicroDataGroup.add_children. rewrite Hadd.
    intros H; inversion H; subst. exists self'. eexists. auto.
  - unfold MicroDataGroup.add_children. rewrite Hadd.
    intros H; inversion H; subst. exists self'. eexists. auto.
Qed.

(** A group [Run_] under the root with one dataset and one stray
    object for children. *)
Lemma MicroDataGroup_init_fields_witness :
  exists n cs,
    name n = "Run_" /\ indexed n = true /\
    cs = [Dataset (Node "Raw_Data" "/Run_" [] false)
            (DatasetFields None None None None false None)].
Proof.
  destruct (MicroDataGroup_init_fields (Host "h" "t") "Run_" "/" AttrsNone
              (ChildrenSeq [NotMicroData;
                            Obj (Dataset (Node "Raw_Data" "anywhere" [] false)
                                   (DatasetFields None None None None false None))])
              _ _ eq_refl) as (n & cs & _ & Hname & _ & Hidx & Hcs).
  exists n, cs. split; [exact Hname|]. split; [|exact Hcs].
  apply Hidx. now exists "Run".
Defined.

(* ================================================================== *)
(** * More on the dataset materialiser *)

Section BuildFailure.

(** [create_dataset] of the file changes nothing when it fails. *)
Lemma H5_create_dataset_raises g a w e w1 :
  H5.create_dataset g a w = (Raise e, w1) -> w1 = w.
Proof.
  unfold H5.create_dataset, H5.opened.
  destruct (closed (file w)); [now intros H; inversion H|].
  destruct (H5.lookup _ _); [now intros H; inversion H|].
  unfold bind, lift. destruct (H5.new_dataset a); [|now intros H; inversion H].
  destruct (negb (valid_link (a_name a)) || refuses (file w) (CreateDataset a)).
  - now intros H; inversion H.
  - unfold H5.put_file, ret. discriminate.
Qed.

(** [__create_dset] closes the file when the building function fails
    without having changed anything. *)
Lemma create_dset_raises g n f build w e w' :
  (forall w e w1, build g n f w = (Raise e, w1) -> w1 = w) ->
  HDFwriter.__create_dset g n f build w = (Raise e, w') ->
  w' = World (H5File (objects (file w)) true (refuses (file w))) (warnings w).
Proof.
  intros Hbuild. unfold HDFwriter.__create_dset, try_except.
  destruct (build g n f w) as [[h|e1] w1] eqn:E; [discriminate|].
  rewrite (Hbuild _ _ _ E).
  unfold bind, H5.flush, H5.close, ret, raise. now intros H; inversion H.
Qed.

End BuildFailure.

(** X7: a dataset that is not resizable and has no [maxshape] (or an
    empty one) is made from its data: it holds the data, has their
    shape for its shape and for its fixed maximal shape, and has the
    dtype of the data, whatever [dtype] the descriptor names. *)
Theorem simple_dataset_holds_payload :
  forall w h5_group n f dat,
    closed (file w) = false ->
    h_is_group h5_group = true ->
    resizable f = false ->
    HDFwriter.truthy (maxshape f) = false ->
    data f = Some dat ->
    H5.lookup (h_path h5_group ++ [name n])%list (objects (file w)) = None ->
    valid_link (name n) = true ->
    refuses (file w)
      (CreateDataset (DatasetArgs (name n) None (Some (arr_dtype dat)) (Some dat)
                        (compression f) (chunking f) None)) = false ->
    let d := H5Dataset (arr_shape dat) (arr_dtype dat) (Written dat)
                       (map Some (arr_shape dat)) (chunking f) (compression f) in
    exists h w1,
      HDFwriter.build_dataset h5_group n f w = (Ok h, w1) /\
      H5.lookup (h_path h) (objects (file w1)) = Some (H5Object (IsDataset d) []) /\
      forall h' w',
        HDFwriter._create_dataset h5_group (Dataset n f) w = (Ok h', w') ->
        h' = h /\
        exists a, H5.lookup (h_path h') (objects (file w'))
                  = Some (H5Object (IsDataset d) a).
Proof.
  intros w g n f dat Hopen Hgrp Hres Hms Hdat Hfresh Hlink Hacc d.
  set (a := DatasetArgs (name n) None (Some (arr_dtype dat)) (Some dat)
              (compression f) (chunking f) None) in *.
  assert (Hnew : H5.new_dataset a = Ok d) by reflexivity.
  destruct (H5_create_dataset_new w g a d Hopen Hfresh Hnew Hlink Hacc)
    as (w1 & Hrun & Hl).
  assert (Hbuild : HDFwriter.build_dataset g n f w
                   = (Ok (Handle (h_path g ++ [name n])%list false), w1)).
  { unfold HDFwriter.build_dataset. rewrite Hres, Hms. simpl.
    unfold HDFwriter.__create_dset. apply try_except_Ok.
    unfold HDFwriter._create_simple_dset. rewrite Hdat. exact Hrun. }
  exists (Handle (h_path g ++ [name n])%list false), w1.
  split; [exact Hbuild|]. split; [exact Hl|].
  eapply create_dataset_after_build; eauto.
Qed.

(** An array of integers whose descriptor asks for [float32]. *)
Lemma simple_dataset_holds_payload_witness :
  exists h w1,
    HDFwriter.build_dataset HDFwriter.root_handle
      (Node "Excitation_Waveform" "/" [] false)
      (DatasetFields (Some (NdArray [3] "int64" [0; 1; 2])) (Some "float32")
                     None None false None) fresh_world
    = (Ok h, w1) /\
    H5.lookup (h_path h) (objects (file w1))
    = Some (H5Object (IsDataset (H5Dataset [3] "int64"
                                   (Written (NdArray [3] "int64" [0; 1; 2]))
                                   [Some 3] None None)) []).
Proof.
  destruct (simple_dataset_holds_payload fresh_world HDFwriter.root_handle
              (Node "Excitation_Waveform" "/" [] false)
              (DatasetFields (Some (NdArray [3] "int64" [0; 1; 2])) (Some "float32")
                             None None false None)
              (NdArray [3] "int64" [0; 1; 2]))
    as (h & w1 & Hbuild & Hl & _); try reflexivity.
  exists h, w1. split; [exact Hbuild | exact Hl].
Defined.

(** X8: when the building of a dataset fails, for whatever reason,
    the file is closed before the exception goes on; no object has been
    added and no warning issued. *)
Theorem build_failure_closes_file :
  forall h5_group n f w e w',
    HDFwriter.build_dataset h5_group n f w = (Raise e, w') ->
    closed (file w') = true /\
    objects (file w') = objects (file w) /\
    refuses (file w') = refuses (file w) /\
    warnings w' = warnings w.
Proof.
  intros g n f w e w' Hrun.
  assert (Hw : w' = World (H5File (objects (file w)) true (refuses (file w)))
                          (warnings w)).
  { unfold HDFwriter.build_dataset in Hrun.
    destruct (negb (resizable f)); [destruct (negb (HDFwriter.truthy (maxshape f)))|];
      (eapply create_dset_raises; [|exact Hrun]); clear; intros w e w1.
    - unfold HDFwriter._create_simple_dset. destruct (data f).
      + apply H5_create_dataset_raises.
      + now intros H; inversion H.
    - unfold HDFwriter._create_empty_dset. apply H5_create_dataset_raises.
    - unfold HDFwriter._create_resizeable_dset. destruct (data f).
      + apply H5_create_dataset_raises.
      + now intros H; inversion H. }
  subst w'. simpl. auto.
Qed.

(** A file that takes no dataset. *)
Lemma build_failure_closes_file_witness :
  exists w',
    HDFwriter.build_dataset HDFwriter.root_handle
      (Node "Raw_Data" "/" [] false)
      (DatasetFields (Some (NdArray [2] "int64" [7; 8])) None None None false None)
      (World (H5File [([], H5Object IsGroup [])] false
                (fun r => match r with CreateDataset _ => true | _ => false end)) [])
    = (Raise OSError, w') /\
    closed (file w') = true /\
    objects (file w') = [([], H5Object IsGroup [])].
Proof.
  eexists. split; [reflexivity|].
  destruct (build_failure_closes_file HDFwriter.root_handle
              (Node "Raw_Data" "/" [] false)
              (DatasetFields (Some (NdArray [2] "int64" [7; 8])) None None None
                             false None)
              (World (H5File [([], H5Object IsGroup [])] false
                        (fun r => match r with CreateDataset _ => true | _ => false end))
                     [])
              OSError _ eq_refl) as (Hc & Ho & _).
  split; [exact Hc | exact Ho].
Defined.

(** X9: a descriptor without data can only be written as a
    preallocated dataset.  When it is resizable, or its [maxshape] is
    an empty tuple, [_create_dataset] raises [AttributeError] on a
    fresh name, and the file is closed.  The constructors let such
    descriptors through: [ExpandableMicroDataset] without data, and
    [EmptyMicroDataset] with an empty tuple. *)
Theorem dataset_without_data_cannot_be_built :
  forall w h5_group n f,
    closed (file w) = false ->
    h_is_group h5_group = true ->
    H5.lookup (h_path h5_group ++ [name n])%list (objects (file w)) = None ->
    data f = None ->
    resizable f = true \/ HDFwriter.truthy (maxshape f) = false ->
    HDFwriter._create_dataset h5_group (Dataset n f) w
    = (Raise AttributeError,
       World (H5File (objects (file w)) true (refuses (file w))) (warnings w)).
Proof.
  intros w g n f Hopen Hgrp Hfresh Hdat Hcase.
  unfold HDFwriter._create_dataset. rewrite Hgrp. simpl.
  unfold bind at 1. unfold H5.keys, H5.opened. rewrite Hopen. unfold ret at 1.
  rewrite (key_absent _ _ _ Hfresh). unfold bind at 1.
  assert (Hbuild : HDFwriter.build_dataset g n f w
                   = (Raise AttributeError,
                      World (H5File (objects (file w)) true (refuses (file w)))
                            (warnings w))).
  { unfold HDFwriter.build_dataset, HDFwriter.__create_dset, try_except,
      HDFwriter._create_simple_dset, HDFwriter._create_resizeable_dset.
    rewrite Hdat.
    destruct Hcase as [Hres|Hms]; [rewrite Hres | rewrite Hms]; simpl.
    - reflexivity.
    - destruct (resizable f); reflexivity. }
  now rewrite Hbuild.
Qed.

(** An expandable dataset of two columns made without data. *)
Lemma dataset_without_data_cannot_be_built_witness :
  exists n f w',
    ExpandableMicroDataset.__init__ "Raw_Data" None (Some "float32") None
      ShapeNone None (ShapeSeq [Some 4; Some 2]) AttrsNone = Ok (Dataset n f) /\
    HDFwriter._create_dataset HDFwriter.root_handle (Dataset n f) fresh_world
    = (Raise AttributeError, w') /\
    closed (file w') = true.
Proof.
  eexists. eexists. eexists. split; [reflexivity|]. split.
  - apply (dataset_without_data_cannot_be_built fresh_world HDFwriter.root_handle);
      try reflexivity.
    left. reflexivity.
  - reflexivity.
Defined.

(* ================================================================== *)
(** * More on the creation of groups *)

Section GroupCreation.

(** The loop over the attributes of a group leaves alone every key
    that has no value but [None]. *)
Lemma write_group_attrs_skips_None h k l :
  (forall v, In (k, v) l -> v = PyNone) ->
  forall w w',
    HDFwriter.write_group_attrs h l w = (Ok tt, w') ->
    stored_attr w' (h_path h) k = stored_attr w (h_path h) k.
Proof.
  induction l as [|[k0 v0] l IH]; intros Hnone w w' Hrun.
  - now inversion Hrun.
  - unfold HDFwriter.write_group_attrs in Hrun. cbn [for_each] in Hrun.
    unfold bind at 1 in Hrun. cbn [fst snd] in Hrun.
    assert (Hstep : exists w1,
               HDFwriter.write_group_attrs h l w1 = (Ok tt, w') /\
               stored_attr w1 (h_path h) k = stored_attr w (h_path h) k).
    { destruct (Py.is_None v0) eqn:Hv0.
      - unfold ret at 1 in Hrun. exists w. split; [exact Hrun | reflexivity].
      - unfold bind at 1, lift at 1 in Hrun.
        destruct (clean_string_att v0) as [v'|e]; [|discriminate].
        destruct (H5.set_attr h k0 (Val v') w) as [[[]|e] w1] eqn:Hset;
          [|discriminate].
        exists w1. split; [exact Hrun|].
        assert (Hk : k <> k0).
        { intros ->. rewrite (Hnone v0 (or_introl eq_refl)) in Hv0. discriminate. }
        unfold stored_attr.
        destruct (H5.lookup (h_path h) (objects (file w))) as [o|] eqn:Hl.
        + rewrite (set_attr_stored _ _ _ _ _ _ Hset Hl). simpl.
          now apply Dict_get_set_other.
        + unfold H5.set_attr, H5.opened in Hset.
          destruct (closed (file w)); [discriminate|].
          rewrite Hl in Hset. discriminate. }
    destruct Hstep as (w1 & Hrest & Hsame).
    rewrite <- Hsame. apply IH; [|exact Hrest].
    intros v Hin. apply Hnone. now right.
Qed.

(** The [try] statement of [_create_group] hands back an object whose
    attributes are the ones that were there, none for a new group. *)
Lemma create_or_reuse_attrs w g nm h w1 k :
  HDFwriter.create_or_reuse g nm w = (Ok h, w1) ->
  stored_attr w1 (h_path h) k = stored_attr w (h_path h) k.
Proof.
  intros Hrun. pose proof (create_or_reuse_path _ _ _ _ _ Hrun) as Hpath.
  revert Hrun.
  unfold HDFwriter.create_or_reuse, try_except, H5.create_group, H5.opened.
  destruct (closed (file w)) eqn:Hopen.
  - unfold H5.getitem_in, H5.opened. rewrite Hopen. discriminate.
  - destruct (H5.lookup (h_path g ++ [nm])%list (objects (file w))) as [o|] eqn:Hl.
    + unfold raise, H5.getitem_in, H5.opened. rewrite Hopen, Hl.
      unfold ret. now intros H; inversion H.
    + destruct (negb (valid_link nm) || refuses (file w) (CreateGroup nm)).
      * unfold raise, H5.getitem_in, H5.opened. rewrite Hopen, Hl. discriminate.
      * unfold bind, H5.put_file, ret. intros H; inversion H; subst.
        unfold stored_attr. cbn [file objects h_path H5.with_objects].
        rewrite Hl.
        match goal with
        | |- match ?x with _ => _ end = _ =>
            replace x with (Some (H5Object IsGroup []))
              by (symmetry; now apply lookup_app_new)
        end.
        reflexivity.
Qed.

End GroupCreation.

(** X10: when the file refuses to make a group, h5py raises
    [ValueError], as it does for a name that is taken, and
    [_create_group] takes it for that: it looks the group up, which is
    not there, and raises [KeyError].  The file is not closed, and
    nothing has been added. *)
Theorem group_creation_refusal_raises_KeyError :
  forall w h5_group n children nm,
    closed (file w) = false ->
    h_is_group h5_group = true ->
    HDFwriter.final_name n
      (Str.sort (H5.child_names (h_path h5_group) (objects (file w)))) = Ok nm ->
    H5.lookup (h_path h5_group ++ [nm])%list (objects (file w)) = None ->
    refuses (file w) (CreateGroup nm) = true ->
    HDFwriter._create_group h5_group (Group n children) w = (Raise KeyError, w).
Proof.
  intros w g n children nm Hopen Hgrp Hname Hfresh Hrefuse.
  rewrite (create_group_unfold w g n children Hgrp Hopen), Hname.
  unfold bind at 1.
  unfold HDFwriter.create_or_reuse, try_except, H5.create_group, H5.opened.
  rewrite Hopen, Hfresh, Hrefuse, orb_true_r.
  unfold raise, H5.getitem_in, H5.opened. now rewrite Hopen, Hfresh.
Qed.

Lemma group_creation_refusal_raises_KeyError_witness :
  HDFwriter._create_group HDFwriter.root_handle
    (Group (Node "Measurement" "/" [] false) [])
    (World (H5File [([], H5Object IsGroup [])] false
              (fun r => match r with CreateGroup _ => true | _ => false end)) [])
  = (Raise KeyError,
     World (H5File [([], H5Object IsGroup [])] false
              (fun r => match r with CreateGroup _ => true | _ => false end)) []).
Proof.
  apply (group_creation_refusal_raises_KeyError
           (World (H5File [([], H5Object IsGroup [])] false
                     (fun r => match r with CreateGroup _ => true | _ => false end)) [])
           HDFwriter.root_handle (Node "Measurement" "/" [] false) [] "Measurement");
    reflexivity.
Defined.

(** X12: an attribute of a group whose value is [None] is not
    written: after [_create_group] the object has, under that key,
    what it had before; a new group has nothing there. *)
Theorem group_attribute_None_is_skipped :
  forall w h5_group n children k h g' w',
    (forall v, In (k, v) (attrs n) -> v = PyNone) ->
    HDFwriter._create_group h5_group (Group n children) w = (Ok (h, g'), w') ->
    stored_attr w' (h_path h) k = stored_attr w (h_path h) k.
Proof.
  intros w g n children k h g' w' Hnone Hrun.
  destruct (create_group_steps _ _ _ _ _ _ _ Hrun) as (nm & w1 & Hcr & Hattrs & _).
  rewrite (write_group_attrs_skips_None _ _ _ Hnone _ _ Hattrs).
  eapply create_or_reuse_attrs; eauto.
Qed.

(** A new group with a comment and with an operator left at [None]. *)
Lemma group_attribute_None_is_skipped_witness :
  exists h g' w',
    HDFwriter._create_group HDFwriter.root_handle
      (Group (Node "Measurement" "/"
                [("operator", PyNone); ("comment", PyStr "first run")] false) [])
      fresh_world = (Ok (h, g'), w') /\
    stored_attr w' (h_path h) "operator" = None /\
    stored_attr w' (h_path h) "comment" = Some (Val (PyStr "first run")).
Proof.
  destruct (HDFwriter._create_group HDFwriter.root_handle
              (Group (Node "Measurement" "/"
                        [("operator", PyNone); ("comment", PyStr "first run")] false) [])
              fresh_world) as [[[h g']|e] w'] eqn:Hrun.
  - assert (Hnone : forall v,
              In ("operator", v)
                 (attrs (Node "Measurement" "/"
                           [("operator", PyNone); ("comment", PyStr "first run")]
                           false)) -> v = PyNone).
    { intros v [H|[H|[]]]; inversion H; reflexivity. }
    pose proof (group_attribute_None_is_skipped _ _ _ _ "operator" _ _ _
                  Hnone Hrun) as Hop.
    exists h, g', w'. split; [reflexivity|].
    vm_compute in Hrun. inversion Hrun; subst. split; [exact Hop | reflexivity].
  - vm_compute in Hrun. discriminate.
Defined.


(* ================================================================== *)
(** * More on the writing of attributes *)

Section PlainAttributes.

Lemma for_each_app {A} (body : A -> M unit) (l1 l2 : list A) w :
  for_each body (l1 ++ l2) w
  = bind (for_each body l1) (fun _ => for_each body l2) w.
Proof.
  revert w. induction l1 as [|x l1 IH]; intros w; simpl.
  - unfold bind, ret. reflexivity.
  - unfold bind in *. destruct (body x w) as [[[]|e] w1]; [|reflexivity].
    apply IH.
Qed.

Lemma for_each_ext {A} (body body' : A -> M unit) (l : list A) w :
  (forall x w, In x l -> body x w = body' x w) ->
  for_each body l w = for_each body' l w.
Proof.
  revert w. induction l as [|x l IH]; intros w Hext; simpl; [reflexivity|].
  unfold bind. rewrite (Hext x w (or_introl eq_refl)).
  destruct (body' x w) as [[[]|e] w1]; [|reflexivity].
  apply IH. intros y w' Hy. apply Hext. now right.
Qed.

(** The loop that stores every attribute, normalised, under its key:
    what it has stored when it has gone through. *)
Lemma plain_attrs_stored h l :
  forall w w' o,
    for_each (fun kv : string * att_val =>
                bind (lift (clean_string_att (snd kv)))
                     (fun v => H5.set_attr h (fst kv) (Val v))) l w = (Ok tt, w') ->
    H5.lookup (h_path h) (objects (file w)) = Some o ->
    exists o',
      H5.lookup (h_path h) (objects (file w')) = Some o' /\
      kind o' = kind o /\
      (forall k, ~ In k (Dict.keys l) ->
                 Dict.get k (h5attrs o') = Dict.get k (h5attrs o)) /\
      (NoDup (Dict.keys l) ->
       forall k v, In (k, v) l ->
                   exists v', clean_string_att v = Ok v' /\
                              Dict.get k (h5attrs o') = Some (Val v')).
Proof.
  induction l as [|[k0 v0] l IH]; intros w w' o Hrun Hl.
  - inversion Hrun; subst. exists o. repeat split; auto. intros _ k v [].
  - cbn [for_each] in Hrun. unfold bind at 1 in Hrun. cbn [fst snd] in Hrun.
    unfold bind at 1, lift at 1 in Hrun.
    destruct (clean_string_att v0) as [v0'|e] eqn:Hclean; [|discriminate].
    destruct (H5.set_attr h k0 (Val v0') w) as [[[]|e] w1] eqn:Hset; [|discriminate].
    pose proof (set_attr_stored _ _ _ _ _ _ Hset Hl) as Hl1.
    destruct (IH w1 w' _ Hrun Hl1) as (o' & Hl' & Hkind & Hnotin & Hin).
    exists o'. split; [exact Hl'|]. split; [exact Hkind|]. split.
    + intros k Hk. simpl in Hk. rewrite Hnotin by tauto. simpl.
      apply Dict_get_set_other. intros ->. apply Hk. now left.
    + intros Hnd k v [Heq|Hkv].
      * inversion Heq; subst. inversion Hnd as [|? ? Hk0 Hnd']; subst.
        exists v0'. split; [exact Hclean|]. rewrite Hnotin by exact Hk0.
        apply Dict_get_set_same.
      * inversion Hnd as [|? ? Hk0 Hnd']; subst. now apply Hin.
Qed.

(** It skips nothing: each value goes to the file, which has no type
    for [None]. *)
Lemma plain_attrs_no_None h l :
  forall w w',
    for_each (fun kv : string * att_val =>
                bind (lift (clean_string_att (snd kv)))
                     (fun v => H5.set_attr h (fst kv) (Val v))) l w = (Ok tt, w') ->
    forall k v, In (k, v) l -> v <> PyNone.
Proof.
  induction l as [|[k0 v0] l IH]; intros w w' Hrun k v Hin; [contradiction|].
  cbn [for_each] in Hrun. unfold bind at 1 in Hrun. cbn [fst snd] in Hrun.
  unfold bind at 1, lift at 1 in Hrun.
  destruct (clean_string_att v0) as [v0'|e] eqn:Hclean; [|discriminate].
  destruct (H5.set_attr h k0 (Val v0') w) as [[[]|e] w1] eqn:Hset; [|discriminate].
  destruct Hin as [Heq|Hin]; [|eapply IH; eauto].
  inversion Heq; subst. intros ->.
  pose proof (set_attr_storable _ _ _ _ _ Hset) as Hstor.
  inversion Hclean; subst. discriminate.
Qed.

(** And that it goes through when the file takes every attribute. *)
Lemma plain_attrs_ok h l :
  forall w o,
    closed (file w) = false ->
    H5.lookup (h_path h) (objects (file w)) = Some o ->
    Forall (attr_taken (file w)) l ->
    exists w',
      for_each (fun kv : string * att_val =>
                  bind (lift (clean_string_att (snd kv)))
                       (fun v => H5.set_attr h (fst kv) (Val v))) l w = (Ok tt, w') /\
      steady w w' /\ warnings w' = warnings w.
Proof.
  induction l as [|[k v] l IH]; intros w o Hopen Hl Hok.
  - exists w. split; [reflexivity|]. split; [apply steady_refl | reflexivity].
  - inversion Hok as [|? ? (v' & Hclean & Hstor & Hacc) Hrest]; subst. simpl in *.
    destruct (set_attr_ok w h k (Val v') o Hopen Hl Hstor Hacc)
      as (w1 & Hrun & Hw1 & Hl1 & _).
    pose proof (keeps_set_attr _ _ _ _ _ _ Hrun) as Hst.
    destruct Hst as (Hc & Hr & Hk).
    destruct (IH w1 _ ltac:(congruence) Hl1) as (w' & Hrest' & Hst' & Hw').
    { eapply Forall_impl; [|exact Hrest]. intros kv (x & H1 & H2 & H3).
      exists x. split; [exact H1|]. split; [exact H2|]. now rewrite Hr. }
    exists w'. split.
    + cbn [for_each fst snd]. unfold bind at 1. unfold bind at 1, lift at 1.
      rewrite Hclean, Hrun.
      exact Hrest'.
    + split; [|congruence].
      eapply steady_trans; [|exact Hst']. repeat split; assumption.
Qed.

End PlainAttributes.

(** X14: a region whose tuple has not one slice for each dimension of
    the dataset stops [__write_region_references] with a warning and a
    [ValueError].  The regions before it, in the order of the dict,
    have their references stored; the ones after it are not looked at;
    the file stays open. *)
Theorem region_reference_mismatch_aborts :
  forall w h d a pre nm sel post,
    closed (file w) = false ->
    H5.lookup (h_path h) (objects (file w)) = Some (H5Object (IsDataset d) a) ->
    NoDup (Dict.keys (pre ++ (nm, sel) :: post)%list) ->
    (forall nm' sel', In (nm', sel') pre ->
       List.length sel' = List.length (ds_shape d) /\
       refuses (file w) (SetAttr nm' (RegionReference sel')) = false) ->
    List.length sel <> List.length (ds_shape d) ->
    exists w' msg,
      HDFwriter.__write_region_references h (pre ++ (nm, sel) :: post)%list w
      = (Raise ValueError, w') /\
      warnings w' = (warnings w ++ [msg])%list /\
      closed (file w') = false /\
      H5.lookup (h_path h) (objects (file w'))
      = Some (H5Object (IsDataset d) (set_all (region_attrs pre) a)).
Proof.
  intros w h d a pre nm sel post Hopen Hl Hnd Hpre Hlen.
  set (slices := (pre ++ (nm, sel) :: post)%list) in *.
  destruct (region_loop_ok h d slices pre w a Hopen Hl) as
    (w1 & Hrun & Hc1 & Hr1 & Hw1 & Hl1 & _).
  { intros nm' sel' Hin. destruct (Hpre nm' sel' Hin) as [H1 H2].
    split; [|now split]. apply Dict_get_In; [exact Hnd|].
    unfold slices. apply in_or_app. now left. }
  assert (Hget : Dict.get nm slices = Some sel).
  { apply Dict_get_In; [exact Hnd|]. unfold slices. apply in_or_app. right. now left. }
  eexists. eexists. split; [|split; [|split]].
  - unfold HDFwriter.__write_region_references.
    unfold slices at 2. unfold Dict.keys. rewrite map_app. fold (Dict.keys pre).
    rewrite for_each_app. unfold bind at 1. rewrite Hrun.
    simpl. unfold bind at 1. rewrite Hget.
    unfold bind at 1. unfold H5.shape at 1, H5.opened. rewrite Hc1, Hl1.
    unfold ret at 1.
    apply Nat.eqb_neq in Hlen. rewrite Hlen.
    unfold bind at 1, warn at 1, raise. reflexivity.
  - simpl. now rewrite Hw1.
  - exact Hc1.
  - exact Hl1.
Qed.

(** A table of two dimensions and a second region of one slice. *)
Lemma region_reference_mismatch_aborts_witness :
  exists w' msg,
    HDFwriter.__write_region_references table_handle
      [("A", [Slice (Some 0) (Some 1) None; Slice None None None]);
       ("B", [Slice (Some 1) (Some 2) None])] table_world
    = (Raise ValueError, w') /\
    warnings w' = [msg] /\
    stored_attr w' (h_path table_handle) "A"
    = Some (RegionReference [Slice (Some 0) (Some 1) None; Slice None None None]) /\
    stored_attr w' (h_path table_handle) "B" = None.
Proof.
  destruct (region_reference_mismatch_aborts table_world table_handle _ []
              [("A", [Slice (Some 0) (Some 1) None; Slice None None None])]
              "B" [Slice (Some 1) (Some 2) None] [] eq_refl eq_refl)
    as (w' & msg & Hrun & Hw & _ & Hl).
  - repeat constructor; simpl; intuition discriminate.
  - intros nm' sel' [H|[]]. inversion H; subst. split; reflexivity.
  - discriminate.
  - exists w', msg. split; [exact Hrun|]. split; [exact Hw|].
    unfold stored_attr. rewrite Hl. split; reflexivity.
Defined.

(** X15: [__write_attributes] skips no attribute of a dataset.  When
    it returns, every attribute other than ['labels'] is stored under
    its key as [clean_string_att] returns it, and none of them was
    [None]: unlike [_create_group], it hands a [None] to the file, which
    has no type for it, so a descriptor with such an attribute makes it
    raise. *)
Theorem dataset_attributes_stored_normalised :
  forall n h w r w',
    ~ In "labels" (Dict.keys (attrs n)) ->
    HDFwriter.__write_attributes n h w = (r, w') ->
    ((exists k, In (k, PyNone) (attrs n)) -> exists e, r = Raise e) /\
    (r = Ok tt ->
     NoDup (Dict.keys (attrs n)) ->
     forall o,
       H5.lookup (h_path h) (objects (file w)) = Some o ->
       exists o',
         H5.lookup (h_path h) (objects (file w')) = Some o' /\
         kind o' = kind o /\
         (forall k v, In (k, v) (attrs n) ->
                      exists v', clean_string_att v = Ok v' /\
                                 Dict.get k (h5attrs o') = Some (Val v')) /\
         (forall k, ~ In k (Dict.keys (attrs n)) ->
                    Dict.get k (h5attrs o') = Dict.get k (h5attrs o))).
Proof.
  intros n h w r w' Hnolabels Hrun.
  unfold HDFwriter.__write_attributes in Hrun.
  rewrite (for_each_ext _
             (fun kv : string * att_val =>
                bind (lift (clean_string_att (snd kv)))
                     (fun v => H5.set_attr h (fst kv) (Val v)))) in Hrun.
  2:{ intros [k v] w0 Hin. simpl.
      destruct (String.eqb k "labels") eqn:E; [|reflexivity].
      apply String.eqb_eq in E. subst k. exfalso. apply Hnolabels.
      change "labels" with (fst ("labels", v)). now apply in_map. }
  split.
  - intros (k & Hk). destruct r as [[]|e]; [|eauto].
    exfalso. exact (plain_attrs_no_None h (attrs n) w w' Hrun k PyNone Hk eq_refl).
  - intros -> Hnd o Hl.
    destruct (plain_attrs_stored h (attrs n) w w' o Hrun Hl)
      as (o' & Hl' & Hkind & Hnotin & Hin).
    exists o'. split; [exact Hl'|]. split; [exact Hkind|].
    split; [now apply Hin | exact Hnotin].
Qed.

(** The dataset of the table with a unit and a list of names; and with
    a note that is [None]. *)
Lemma dataset_attributes_stored_normalised_witness :
  (exists w' o',
     HDFwriter.__write_attributes
       (Node "Spectroscopic_Indices" "/"
          [("units", PyStr "V"); ("names", PyList [PyStr "Bias"])] false)
       table_handle table_world = (Ok tt, w') /\
     H5.lookup (h_path table_handle) (objects (file w')) = Some o' /\
     Dict.get "units" (h5attrs o') = Some (Val (PyStr "V")) /\
     Dict.get "names" (h5attrs o') = Some (Val (NpArrS (Axis [Item "Bias"])))) /\
  (exists w',
     HDFwriter.__write_attributes
       (Node "Spectroscopic_Indices" "/"
          [("units", PyStr "V"); ("note", PyNone)] false)
       table_handle table_world = (Raise TypeError, w')).
Proof.
  split.
  - destruct (HDFwriter.__write_attributes
                (Node "Spectroscopic_Indices" "/"
                   [("units", PyStr "V"); ("names", PyList [PyStr "Bias"])] false)
                table_handle table_world) as [r w'] eqn:Hrun.
    assert (Hr : r = Ok tt) by (vm_compute in Hrun; now inversion Hrun).
    destruct (fun H => proj2 (dataset_attributes_stored_normalised _ _ _ _ _ H Hrun))
      with (o := H5Object (IsDataset (H5Dataset [2; 3] "int64"
                             (Written (NdArray [2; 3] "int64" [0; 1; 2; 0; 1; 2]))
                             [Some 2; Some 3] None None)) [])
      as (o' & Hl' & _ & Hin & _).
    + simpl. intuition discriminate.
    + exact Hr.
    + repeat constructor; simpl; intuition discriminate.
    + reflexivity.
    + subst r. exists w', o'. split; [reflexivity|]. split; [exact Hl'|]. split.
      * destruct (Hin "units" (PyStr "V")) as (v' & Hc & Hg); [simpl; auto|].
        inversion Hc; subst. exact Hg.
      * destruct (Hin "names" (PyList [PyStr "Bias"])) as (v' & Hc & Hg);
          [simpl; auto|]. inversion Hc; subst. exact Hg.
  - destruct (HDFwriter.__write_attributes
                (Node "Spectroscopic_Indices" "/"
                   [("units", PyStr "V"); ("note", PyNone)] false)
                table_handle table_world) as [r w'] eqn:Hrun.
    destruct (fun H => proj1 (dataset_attributes_stored_normalised _ _ _ _ _ H Hrun))
      as (e & ->).
    + simpl. intuition discriminate.
    + exists "note". simpl. auto.
    + assert (He : e = TypeError) by (vm_compute in Hrun; now inversion Hrun).
      subst e. exists w'. reflexivity.
Defined.

(* ================================================================== *)
(** * What the writer leaves in the file *)

Section Growth.

Lemma grown_refl w : grown w w.
Proof. intros p o H. eauto. Qed.

Lemma grown_trans w1 w2 w3 : grown w1 w2 -> grown w2 w3 -> grown w1 w3.
Proof.
  intros H12 H23 p o H. destruct (H12 p o H) as (o2 & H2 & K2).
  destruct (H23 p o2 H2) as (o3 & H3 & K3). exists o3. split; congruence.
Qed.

Lemma steady_grown w w' : steady w w' -> grown w w'.
Proof.
  intros (_ & _ & Hk) p o H. specialize (Hk p). rewrite H in Hk. simpl in Hk.
  destruct (H5.lookup p (objects (file w'))) as [o'|]; [|discriminate].
  exists o'. split; [reflexivity|]. simpl in Hk. congruence.
Qed.

Lemma keeps_grows {A} (m : M A) : keeps m -> grows m.
Proof. intros H w r w' Hrun. apply steady_grown. eapply H; eauto. Qed.

Lemma grows_bind {A B} (m : M A) (k : A -> M B) :
  grows m -> (forall a, grows (k a)) -> grows (bind m k).
Proof.
  intros Hm Hk w r w' H. unfold bind in H.
  destruct (m w) as [[a|e] w1] eqn:E.
  - eapply grown_trans; [eapply Hm; eauto | eapply Hk; eauto].
  - inversion H; subst. eapply Hm; eauto.
Qed.

Lemma grows_try_except {A} (m : M A) (h : exn -> M A) :
  grows m -> (forall e, grows (h e)) -> grows (try_except m h).
Proof.
  intros Hm Hh w r w' H. unfold try_except in H.
  destruct (m w) as [[a|e] w1] eqn:E.
  - inversion H; subst. eapply Hm; eauto.
  - eapply grown_trans; [eapply Hm; eauto | eapply Hh; eauto].
Qed.

Lemma keeps_getitem p : keeps (H5.getitem p).
Proof.
  apply keeps_opened. intros f. destruct (String.eqb p ""); [apply keeps_raise|].
  destruct (H5.lookup (split_path p) (objects f)); [apply keeps_ret | apply keeps_raise].
Qed.

Lemma grows_close : grows H5.close.
Proof. intros w r w' H. inversion H; subst. intros p o Hp. simpl. eauto. Qed.

Lemma grows_give_up {A} (e : exn) :
  grows (bind H5.flush (fun _ => bind H5.close (fun _ => @raise A e))).
Proof.
  apply grows_bind; [apply keeps_grows, keeps_ret|]. intros _.
  apply grows_bind; [apply grows_close|]. intros _.
  apply keeps_grows, keeps_raise.
Qed.

Lemma grown_append w p o :
  H5.lookup p (objects (file w)) = None ->
  grown w (World (H5.with_objects (file w) (objects (file w) ++ [(p, o)])%list)
                 (warnings w)).
Proof.
  intros Hnew q o' Hq. exists o'. split; [|reflexivity]. simpl.
  rewrite lookup_app_old; [exact Hq|]. intros ->. congruence.
Qed.

Lemma grows_H5_create_group g nm : grows (H5.create_group g nm).
Proof.
  intros w r w' H. unfold H5.create_group, H5.opened in H.
  destruct (closed (file w)); [inversion H; apply grown_refl|].
  destruct (H5.lookup (h_path g ++ [nm])%list (objects (file w))) eqn:Hl;
    [inversion H; apply grown_refl|].
  destruct (negb (valid_link nm) || refuses (file w) (CreateGroup nm));
    [inversion H; apply grown_refl|].
  unfold bind, H5.put_file, ret in H. inversion H; subst.
  now apply grown_append.
Qed.

Lemma grows_H5_create_dataset g a : grows (H5.create_dataset g a).
Proof.
  intros w r w' H. unfold H5.create_dataset, H5.opened in H.
  destruct (closed (file w)); [inversion H; apply grown_refl|].
  destruct (H5.lookup (h_path g ++ [a_name a])%list (objects (file w))) eqn:Hl;
    [inversion H; apply grown_refl|].
  unfold bind at 1, lift at 1 in H.
  destruct (H5.new_dataset a) as [d|e]; [|inversion H; apply grown_refl].
  destruct (negb (valid_link (a_name a)) || refuses (file w) (CreateDataset a));
    [inversion H; apply grown_refl|].
  unfold bind, H5.put_file, ret in H. inversion H; subst.
  now apply grown_append.
Qed.

Lemma grows_create_or_reuse g nm : grows (HDFwriter.create_or_reuse g nm).
Proof.
  apply grows_try_except; [apply grows_H5_create_group|].
  intros e. destruct e; try apply grows_give_up.
  apply keeps_grows, keeps_getitem_in.
Qed.

Lemma grows_create_group g m : grows (HDFwriter._create_group g m).
Proof.
  destruct m as [n|n children|n f]; try (apply keeps_grows, keeps_raise).
  unfold HDFwriter._create_group.
  destruct (negb (h_is_group g)); [apply keeps_grows, keeps_raise|].
  apply grows_bind.
  - apply keeps_grows. destruct (indexed n); [|apply keeps_ret].
    apply keeps_bind; [apply keeps_keys | intros; apply keeps_lift].
  - intros nm. apply grows_bind; [apply grows_create_or_reuse|].
    intros h. apply grows_bind; [apply keeps_grows, keeps_write_group_attrs|].
    intros _. apply keeps_grows, keeps_ret.
Qed.

Lemma grows_create_dset g n f build_func :
  (forall g n f, grows (build_func g n f)) ->
  grows (HDFwriter.__create_dset g n f build_func).
Proof.
  intros Hb. apply grows_try_except; [apply Hb|]. intros e. apply grows_give_up.
Qed.

Lemma grows_build_dataset g n f : grows (HDFwriter.build_dataset g n f).
Proof.
  unfold HDFwriter.build_dataset.
  destruct (negb (resizable f)); [destruct (negb (HDFwriter.truthy (maxshape f)))|];
    apply grows_create_dset; clear; intros g n f.
  - unfold HDFwriter._create_simple_dset.
    destruct (data f); [apply grows_H5_create_dataset | apply keeps_grows, keeps_raise].
  - apply grows_H5_create_dataset.
  - unfold HDFwriter._create_resizeable_dset.
    destruct (data f); [apply grows_H5_create_dataset | apply keeps_grows, keeps_raise].
Qed.

Lemma grows_create_dataset g m : grows (HDFwriter._create_dataset g m).
Proof.
  destruct m as [n|n children|n f]; try (apply keeps_grows, keeps_raise).
  unfold HDFwriter._create_dataset.
  destruct (negb (h_is_group g)); [apply keeps_grows, keeps_raise|].
  apply grows_bind; [apply keeps_grows, keeps_keys|]. intros keys.
  destruct (existsb (String.eqb (name n)) keys); [apply keeps_grows, keeps_raise|].
  apply grows_bind; [apply grows_build_dataset|]. intros h.
  apply grows_bind; [apply keeps_grows, keeps_write_attributes|].
  intros _. apply keeps_grows, keeps_ret.
Qed.

Lemma refers_grown w w' h : refers w h -> grown w w' -> refers w' h.
Proof.
  intros (o & Hl & Hh) Hg. destruct (Hg _ _ Hl) as (o' & Hl' & Hk).
  exists o'. split; [exact Hl'|]. rewrite Hh at 1. unfold H5.handle_of.
  simpl. now rewrite Hk.
Qed.

Lemma H5_create_dataset_refers g a w h w1 :
  H5.create_dataset g a w = (Ok h, w1) ->
  exists d, H5.lookup (h_path h) (objects (file w1)) = Some (H5Object (IsDataset d) [])
            /\ h_is_group h = false.
Proof.
  unfold H5.create_dataset, H5.opened. intros H.
  destruct (closed (file w)); [discriminate|].
  destruct (H5.lookup (h_path g ++ [a_name a])%list (objects (file w))) eqn:Hl;
    [discriminate|].
  unfold bind at 1, lift at 1 in H.
  destruct (H5.new_dataset a) as [d|e]; [|discriminate].
  destruct (negb (valid_link (a_name a)) || refuses (file w) (CreateDataset a));
    [discriminate|].
  unfold bind, H5.put_file, ret in H. inversion H; subst. simpl.
  exists d. split; [now apply lookup_app_new | reflexivity].
Qed.

Lemma build_dataset_made g n f w h w1 :
  HDFwriter.build_dataset g n f w = (Ok h, w1) ->
  exists d, H5.lookup (h_path h) (objects (file w1)) = Some (H5Object (IsDataset d) [])
            /\ h_is_group h = false.
Proof.
  unfold HDFwriter.build_dataset, HDFwriter.__create_dset, try_except.
  intros H.
  destruct (negb (resizable f)); [destruct (negb (HDFwriter.truthy (maxshape f)))|].
  - unfold HDFwriter._create_simple_dset in H. destruct (data f) as [d|].
    + destruct (H5.create_dataset g _ w) as [[h'|e] w'] eqn:E; [|discriminate].
      inversion H; subst. eapply H5_create_dataset_refers; eauto.
    + discriminate.
  - unfold HDFwriter._create_empty_dset in H.
    destruct (H5.create_dataset g _ w) as [[h'|e] w'] eqn:E; [|discriminate].
    inversion H; subst. eapply H5_create_dataset_refers; eauto.
  - unfold HDFwriter._create_resizeable_dset in H. destruct (data f) as [d|].
    + destruct (H5.create_dataset g _ w) as [[h'|e] w'] eqn:E; [|discriminate].
      inversion H; subst. eapply H5_create_dataset_refers; eauto.
    + discriminate.
Qed.

(** The steps of a call of [_create_dataset] that gets as far as the
    attributes. *)
Lemma create_dataset_steps g n f w r w' :
  HDFwriter._create_dataset g (Dataset n f) w = (r, w') ->
  (exists h w1,
      HDFwriter.build_dataset g n f w = (Ok h, w1) /\
      match r with
      | Ok h' => h' = h /\ HDFwriter.__write_attributes n h w1 = (Ok tt, w')
      | Raise e => HDFwriter.__write_attributes n h w1 = (Raise e, w')
      end) \/
  (exists e, r = Raise e /\
     (w' = w \/ HDFwriter.build_dataset g n f w = (Raise e, w'))).
Proof.
  unfold HDFwriter._create_dataset. intros H.
  destruct (negb (h_is_group g)); [inversion H; subst; right; eauto|].
  unfold bind at 1 in H. unfold H5.keys, H5.opened in H.
  destruct (closed (file w)); [inversion H; subst; right; eauto|].
  unfold ret at 1 in H.
  destruct (existsb _ _); [inversion H; subst; right; eauto|].
  unfold bind at 1 in H.
  destruct (HDFwriter.build_dataset g n f w) as [[h|e] w1] eqn:Hb.
  - left. exists h, w1. split; [reflexivity|]. unfold bind, ret in H.
    destruct (HDFwriter.__write_attributes n h w1) as [[[]|e] w2];
      inversion H; subst; auto.
  - inversion H; subst. right. eauto.
Qed.

Lemma create_dataset_refers g m w h w' :
  HDFwriter._create_dataset g m w = (Ok h, w') -> refers w' h.
Proof.
  destruct m as [n|n children|n f]; try discriminate. intros H.
  destruct (create_dataset_steps _ _ _ _ _ _ H)
    as [(h1 & w1 & Hb & Heq & Hattrs)|(e & He & _)]; [subst h1|discriminate].
  destruct (build_dataset_made _ _ _ _ _ _ Hb) as (d & Hl & Hflag).
  apply (refers_grown w1).
  - eexists. split; [exact Hl|]. destruct h as [p b]. simpl in *. now subst.
  - apply steady_grown. eapply keeps_write_attributes; eauto.
Qed.

Lemma create_or_reuse_refers w g nm h w1 :
  HDFwriter.create_or_reuse g nm w = (Ok h, w1) -> refers w1 h.
Proof.
  unfold HDFwriter.create_or_reuse, try_except, H5.create_group, H5.opened.
  destruct (closed (file w)) eqn:Hopen.
  - unfold H5.getitem_in, H5.opened. rewrite Hopen. discriminate.
  - destruct (H5.lookup (h_path g ++ [nm])%list (objects (file w))) as [o|] eqn:Hl.
    + unfold raise, H5.getitem_in, H5.opened. rewrite Hopen, Hl.
      unfold ret. intros H; inversion H; subst. exists o. simpl. auto.
    + destruct (negb (valid_link nm) || refuses (file w) (CreateGroup nm)).
      * unfold raise, H5.getitem_in, H5.opened. rewrite Hopen, Hl. discriminate.
      * unfold bind, H5.put_file, ret. intros H; inversion H; subst.
        exists (H5Object IsGroup []). simpl.
        split; [now apply lookup_app_new | reflexivity].
Qed.

Lemma create_group_refers g m w h m' w' :
  HDFwriter._create_group g m w = (Ok (h, m'), w') -> refers w' h.
Proof.
  destruct m as [n|n children|n f]; try discriminate. intros H.
  destruct (create_group_steps _ _ _ _ _ _ _ H) as (nm & w1 & Hcr & Hattrs & _).
  apply (refers_grown w1); [eapply create_or_reuse_refers; eauto|].
  apply steady_grown. eapply keeps_write_group_attrs; eauto.
Qed.

Lemma Forall_refers_grown w w' hs :
  Forall (refers w) hs -> grown w w' -> Forall (refers w') hs.
Proof.
  intros H Hg. eapply Forall_impl; [|exact H]. intros h Hh.
  eapply refers_grown; eauto.
Qed.

(** The loop over the children, given what holds of each child. *)
Lemma populate_all_refers_from cs :
  Forall (fun c => forall parent rl w r w',
            HDFwriter.__populate c parent rl w = (r, w') ->
            grown w w' /\
            forall c' rl', r = Ok (c', rl') ->
              exists hs, rl' = (rl ++ hs)%list /\ Forall (refers w') hs) cs ->
  forall root rl w r w',
    HDFwriter.populate_all cs root rl w = (r, w') ->
    grown w w' /\
    forall cs' rl', r = Ok (cs', rl') ->
      exists hs, rl' = (rl ++ hs)%list /\ Forall (refers w') hs.
Proof.
  induction cs as [|c cs IH]; intros HF root rl w r w' Hrun.
  - inversion Hrun; subst. split; [apply grown_refl|].
    intros cs' rl' H; inversion H; subst. exists []. now rewrite app_nil_r.
  - inversion HF as [|? ? Hc Hcs]; subst.
    cbn [HDFwriter.populate_all] in Hrun. unfold bind at 1 in Hrun.
    destruct (HDFwriter.__populate c root rl w) as [[[c1 rl1]|e] w1] eqn:Hp.
    + destruct (Hc _ _ _ _ _ Hp) as (Hg1 & Hh1).
      destruct (Hh1 _ _ eq_refl) as (hs1 & -> & Hr1).
      unfold bind at 1 in Hrun. simpl in Hrun.
      destruct (HDFwriter.populate_all cs root (rl ++ hs1)%list w1)
        as [[[cs1 rl2]|e] w2] eqn:Hpa.
      * destruct (IH Hcs _ _ _ _ _ Hpa) as (Hg2 & Hh2).
        destruct (Hh2 _ _ eq_refl) as (hs2 & -> & Hr2).
        unfold ret in Hrun. simpl in Hrun. inversion Hrun; subst.
        split; [eapply grown_trans; eauto|].
        intros cs' rl' H; inversion H; subst.
        exists (hs1 ++ hs2)%list. split; [now rewrite app_assoc|].
        apply Forall_app. split; [|exact Hr2].
        eapply Forall_refers_grown; eauto.
      * destruct (IH Hcs _ _ _ _ _ Hpa) as (Hg2 & _).
        inversion Hrun; subst.
        split; [eapply grown_trans; eauto | discriminate].
    + destruct (Hc _ _ _ _ _ Hp) as (Hg1 & _). inversion Hrun; subst.
      split; [exact Hg1 | discriminate].
Qed.

Lemma populate_refers :
  forall child parent rl w r w',
    HDFwriter.__populate child parent rl w = (r, w') ->
    grown w w' /\
    forall c' rl', r = Ok (c', rl') ->
      exists hs, rl' = (rl ++ hs)%list /\ Forall (refers w') hs.
Proof.
  induction child as [n|n children IHc|n f] using MicroData_rect';
    intros parent rl w r w' Hrun.
  - simpl in Hrun. unfold bind in Hrun.
    destruct (H5.getitem parent w) as [[hp|e] w0] eqn:Hget.
    + unfold HDFwriter._create_dataset, raise in Hrun. inversion Hrun; subst.
      split; [|discriminate]. apply steady_grown.
      eapply keeps_getitem; eauto.
    + inversion Hrun; subst. split; [|discriminate]. apply steady_grown.
      eapply keeps_getitem; eauto.
  - rewrite populate_group in Hrun. unfold bind at 1 in Hrun.
    destruct (H5.getitem parent w) as [[hp|e] w0] eqn:Hget.
    2:{ inversion Hrun; subst. split; [|discriminate]. apply steady_grown.
        eapply keeps_getitem; eauto. }
    pose proof (steady_grown _ _ (keeps_getitem _ _ _ _ Hget)) as Hg0.
    unfold bind at 1 in Hrun.
    destruct (HDFwriter._create_group hp _ w0) as [[[h g']|e] w1] eqn:Hcg.
    2:{ inversion Hrun; subst. split; [|discriminate].
        eapply grown_trans; [exact Hg0|]. eapply grows_create_group; eauto. }
    pose proof (grows_create_group _ _ _ _ _ Hcg) as Hg1.
    pose proof (create_group_refers _ _ _ _ _ _ Hcg) as Hh.
    simpl in Hrun. unfold bind at 1 in Hrun.
    destruct (HDFwriter.populate_all children _ rl w1) as [[[cs' rl1]|e] w2] eqn:Hpa.
    + destruct (populate_all_refers_from children IHc _ _ _ _ _ Hpa) as (Hg2 & Hh2).
      destruct (Hh2 _ _ eq_refl) as (hs & -> & Hr).
      unfold ret in Hrun. simpl in Hrun. inversion Hrun; subst.
      split; [eapply grown_trans; [exact Hg0 | eapply grown_trans; eauto]|].
      intros c' rl' H; inversion H; subst.
      exists (hs ++ [h])%list. split; [now rewrite app_assoc|].
      apply Forall_app. split; [exact Hr|]. constructor; [|constructor].
      eapply refers_grown; eauto.
    + destruct (populate_all_refers_from children IHc _ _ _ _ _ Hpa) as (Hg2 & _).
      inversion Hrun; subst. split; [|discriminate].
      eapply grown_trans; [exact Hg0 | eapply grown_trans; eauto].
  - cbn [HDFwriter.__populate] in Hrun. unfold bind at 1 in Hrun.
    destruct (H5.getitem parent w) as [[hp|e] w0] eqn:Hget.
    2:{ inversion Hrun; subst. split; [|discriminate]. apply steady_grown.
        eapply keeps_getitem; eauto. }
    pose proof (steady_grown _ _ (keeps_getitem _ _ _ _ Hget)) as Hg0.
    unfold bind in Hrun.
    destruct (HDFwriter._create_dataset hp (Dataset (set_parent parent n) f) w0)
      as [[h|e] w1] eqn:Hcd.
    + unfold ret in Hrun. inversion Hrun; subst.
      split; [eapply grown_trans; [exact Hg0 | eapply grows_create_dataset; eauto]|].
      intros c' rl' H; inversion H; subst. exists [h]. split; [reflexivity|].
      constructor; [|constructor]. eapply create_dataset_refers; eauto.
    + inversion Hrun; subst. split; [|discriminate].
      eapply grown_trans; [exact Hg0 | eapply grows_create_dataset; eauto].
Qed.

Lemma populate_all_refers cs root rl w r w' :
  HDFwriter.populate_all cs root rl w = (r, w') ->
  grown w w' /\
  forall cs' rl', r = Ok (cs', rl') ->
    exists hs, rl' = (rl ++ hs)%list /\ Forall (refers w') hs.
Proof.
  apply populate_all_refers_from. apply Forall_forall.
  intros c _. apply populate_refers.
Qed.

End Growth.

Section WriteCases.

Lemma build_dataset_raises_closed g n f w e w' :
  HDFwriter.build_dataset g n f w = (Raise e, w') -> closed (file w') = true.
Proof.
  intros Hrun.
  assert (Hw : w' = World (H5File (objects (file w)) true (refuses (file w)))
                          (warnings w)).
  { unfold HDFwriter.build_dataset in Hrun.
    destruct (negb (resizable f)); [destruct (negb (HDFwriter.truthy (maxshape f)))|];
      (eapply create_dset_raises; [|exact Hrun]); clear; intros w e w1.
    - unfold HDFwriter._create_simple_dset. destruct (data f).
      + apply H5_create_dataset_raises.
      + now intros H; inversion H.
    - unfold HDFwriter._create_empty_dset. apply H5_create_dataset_raises.
    - unfold HDFwriter._create_resizeable_dset. destruct (data f).
      + apply H5_create_dataset_raises.
      + now intros H; inversion H. }
  now subst w'.
Qed.

(** The first statement of [write] on an open file that takes the
    stamp. *)
Lemma write_stamp version w o :
  closed (file w) = false ->
  H5.lookup [] (objects (file w)) = Some o ->
  refuses (file w) (SetAttr "Pycroscopy version" (Val (PyStr version))) = false ->
  exists w1,
    H5.set_attr HDFwriter.root_handle "Pycroscopy version" (Val (PyStr version)) w
    = (Ok tt, w1) /\
    steady w w1 /\ warnings w1 = warnings w /\
    H5.lookup [] (objects (file w1))
    = Some (H5Object (kind o)
              (Dict.set "Pycroscopy version" (Val (PyStr version)) (h5attrs o))) /\
    (forall q, q <> [] ->
               H5.lookup q (objects (file w1)) = H5.lookup q (objects (file w))).
Proof.
  intros Hopen Hroot Hacc.
  destruct (set_attr_ok w HDFwriter.root_handle "Pycroscopy version"
              (Val (PyStr version)) o Hopen Hroot eq_refl Hacc)
    as (w1 & Hrun & Hw & Hl & Hother).
  exists w1. split; [exact Hrun|]. split; [eapply keeps_set_attr; eauto|].
  split; [exact Hw|]. split; [exact Hl | exact Hother].
Qed.

Lemma getitem_missing p w :
  closed (file w) = false ->
  p <> "" ->
  H5.lookup (split_path p) (objects (file w)) = None ->
  H5.getitem p w = (Raise KeyError, w).
Proof.
  intros Hopen Hp Hl. unfold H5.getitem, H5.opened. rewrite Hopen.
  apply String.eqb_neq in Hp. rewrite Hp, Hl. reflexivity.
Qed.

End WriteCases.

(** X16: [write] of a descriptor whose parent is not in the file
    raises, [ValueError] for a dataset and [KeyError] for a group.
    Nothing is made; the version stamp is on the root of the file all
    the same. *)
Theorem write_missing_parent :
  forall version m w o,
    closed (file w) = false ->
    H5.lookup [] (objects (file w)) = Some o ->
    refuses (file w) (SetAttr "Pycroscopy version" (Val (PyStr version))) = false ->
    parent (node_of m) <> "" ->
    H5.lookup (split_path (parent (node_of m))) (objects (file w)) = None ->
    exists w',
      HDFwriter.write version (Obj m) w
      = (Raise (match m with Dataset _ _ => ValueError | _ => KeyError end), w') /\
      steady w w' /\
      stored_attr w' [] "Pycroscopy version" = Some (Val (PyStr version)).
Proof.
  intros version m w o Hopen Hroot Hacc Hp Hmiss.
  destruct (write_stamp version w o Hopen Hroot Hacc)
    as (w1 & Hstamp & Hst & _ & Hl1 & Hother).
  assert (Hopen1 : closed (file w1) = false) by (destruct Hst as (-> & _); exact Hopen).
  assert (Hmiss1 : H5.lookup (split_path (parent (node_of m))) (objects (file w1)) = None).
  { rewrite Hother; [exact Hmiss|]. intros E. rewrite E in Hmiss. congruence. }
  pose proof (getitem_missing _ _ Hopen1 Hp Hmiss1) as Hget.
  assert (Hnotroot : String.eqb (parent (node_of m)) "/" = false).
  { destruct (String.eqb (parent (node_of m)) "/") eqn:E; [|reflexivity].
    apply String.eqb_eq in E. rewrite E in Hmiss.
    assert (Hs : split_path "/" = []) by reflexivity.
    rewrite Hs in Hmiss. congruence. }
  exists w1. split; [|split; [exact Hst|]].
  - unfold HDFwriter.write. unfold bind at 1. rewrite Hstamp.
    destruct m as [n|n children|n f]; simpl in *.
    + rewrite Hnotroot, Bool.andb_false_r. unfold bind at 1. unfold bind at 1.
      now rewrite Hget.
    + rewrite Hnotroot, Bool.andb_false_r. unfold bind at 1. unfold bind at 1.
      now rewrite Hget.
    + unfold bind at 1. unfold try_except. now rewrite Hget.
  - unfold stored_attr. rewrite Hl1. simpl. apply Dict_get_set_same.
Qed.

(** A dataset and a group for [/Measurement_000], which the file does
    not have. *)
Lemma write_missing_parent_witness :
  (exists w',
     HDFwriter.write "0.59.8"
       (Obj (Dataset (Node "Raw_Data" "/Measurement_000" [] false)
               (DatasetFields (Some (NdArray [2] "int64" [7; 8])) None None None
                              false None))) fresh_world
     = (Raise ValueError, w') /\ steady fresh_world w') /\
  (exists w',
     HDFwriter.write "0.59.8"
       (Obj (Group (Node "Channel_000" "/Measurement_000" [] false) [])) fresh_world
     = (Raise KeyError, w') /\ steady fresh_world w').
Proof.
  split.
  - destruct (write_missing_parent "0.59.8"
                (Dataset (Node "Raw_Data" "/Measurement_000" [] false)
                   (DatasetFields (Some (NdArray [2] "int64" [7; 8])) None None None
                                  false None))
                fresh_world _ eq_refl eq_refl eq_refl)
      as (w' & Hrun & Hst & _); [discriminate | reflexivity |].
    exists w'. split; [exact Hrun | exact Hst].
  - destruct (write_missing_parent "0.59.8"
                (Group (Node "Channel_000" "/Measurement_000" [] false) [])
                fresh_world _ eq_refl eq_refl eq_refl)
      as (w' & Hrun & Hst & _); [discriminate | reflexivity |].
    exists w'. split; [exact Hrun | exact Hst].
Defined.

(** X17: for a descriptor with the name [''] and the parent ['/'],
    [write] makes no group.  After the version stamp it stores every
    attribute of the descriptor on the root of the file, as
    [clean_string_att] returns it, when the file takes each of them;
    then it goes through the children with ['/'] for their parent and
    an empty list of handles. *)
Theorem write_file_descriptor :
  forall version n children w o,
    closed (file w) = false ->
    H5.lookup [] (objects (file w)) = Some o ->
    refuses (file w) (SetAttr "Pycroscopy version" (Val (PyStr version))) = false ->
    name n = "" ->
    parent n = "/" ->
    NoDup (Dict.keys (attrs n)) ->
    Forall (attr_taken (file w)) (attrs n) ->
    exists w1,
      steady w w1 /\
      warnings w1 = warnings w /\
      (forall k v, In (k, v) (attrs n) ->
                   exists v', clean_string_att v = Ok v' /\
                              stored_attr w1 [] k = Some (Val v')) /\
      (~ In "Pycroscopy version" (Dict.keys (attrs n)) ->
       stored_attr w1 [] "Pycroscopy version" = Some (Val (PyStr version))) /\
      forall r w',
        HDFwriter.populate_all children "/" [] w1 = (r, w') ->
        HDFwriter.write version (Obj (Group n children)) w
        = (rbind r (fun r => Ok (snd r, Group n (fst r))), w').
Proof.
  intros version n children w o Hopen Hroot Hacc Hname Hparent Hnd Hok.
  destruct (write_stamp version w o Hopen Hroot Hacc)
    as (w0 & Hstamp & Hst0 & Hw0 & Hl0 & _).
  assert (Hopen0 : closed (file w0) = false)
    by (destruct Hst0 as (-> & _); exact Hopen).
  assert (Hok0 : Forall (attr_taken (file w0)) (attrs n)).
  { destruct Hst0 as (_ & Hr & _). eapply Forall_impl; [|exact Hok].
    intros kv (v & H1 & H2 & H3). exists v. split; [exact H1|].
    split; [exact H2|]. now rewrite Hr. }
  destruct (plain_attrs_ok HDFwriter.root_handle (attrs n) w0 _ Hopen0 Hl0 Hok0)
    as (w1 & Hloop & Hst1 & Hw1).
  destruct (plain_attrs_stored HDFwriter.root_handle (attrs n) w0 w1 _ Hloop Hl0)
    as (o1 & Hl1 & _ & Hnotin & Hin).
  exists w1. split; [eapply steady_trans; eauto|]. split; [congruence|].
  split; [|split].
  - intros k v Hkv. destruct (Hin Hnd k v Hkv) as (v' & Hc & Hg).
    exists v'. split; [exact Hc|]. unfold stored_attr. simpl in Hl1.
    now rewrite Hl1.
  - intros Hno. unfold stored_attr. simpl in Hl1. rewrite Hl1.
    rewrite (Hnotin _ Hno). simpl. apply Dict_get_set_same.
  - intros r w' Hpop. unfold HDFwriter.write. unfold bind at 1. rewrite Hstamp.
    cbn [node_of]. rewrite Hname, Hparent. simpl andb. cbv iota.
    unfold bind at 1. unfold bind at 1. rewrite Hloop.
    unfold ret at 1. cbn [fst snd].
    change (path_name []) with "/".
    unfold bind. rewrite Hpop. destruct r as [[cs' rl']|e]; reflexivity.
Qed.

(** The descriptor of a file with two attributes and no child. *)
Lemma write_file_descriptor_witness :
  exists w',
    HDFwriter.write "0.59.8"
      (Obj (Group (Node "" "/" [("instrument", PyStr "Cypher"); ("channels", PyInt 2)]
                        false) [])) fresh_world
    = (Ok ([], Group (Node "" "/" [("instrument", PyStr "Cypher"); ("channels", PyInt 2)]
                           false) []), w') /\
    steady fresh_world w' /\
    stored_attr w' [] "instrument" = Some (Val (PyStr "Cypher")) /\
    stored_attr w' [] "channels" = Some (Val (PyInt 2)) /\
    stored_attr w' [] "Pycroscopy version" = Some (Val (PyStr "0.59.8")).
Proof.
  destruct (write_file_descriptor "0.59.8"
              (Node "" "/" [("instrument", PyStr "Cypher"); ("channels", PyInt 2)] false)
              [] fresh_world _ eq_refl eq_refl eq_refl eq_refl eq_refl)
    as (w1 & Hst & _ & Hin & Hver & Hrun).
  - repeat constructor; simpl; intuition discriminate.
  - repeat constructor; eexists; repeat split; reflexivity.
  - exists w1. split; [exact (Hrun _ _ eq_refl)|]. split; [exact Hst|].
    split; [|split].
    + destruct (Hin "instrument" (PyStr "Cypher")) as (v' & Hc & Hg);
        [simpl; auto|]. inversion Hc; subst. exact Hg.
    + destruct (Hin "channels" (PyInt 2)) as (v' & Hc & Hg); [simpl; auto|].
      inversion Hc; subst. exact Hg.
    + apply Hver. simpl. intuition discriminate.
Defined.

(** X18: every handle in the list that [write] returns stands for an
    object that is in the file when [write] returns, a group for the
    handle of a group and a dataset for the handle of a dataset. *)
Theorem written_handles_refer_to_objects :
  forall version data w refs data' w',
    HDFwriter.write version data w = (Ok (refs, data'), w') ->
    Forall (refers w') refs.
Proof.
  intros version data w refs data' w' Hrun.
  unfold HDFwriter.write in Hrun. unfold bind at 1 in Hrun.
  destruct (H5.set_attr _ _ _ w) as [[[]|e] w0]; [|discriminate].
  destruct data as [[n|n children|n f]|]; [| | |discriminate].
  - (* a plain descriptor has no children *)
    unfold bind at 1 in Hrun. cbn [node_of] in Hrun.
    destruct (String.eqb (name n) "" && String.eqb (parent n) "/").
    + unfold bind at 1 in Hrun.
      destruct (for_each _ (attrs n) w0) as [[[]|e] w1]; [|discriminate].
      discriminate.
    + unfold bind at 1 in Hrun.
      destruct (H5.getitem (parent n) w0) as [[hp|e] w1]; [|discriminate].
      discriminate.
  - unfold bind at 1 in Hrun. cbn [node_of] in Hrun.
    assert (Hpop : forall root w1 n1 cs1,
               bind (HDFwriter.populate_all cs1 root [])
                    (fun r => ret (snd r, Group n1 (fst r))) w1
               = (Ok (refs, data'), w') -> Forall (refers w') refs).
    { clear. intros root w1 n1 cs1 H. unfold bind in H.
      destruct (HDFwriter.populate_all cs1 root [] w1) as [[[cs' rl']|e] w2] eqn:Hpa;
        [|discriminate].
      unfold ret in H. simpl in H. inversion H; subst.
      destruct (populate_all_refers _ _ _ _ _ _ Hpa) as (_ & Hh).
      destruct (Hh _ _ eq_refl) as (hs & -> & Hr). exact Hr. }
    destruct (String.eqb (name n) "" && String.eqb (parent n) "/").
    + unfold bind at 1 in Hrun.
      destruct (for_each _ (attrs n) w0) as [[[]|e] w1]; [|discriminate].
      unfold ret at 1 in Hrun. cbn [fst snd] in Hrun. eapply Hpop; eauto.
    + unfold bind at 1 in Hrun.
      destruct (H5.getitem (parent n) w0) as [[hp|e] w1]; [|discriminate].
      unfold bind at 1 in Hrun.
      destruct (HDFwriter._create_group hp (Group n children) w1)
        as [[[h g']|e] w2] eqn:Hcg; [|discriminate].
      destruct (create_group_steps _ _ _ _ _ _ _ Hcg) as (nm & w3 & _ & _ & ->).
      unfold ret at 1 in Hrun. cbn [fst snd] in Hrun. eapply Hpop; eauto.
  - unfold bind at 1 in Hrun.
    destruct (try_except _ _ w0) as [[hp|e] w1]; [|discriminate].
    unfold bind in Hrun.
    destruct (HDFwriter._create_dataset hp (Dataset n f) w1) as [[h|e] w2] eqn:Hcd;
      [|discriminate].
    unfold ret in Hrun. inversion Hrun; subst.
    constructor; [|constructor]. eapply create_dataset_refers; eauto.
Qed.

(** The two handles of the small tree. *)
Lemma written_handles_refer_to_objects_witness :
  exists refs data' w',
    HDFwriter.write "0.59.8" (Obj small_tree) fresh_world = (Ok (refs, data'), w') /\
    List.length refs = 2%nat /\
    Forall (refers w') refs.
Proof.
  destruct (HDFwriter.write "0.59.8" (Obj small_tree) fresh_world)
    as [[[refs data']|e] w'] eqn:Hrun.
  - pose proof (written_handles_refer_to_objects _ _ _ _ _ _ Hrun) as Hr.
    exists refs, data', w'. split; [reflexivity|]. split; [|exact Hr].
    vm_compute in Hrun. inversion Hrun; subst. reflexivity.
  - vm_compute in Hrun. discriminate.
Defined.

(** X19: [write] removes nothing, however it ends: an object that was
    in the file is in the file afterwards, a group if it was a group
    and the dataset it was if it was a dataset. *)
Theorem write_removes_nothing :
  forall version data w r w' p o,
    HDFwriter.write version data w = (r, w') ->
    H5.lookup p (objects (file w)) = Some o ->
    exists o', H5.lookup p (objects (file w')) = Some o' /\ kind o' = kind o.
Proof.
  intros version data w r w' p o Hrun. revert p o.
  change (grown w w'). revert w r w' Hrun. change (grows (HDFwriter.write version data)).
  unfold HDFwriter.write.
  apply grows_bind; [apply keeps_grows, keeps_set_attr|]. intros _.
  assert (Hrest : forall data0,
    grows (bind (if String.eqb (name (node_of data0)) "" &&
                    String.eqb (parent (node_of data0)) "/"
                 then
                   bind (for_each (fun kv : string * att_val =>
                           bind (lift (clean_string_att (snd kv)))
                                (fun v => H5.set_attr HDFwriter.root_handle (fst kv) (Val v)))
                           (attrs (node_of data0)))
                        (fun _ => ret (path_name [], data0))
                 else
                   bind (H5.getitem (parent (node_of data0))) (fun h5_parent =>
                     bind (HDFwriter._create_group h5_parent data0) (fun r =>
                       ret (path_name (h_path (fst r)), snd r))))
            (fun r => match snd r with
                      | Group n children =>
                          bind (HDFwriter.populate_all children (fst r) [])
                               (fun r0 => ret (snd r0, Group n (fst r0)))
                      | _ => raise AttributeError
                      end))).
  { intros data0. apply grows_bind.
    - destruct (_ && _).
      + apply keeps_grows, keeps_bind; [|intros; apply keeps_ret].
        apply keeps_for_each. intros kv.
        apply keeps_bind; [apply keeps_lift | intros; apply keeps_set_attr].
      + apply grows_bind; [apply keeps_grows, keeps_getitem|]. intros hp.
        apply grows_bind; [apply grows_create_group|]. intros r0.
        apply keeps_grows, keeps_ret.
    - intros [root d]. cbn [fst snd].
      destruct d as [n|n children|n f]; try (apply keeps_grows, keeps_raise).
      apply grows_bind; [|intros; apply keeps_grows, keeps_ret].
      intros w1 r1 w2 H. eapply populate_all_refers; eauto. }
  destruct data as [[n|n children|n f]|].
  - apply Hrest.
  - apply Hrest.
  - apply grows_bind.
    + apply grows_try_except; [apply keeps_grows, keeps_getitem|].
      intros e. destruct e; apply keeps_grows, keeps_raise.
    + intros hp. apply grows_bind; [apply grows_create_dataset|].
      intros h. apply keeps_grows, keeps_ret.
  - apply keeps_grows, keeps_raise.
Qed.

(** The group [/Run_000] of the sample file, after a [write] that
    fails for want of a parent. *)
Lemma write_removes_nothing_witness :
  exists r w' o',
    HDFwriter.write "0.59.8"
      (Obj (Group (Node "Channel_000" "/Measurement_000" [] false) [])) sample_world
    = (r, w') /\
    H5.lookup ["Run_000"] (objects (file w')) = Some o' /\ kind o' = IsGroup.
Proof.
  destruct (HDFwriter.write "0.59.8"
              (Obj (Group (Node "Channel_000" "/Measurement_000" [] false) []))
              sample_world) as [r w'] eqn:Hrun.
  destruct (write_removes_nothing _ _ _ _ _ ["Run_000"] _ Hrun eq_refl)
    as (o' & Hl & Hk).
  exists r, w', o'. split; [reflexivity|]. split; [exact Hl | exact Hk].
Defined.

(** X20: a dataset whose attributes cannot be written stays in the
    file.  When [_create_dataset] raises under a fresh name and leaves
    the file open, the dataset has been made: the failure came from the
    attributes, and nothing takes the dataset back. *)
Theorem dataset_stays_when_attributes_fail :
  forall h5_group n f w e w',
    closed (file w) = false ->
    h_is_group h5_group = true ->
    H5.lookup (h_path h5_group ++ [name n])%list (objects (file w)) = None ->
    HDFwriter._create_dataset h5_group (Dataset n f) w = (Raise e, w') ->
    closed (file w') = false ->
    exists d a,
      H5.lookup (h_path h5_group ++ [name n])%list (objects (file w'))
      = Some (H5Object (IsDataset d) a) /\
      exists h w1,
        HDFwriter.build_dataset h5_group n f w = (Ok h, w1) /\
        HDFwriter.__write_attributes n h w1 = (Raise e, w').
Proof.
  intros g n f w e w' Hopen Hgrp Hfresh Hrun Hopen'.
  unfold HDFwriter._create_dataset in Hrun. rewrite Hgrp in Hrun. simpl in Hrun.
  unfold bind at 1 in Hrun. unfold H5.keys, H5.opened in Hrun.
  rewrite Hopen in Hrun. unfold ret at 1 in Hrun.
  rewrite (key_absent _ _ _ Hfresh) in Hrun.
  unfold bind at 1 in Hrun.
  destruct (HDFwriter.build_dataset g n f w) as [[h|e1] w1] eqn:Hb.
  - unfold bind, ret in Hrun.
    destruct (HDFwriter.__write_attributes n h w1) as [[[]|e2] w2] eqn:Hattrs;
      [discriminate|].
    inversion Hrun; subst e2 w2.
    destruct (build_dataset_made _ _ _ _ _ _ Hb) as (d & Hl & _).
    rewrite (build_dataset_path _ _ _ _ _ _ Hb) in Hl.
    destruct (keeps_write_attributes _ _ _ _ _ Hattrs) as (_ & _ & Hk).
    specialize (Hk (h_path g ++ [name n])%list). rewrite Hl in Hk. simpl in Hk.
    destruct (H5.lookup (h_path g ++ [name n])%list (objects (file w')))
      as [[k a]|]; [|discriminate].
    simpl in Hk. inversion Hk; subst. exists d, a. split; [reflexivity|].
    exists h, w1. auto.
  - inversion Hrun; subst.
    rewrite (build_dataset_raises_closed _ _ _ _ _ _ Hb) in Hopen'. discriminate.
Qed.

(** A dataset with an attribute that [clean_string_att] does not
    take. *)
Lemma dataset_stays_when_attributes_fail_witness :
  exists w' d a,
    HDFwriter._create_dataset HDFwriter.root_handle
      (Dataset (Node "Raw_Data" "/" [("quantity", NpArrS (Item "Current"))] false)
         (DatasetFields (Some (NdArray [2] "int64" [7; 8])) None None None false None))
      fresh_world = (Raise TypeError, w') /\
    H5.lookup ["Raw_Data"] (objects (file w')) = Some (H5Object (IsDataset d) a).
Proof.
  destruct (HDFwriter._create_dataset HDFwriter.root_handle
      (Dataset (Node "Raw_Data" "/" [("quantity", NpArrS (Item "Current"))] false)
         (DatasetFields (Some (NdArray [2] "int64" [7; 8])) None None None false None))
      fresh_world) as [r w'] eqn:Hrun.
  assert (Hr : r = Raise TypeError) by (vm_compute in Hrun; now inversion Hrun).
  subst r.
  destruct (fun H1 H2 H3 => dataset_stays_when_attributes_fail _ _ _ _ _ _
                              H1 H2 H3 Hrun)
    as (d & a & Hl & _); try reflexivity.
  - vm_compute in Hrun. now inversion Hrun.
  - exists w', d, a. split; [reflexivity | exact Hl].
Defined.

(** X21: when every region has one slice for each dimension of the
    dataset, [__write_region_references] goes through without a
    warning; each region can then be read back as a region reference
    under its name, and the other attributes of the dataset are as they
    were. *)
Theorem region_references_stored :
  forall h d slices w a,
    closed (file w) = false ->
    H5.lookup (h_path h) (objects (file w)) = Some (H5Object (IsDataset d) a) ->
    NoDup (Dict.keys slices) ->
    (forall nm sel, In (nm, sel) slices ->
       List.length sel = List.length (ds_shape d) /\
       refuses (file w) (SetAttr nm (RegionReference sel)) = false) ->
    exists w',
      HDFwriter.__write_region_references h slices w = (Ok tt, w') /\
      warnings w' = warnings w /\
      closed (file w') = false /\
      (forall nm sel, In (nm, sel) slices ->
         stored_attr w' (h_path h) nm = Some (RegionReference sel)) /\
      (forall k, ~ In k (Dict.keys slices) ->
         stored_attr w' (h_path h) k = Dict.get k a).
Proof.
  intros h d slices w a Hopen Hl Hnd Hall.
  destruct (write_region_references_ok h d slices w a Hopen Hl Hnd Hall)
    as (w' & Hrun & Hc & _ & Hw & Hl' & _).
  exists w'. split; [exact Hrun|]. split; [exact Hw|]. split; [exact Hc|].
  unfold stored_attr. rewrite Hl'. simpl. split.
  - intros nm sel Hin. apply set_all_in.
    + now rewrite region_attrs_keys.
    + unfold region_attrs.
      change (nm, RegionReference sel)
        with ((fun kv : string * list slice => (fst kv, RegionReference (snd kv)))
                (nm, sel)).
      now apply in_map.
  - intros k Hk. apply set_all_notin. now rewrite region_attrs_keys.
Qed.

(** The two rows of the table. *)
Lemma region_references_stored_witness :
  exists w',
    HDFwriter.__write_region_references table_handle
      [("A", [Slice (Some 0) (Some 1) None; Slice None None None]);
       ("B", [Slice (Some 1) (Some 2) None; Slice None None None])] table_world
    = (Ok tt, w') /\
    warnings w' = [] /\
    stored_attr w' (h_path table_handle) "B"
    = Some (RegionReference [Slice (Some 1) (Some 2) None; Slice None None None]).
Proof.
  destruct (region_references_stored table_handle _
              [("A", [Slice (Some 0) (Some 1) None; Slice None None None]);
               ("B", [Slice (Some 1) (Some 2) None; Slice None None None])]
              table_world _ eq_refl eq_refl)
    as (w' & Hrun & Hw & _ & Hin & _).
  - repeat constructor; simpl; intuition discriminate.
  - intros nm sel [H|[H|[]]]; inversion H; subst; split; reflexivity.
  - exists w'. split; [exact Hrun|]. split; [exact Hw|].
    apply Hin. simpl. auto.
Defined.
